(** * osbs-client: rendering of the plugin pipeline configuration

    A shallow embedding of [osbs/build/plugins_configuration.py]:
    the [PluginsTemplate] document with its lookup / insert / remove /
    argument primitives, the customization pass, the rendering rules and
    the two [render] entry points, followed by the properties of the
    design document that concern them.

    Python objects are modelled as follows.
    - JSON values ([json.load] results, plugin arguments, parameter
      values) are the inductive [json]; Python's [None] is [JNull].
      Numbers are integers.
    - A Python [dict] with string keys is an association list in insertion
      order: a lookup returns the first binding, an assignment replaces
      the binding in place or appends a new one.
    - The template document is a dict from phase names to lists of plugin
      entries; a plugin entry is itself a dict, so that a missing [name]
      or [args] key and an [args] value that is not a mapping are
      representable, exactly as the code may meet them.
    - Methods run in a state-and-exception monad over [World]: the
      [PluginsTemplate] instance, the two files it may read and the records
      handed to the logger.  A raised exception keeps the state reached so
      far, as in Python. *)

From Stdlib Require Import String Ascii List Bool ZArith Lia DecimalString.
From Stdlib Require DecimalZ DecimalPos.
Import ListNotations.
Open Scope string_scope.

Set Implicit Arguments.
Set Warnings "-register-all".

(* ================================================================== *)
(** ** JSON values and Python dictionaries                             *)
(* ================================================================== *)

Inductive json : Type :=
| JNull
| JBool (b : bool)
| JNum (z : Z)
| JStr (s : string)
| JList (l : list json)
| JObj (m : list (string * json)).

Module Dict.

Section Ops.
Variable V : Type.

(** [d.get(k)]: the first binding of [k]. *)
Fixpoint get (k : string) (d : list (string * V)) : option V :=
  match d with
  | [] => None
  | (k', v) :: r => if String.eqb k' k then Some v else get k r
  end.

(** [k in d]. *)
Definition mem (k : string) (d : list (string * V)) : bool :=
  match get k d with Some _ => true | None => false end.

(** [d[k] = v]: replace in place, or append a new binding. *)
Fixpoint set (k : string) (v : V) (d : list (string * V))
  : list (string * V) :=
  match d with
  | [] => [(k, v)]
  | (k', v') :: r =>
      if String.eqb k' k then (k', v) :: r else (k', v') :: set k v r
  end.

(** [d.pop(k, None)] leaves the dictionary without [k]. *)
Fixpoint remove (k : string) (d : list (string * V))
  : list (string * V) :=
  match d with
  | [] => []
  | (k', v') :: r =>
      if String.eqb k' k then r else (k', v') :: remove k r
  end.
End Ops.

End Dict.

Definition dict := list (string * json).

(** Python truthiness of a JSON value ([if value:]). *)
Definition truthy (v : json) : bool :=
  match v with
  | JNull => false
  | JBool b => b
  | JNum z => negb (Z.eqb z 0)
  | JStr s => negb (String.eqb s EmptyString)
  | JList l => match l with [] => false | _ => true end
  | JObj m => match m with [] => false | _ => true end
  end.

(** [value is not None]. *)
Definition is_not_None (v : json) : bool :=
  match v with JNull => false | _ => true end.

(* ================================================================== *)
(** ** Exceptions, log records, files                                  *)
(* ================================================================== *)

Inductive exn : Type :=
| KeyError
| IndexError
| TypeError
| ValueError
| RuntimeError (msg : string)
| OsbsException (msg : string)
| OsbsValidationException (msg : string).

Inductive result (A : Type) : Type :=
| Ok (a : A)
| Err (e : exn).
Arguments Ok {A} a.
Arguments Err {A} e.

Inductive level := DEBUG | INFO.

(** A call [logger.<level>(msg, *args)]. *)
Record log_record := LogRecord {
  lr_level : level;
  lr_msg : string;
  lr_args : list json
}.

(** Outcome of [open(path)] followed by [json.load(fp)]: [open] raises
    [IOError]/[OSError], [json.load] raises [ValueError] on text that is
    not JSON, otherwise the parsed document is returned. *)
Inductive read_result (A : Type) : Type :=
| ReadIOError (repr_ex : string)
| ReadValueError
| ReadOk (a : A).
Arguments ReadIOError {A} repr_ex.
Arguments ReadValueError {A}.
Arguments ReadOk {A} a.

(* ================================================================== *)
(** ** The documents                                                    *)
(* ================================================================== *)

(** A plugin entry [{name: ..., args: {...}}]. *)
Definition plugin := dict.

(** The template: phase name -> list of plugin entries. *)
Definition template_t := list (string * list plugin).

(** One directive of the customization document.  A key that is present
    holds a string ([plugin_type], [plugin_name]) or any JSON value
    ([plugin_args]); a key that is absent is [None]. *)
Record custom_entry := CustomEntry {
  plugin_type : option string;
  plugin_name : option string;
  plugin_args : option json
}.

(** The customization document; an absent key is [None]. *)
Record customize_conf_t := CustomizeConf {
  disable_plugins : option (list custom_entry);
  enable_plugins : option (list custom_entry)
}.

(** The empty dictionary. *)
Definition empty_conf : customize_conf_t := CustomizeConf None None.

(* ================================================================== *)
(** ** class PluginsTemplate                                            *)
(* ================================================================== *)

Record PluginsTemplate := mkPluginsTemplate {
  _template : option template_t;
  _customize_conf : option customize_conf_t;
  _build_json_dir : string;
  _template_path : string;
  _customize_conf_path : option string
}.

(** [PluginsTemplate.__init__] *)
Definition PluginsTemplate_init (build_json_dir template_path : string)
  (customize_conf_path : option string) : PluginsTemplate :=
  mkPluginsTemplate None None build_json_dir template_path customize_conf_path.

(** What a method can see and change: the instance, the files under the
    build-json directory (read only) and the log. *)
Record World := mkWorld {
  pt : PluginsTemplate;
  template_files : string -> read_result template_t;
  customize_files : string -> read_result customize_conf_t;
  logged : list log_record
}.

Definition M (A : Type) : Type := World -> result A * World.

Definition ret {A} (a : A) : M A := fun w => (Ok a, w).

Definition raise {A} (e : exn) : M A := fun w => (Err e, w).

Definition bind {A B} (m : M A) (f : A -> M B) : M B :=
  fun w =>
    match m w with
    | (Ok a, w') => f a w'
    | (Err e, w') => (Err e, w')
    end.

(** [try: m except <handled>: h] *)
Definition try_except {A} (m : M A) (h : exn -> option (M A)) : M A :=
  fun w =>
    match m w with
    | (Ok a, w') => (Ok a, w')
    | (Err e, w') =>
        match h e with
        | Some k => k w'
        | None => (Err e, w')
        end
    end.

Declare Scope py_scope.
Delimit Scope py_scope with py.
Notation "x <- m ;; k" := (bind m (fun x => k))
  (at level 61, m at next level, right associativity) : py_scope.
Notation "m ;;; k" := (bind m (fun _ => k))
  (at level 61, right associativity) : py_scope.
Open Scope py_scope.

Definition log (lv : level) (msg : string) (args : list json) : M unit :=
  fun w =>
    (Ok tt,
     mkWorld (pt w) (template_files w) (customize_files w)
       (logged w ++ [LogRecord lv msg args])).

Definition with_pt (f : PluginsTemplate -> PluginsTemplate) (w : World)
  : World :=
  mkWorld (f (pt w)) (template_files w) (customize_files w) (logged w).

Definition set__template (t : template_t) (p : PluginsTemplate)
  : PluginsTemplate :=
  mkPluginsTemplate (Some t) (_customize_conf p) (_build_json_dir p)
    (_template_path p) (_customize_conf_path p).

Definition set__customize_conf (c : customize_conf_t) (p : PluginsTemplate)
  : PluginsTemplate :=
  mkPluginsTemplate (_template p) (Some c) (_build_json_dir p)
    (_template_path p) (_customize_conf_path p).

(** [os.path.join(a, b)] (posixpath). *)
Definition starts_with_slash (s : string) : bool :=
  match s with
  | String c _ => Ascii.eqb c "/"%char
  | EmptyString => false
  end.

Fixpoint ends_with_slash (s : string) : bool :=
  match s with
  | EmptyString => false
  | String c EmptyString => Ascii.eqb c "/"%char
  | String _ r => ends_with_slash r
  end.

Definition os_path_join (a b : string) : string :=
  if starts_with_slash b then b
  else if (String.eqb a EmptyString || ends_with_slash a)%bool then a ++ b
  else a ++ "/" ++ b.

(** The [template] property: loaded on first access, then cached. *)
Definition template : M template_t :=
  fun w =>
    match _template (pt w) with
    | Some t => (Ok t, w)
    | None =>
        let path := os_path_join (_build_json_dir (pt w)) (_template_path (pt w)) in
        match log DEBUG "loading template from path %s" [JStr path] w with
        | (_, w1) =>
            match template_files w1 path with
            | ReadOk t => (Ok t, with_pt (set__template t) w1)
            | ReadIOError r =>
                (Err (OsbsException
                        ("Can't open template '" ++ path ++ "': " ++ r)), w1)
            | ReadValueError => (Err ValueError, w1)
            end
        end
    end.

(** The [customize_conf] property. *)
Definition customize_conf : M customize_conf_t :=
  fun w =>
    match _customize_conf (pt w) with
    | Some c => (Ok c, w)
    | None =>
        match _customize_conf_path (pt w) with
        | None => (Ok empty_conf, with_pt (set__customize_conf empty_conf) w)
        | Some cp =>
            let path := os_path_join (_build_json_dir (pt w)) cp in
            match log INFO "loading customize conf from path %s" [JStr path] w with
            | (_, w1) =>
                match customize_files w1 path with
                | ReadOk c => (Ok c, with_pt (set__customize_conf c) w1)
                | ReadIOError _ =>
                    match log INFO "failed to find customize conf from path %s"
                            [JStr path] w1 with
                    | (_, w2) =>
                        (Ok empty_conf,
                         with_pt (set__customize_conf empty_conf) w2)
                    end
                | ReadValueError => (Err ValueError, w1)
                end
            end
        end
    end.

(** [d[k]] on the template: [KeyError] when the phase is missing. *)
Definition getitem (phase : string) (t : template_t) : M (list plugin) :=
  match Dict.get phase t with
  | Some l => ret l
  | None => raise KeyError
  end.

(** In-place mutation of the list object [self.template[phase]]. *)
Definition store_phase (phase : string) (l : list plugin) : M unit :=
  fun w =>
    match _template (pt w) with
    | Some t => (Ok tt, with_pt (set__template (Dict.set phase l t)) w)
    | None => (Ok tt, w)
    end.

(** [p.get('name') == name] for a string [name]. *)
Definition name_is (name : string) (p : plugin) : bool :=
  match Dict.get "name" p with
  | Some (JStr s) => String.eqb s name
  | _ => false
  end.

(** The loop of [remove_plugin]: drop the first entry with the name;
    [None] when the loop ends without a match.  ([list.remove(p)] drops
    the first element equal to [p]; an equal element has the same name,
    so none comes before [p], the first entry with the name.) *)
Fixpoint remove_first (name : string) (l : list plugin)
  : option (list plugin) :=
  match l with
  | [] => None
  | p :: r =>
      if name_is name p then Some r
      else option_map (cons p) (remove_first name r)
  end.

Definition reason_given (reason : option string) : bool :=
  match reason with
  | Some r => negb (String.eqb r EmptyString)
  | None => false
  end.

Definition reason_json (reason : option string) : json :=
  match reason with Some r => JStr r | None => JNull end.

Definition remove_plugin (phase name : string) (reason : option string)
  : M unit :=
  t <- template ;;
  l <- getitem phase t ;;
  match remove_first name l with
  | Some l' =>
      store_phase phase l' ;;;
      if reason_given reason
      then log INFO "Removing %s:%s, %s"
             [JStr phase; JStr name; reason_json reason]
      else ret tt
  | None => ret tt
  end.

(** The loop of [add_plugin]: [plugin['name']] raises [KeyError] on an
    entry without a name, after the entries before it were visited.
    Returns the list as mutated so far, whether an entry was overridden
    and whether the loop raised. *)
Fixpoint add_plugin_scan (name : string) (args : json) (l : list plugin)
  : list plugin * bool * bool :=
  match l with
  | [] => ([], false, false)
  | p :: r =>
      match Dict.get "name" p with
      | None => (p :: r, false, true)
      | Some v =>
          let hit := match v with JStr s => String.eqb s name | _ => false end in
          let '(r', modified, raised) := add_plugin_scan name args r in
          ((if hit then Dict.set "args" args p else p) :: r',
           (hit || modified)%bool, raised)
      end
  end.

Definition new_plugin (name : string) (args : json) : plugin :=
  [("name", JStr name); ("args", args)].

Definition add_plugin (phase name : string) (args : json)
  (reason : option string) : M unit :=
  t <- template ;;
  l <- getitem phase t ;;
  let '(l', plugin_modified, raised) := add_plugin_scan name args l in
  store_phase phase l' ;;;
  if raised then raise KeyError
  else if negb plugin_modified then
    store_phase phase (l' ++ [new_plugin name args]) ;;;
    if reason_given reason
    then log INFO "%s:%s with args %s, %s"
           [JStr phase; JStr name; args; reason_json reason]
    else ret tt
  else ret tt.

Definition get_plugin_conf (phase name : string) : M plugin :=
  t <- template ;;
  l <- getitem phase t ;;
  match filter (name_is name) l with
  | p :: _ => ret p
  | [] => raise IndexError
  end.

Definition has_plugin_conf (phase name : string) : M bool :=
  try_except
    (get_plugin_conf phase name ;;; ret true)
    (fun e =>
       match e with
       | KeyError | IndexError => Some (ret false)
       | _ => None
       end).

Definition dquote : string := String (ascii_of_nat 34) EmptyString.

Definition _get_plugin_conf_or_fail (phase name : string) : M plugin :=
  try_except
    (get_plugin_conf phase name)
    (fun e =>
       match e with
       | KeyError =>
           Some (raise (RuntimeError
                          ("Invalid template: plugin phase '" ++ phase ++ "' misses")))
       | IndexError =>
           Some (raise (RuntimeError
                          ("no such plugin in template: " ++ dquote ++ name ++ dquote)))
       | _ => None
       end).

(** The entry returned by [get_plugin_conf] is the first one with the
    name; mutating it changes that element of the phase's list. *)
Fixpoint replace_first (name : string) (p' : plugin) (l : list plugin)
  : list plugin :=
  match l with
  | [] => []
  | p :: r =>
      if name_is name p then p' :: r else p :: replace_first name p' r
  end.

Definition set_plugin_arg (phase name arg_key : string) (arg_value : json)
  : M unit :=
  plugin_conf <- _get_plugin_conf_or_fail phase name ;;
  t <- template ;;
  l <- getitem phase t ;;
  match Dict.get "args" plugin_conf with
  | None =>
      (* setdefault creates the mapping, then the key is assigned *)
      store_phase phase
        (replace_first name
           (Dict.set "args" (JObj [(arg_key, arg_value)]) plugin_conf) l)
  | Some (JObj a) =>
      store_phase phase
        (replace_first name
           (Dict.set "args" (JObj (Dict.set arg_key arg_value a)) plugin_conf) l)
  | Some _ =>
      (* item assignment with a string key on None, a number, a string
         or a list *)
      raise TypeError
  end.

Definition set_plugin_arg_valid (phase plugin_ name : string) (value : json)
  : M bool :=
  if is_not_None value then
    set_plugin_arg phase plugin_ name value ;;;
    ret true
  else ret false.

(** The value handed to [json.dumps] by [to_json]; the text encoding
    itself is not modelled. *)
Definition template_to_json (t : template_t) : json :=
  JObj (map (fun '(phase, l) => (phase, JList (map JObj l))) t).

Definition to_json : M json :=
  t <- template ;;
  ret (template_to_json t).

(* ================================================================== *)
(** ** The parameters object                                            *)
(* ================================================================== *)

(** Modelled from the spec: [osbs.constants.BUILD_TYPE_ORCHESTRATOR] is
    not part of the sources at hand; the build type of the orchestrator
    role is the string the tests pass for it. *)
Definition BUILD_TYPE_ORCHESTRATOR : string := "orchestrator".

(** The [user_params] collaborator: the fields the rules read, and its two
    methods.  A field holds a JSON value ([JNull] when unset) unless the
    code needs more of it: [image_tag] is split as a string, [build_type]
    is compared and formatted as a string, [arrangement_version] is
    formatted as an integer, [additional_tags] is a set of strings (given
    in its iteration order) or [None], [customize_conf] is a path or
    [None] (also when the attribute does not exist). *)
Module UserParams.
Record t := mk {
  build_json_dir : string;
  customize_conf : option string;
  arrangement_version : Z;
  build_type : string;
  image_tag : string;
  additional_tags : option (list string);
  build_image : json;
  buildroot_is_imagestream : json;
  compose_ids : json;
  dependency_replacements : json;
  filesystem_koji_task_id : json;
  flatpak : json;
  imagestream_name : json;
  isolated : json;
  koji_parent_build : json;
  koji_target : json;
  koji_upload_dir : json;
  operator_bundle_replacement_pullspecs : json;
  operator_csv_modifications_url : json;
  operator_manifests_extract_platform : json;
  parent_images_digests : json;
  platform : json;
  platforms : json;
  release : json;
  remote_sources : json;
  scratch : json;
  signing_intent : json;
  sources_for_koji_build_id : json;
  sources_for_koji_build_nvr : json;
  tags_from_yaml : json;
  triggered_after_koji_task : json;
  yum_repourls : json;
  (** [to_dict(keys)] *)
  to_dict : list string -> dict;
  (** the outcome of [validate()] *)
  validate : result unit
}.
End UserParams.

(* ================================================================== *)
(** ** class PluginsConfigurationBase: the rendering rules              *)
(* ================================================================== *)

(** [if cond: body] *)
Definition when (cond : bool) (body : M unit) : M unit :=
  if cond then body else ret tt.

(** A call whose return value is dropped. *)
Definition ignore {A} (m : M A) : M unit := m ;;; ret tt.

(** [s.split(':')] *)
Fixpoint split_colon (s : string) : list string :=
  match s with
  | EmptyString => [EmptyString]
  | String a r =>
      if Ascii.eqb a ":"%char then EmptyString :: split_colon r
      else
        match split_colon r with
        | p :: ps => String a p :: ps
        | [] => [String a EmptyString]
        end
  end.

(** [str(n)] for an integer. *)
Definition str_of_int (z : Z) : string :=
  NilZero.string_of_int (Z.to_int z).

Section Rules.

Variable user_params : UserParams.t.

(** [PluginsConfigurationBase.__init__], given the subclass's
    [pt_path]. *)
Definition PluginsConfigurationBase_init (pt_path : string)
  : PluginsTemplate :=
  PluginsTemplate_init (UserParams.build_json_dir user_params) pt_path
    (UserParams.customize_conf user_params).

Definition render_add_filesystem : M unit :=
  let phase := "prebuild_plugins" in
  let plugin_ := "add_filesystem" in
  present <- has_plugin_conf phase plugin_ ;;
  when present
    (ignore (set_plugin_arg_valid phase plugin_ "repos"
               (UserParams.yum_repourls user_params)) ;;;
     ignore (set_plugin_arg_valid phase plugin_ "from_task_id"
               (UserParams.filesystem_koji_task_id user_params)) ;;;
     ignore (set_plugin_arg_valid phase plugin_ "architecture"
               (UserParams.platform user_params)) ;;;
     ignore (set_plugin_arg_valid phase plugin_ "koji_target"
               (UserParams.koji_target user_params))).

Definition render_add_image_content_manifest : M unit :=
  let phase := "prebuild_plugins" in
  let plugin_ := "add_image_content_manifest" in
  present <- has_plugin_conf phase plugin_ ;;
  when present
    (ignore (set_plugin_arg_valid phase plugin_ "remote_sources"
               (UserParams.remote_sources user_params))).

Definition render_add_labels_in_dockerfile : M unit :=
  let phase := "prebuild_plugins" in
  let plugin_ := "add_labels_in_dockerfile" in
  present <- has_plugin_conf phase plugin_ ;;
  when present
    (when (truthy (UserParams.release user_params))
       (let release_label := JObj [("release", UserParams.release user_params)] in
        set_plugin_arg phase plugin_ "labels" release_label)).

Definition render_add_yum_repo_by_url : M unit :=
  present <- has_plugin_conf "prebuild_plugins" "add_yum_repo_by_url" ;;
  when present
    (ignore (set_plugin_arg_valid "prebuild_plugins" "add_yum_repo_by_url"
               "repourls" (UserParams.yum_repourls user_params))).

(** One iteration of the [disable_plugins] loop. *)
Definition disable_one (plugin_ : custom_entry) : M unit :=
  try_except
    (match plugin_type plugin_, plugin_name plugin_ with
     | Some ty, Some nm =>
         remove_plugin ty nm (Some "disabled at user request")
     | _, _ => raise KeyError
     end)
    (fun e =>
       match e with
       | KeyError =>
           Some (log INFO
                   "Invalid custom configuration found for disable_plugins" [])
       | _ => None
       end).

(** One iteration of the [enable_plugins] loop. *)
Definition enable_one (plugin_ : custom_entry) : M unit :=
  try_except
    (let msg := "enabled at user request" in
     match plugin_type plugin_, plugin_name plugin_, plugin_args plugin_ with
     | Some ty, Some nm, Some args => add_plugin ty nm args (Some msg)
     | _, _, _ => raise KeyError
     end)
    (fun e =>
       match e with
       | KeyError =>
           Some (log INFO
                   "Invalid custom configuration found for enable_plugins" [])
       | _ => None
       end).

(** [for x in l: body(x)] *)
Fixpoint for_each {A} (body : A -> M unit) (l : list A) : M unit :=
  match l with
  | [] => ret tt
  | x :: r => body x ;;; for_each body r
  end.

Definition or_empty {A} (o : option (list A)) : list A :=
  match o with Some l => l | None => [] end.

Definition render_customizations : M unit :=
  conf <- customize_conf ;;
  let disable := or_empty (disable_plugins conf) in
  (match disable with
   | [] => log DEBUG "No site-user specified plugins to disable" []
   | _ => for_each disable_one disable
   end) ;;;
  conf' <- customize_conf ;;
  let enable := or_empty (enable_plugins conf') in
  match enable with
  | [] => log DEBUG "No site-user specified plugins to enable" []
  | _ => for_each enable_one enable
  end.

Definition render_check_user_settings : M unit :=
  let phase := "prebuild_plugins" in
  let plugin_ := "check_user_settings" in
  present <- has_plugin_conf phase plugin_ ;;
  when present
    (ignore (set_plugin_arg_valid phase plugin_ "flatpak"
               (UserParams.flatpak user_params))).

Definition render_flatpak_update_dockerfile : M unit :=
  let phase := "prebuild_plugins" in
  let plugin_ := "flatpak_update_dockerfile" in
  present <- has_plugin_conf phase plugin_ ;;
  when present
    (ignore (set_plugin_arg_valid phase plugin_ "compose_ids"
               (UserParams.compose_ids user_params))).

Definition render_koji : M unit :=
  let phase := "prebuild_plugins" in
  let plugin_ := "koji" in
  present <- has_plugin_conf phase plugin_ ;;
  when present
    (ignore (set_plugin_arg_valid phase plugin_ "target"
               (UserParams.koji_target user_params))).

Definition render_bump_release : M unit :=
  let phase := "prebuild_plugins" in
  let plugin_ := "bump_release" in
  present <- has_plugin_conf phase plugin_ ;;
  if negb present then ret tt
  else
    when (truthy (UserParams.flatpak user_params))
      (set_plugin_arg phase plugin_ "append" (JBool true)).

Definition render_check_and_set_platforms : M unit :=
  let phase := "prebuild_plugins" in
  let plugin_ := "check_and_set_platforms" in
  present <- has_plugin_conf phase plugin_ ;;
  if negb present then ret tt
  else
    when (truthy (UserParams.koji_target user_params))
      (set_plugin_arg phase plugin_ "koji_target"
         (UserParams.koji_target user_params)).

Definition render_import_image : M unit :=
  present <- has_plugin_conf "exit_plugins" "import_image" ;;
  when present
    (set_plugin_arg "exit_plugins" "import_image" "imagestream"
       (UserParams.imagestream_name user_params)).

Definition render_inject_parent_image : M unit :=
  let phase := "prebuild_plugins" in
  let plugin_ := "inject_parent_image" in
  present <- has_plugin_conf phase plugin_ ;;
  when present
    (ignore (set_plugin_arg_valid phase plugin_ "koji_parent_build"
               (UserParams.koji_parent_build user_params))).

Definition render_koji_upload : M unit :=
  let phase := "postbuild_plugins" in
  let name := "koji_upload" in
  present <- has_plugin_conf phase name ;;
  if negb present then ret tt
  else
    let set_arg := fun arg value => set_plugin_arg phase name arg value in
    set_arg "koji_upload_dir" (UserParams.koji_upload_dir user_params) ;;;
    set_arg "platform" (UserParams.platform user_params) ;;;
    set_arg "report_multiple_digests" (JBool true).

Definition render_pin_operator_digest : M unit :=
  let phase := "prebuild_plugins" in
  let name := "pin_operator_digest" in
  let replacement_pullspecs :=
    UserParams.operator_bundle_replacement_pullspecs user_params in
  let modifications_url :=
    UserParams.operator_csv_modifications_url user_params in
  present <- has_plugin_conf phase name ;;
  when present
    (when (truthy replacement_pullspecs)
       (set_plugin_arg phase name "replacement_pullspecs"
          replacement_pullspecs) ;;;
     when (truthy modifications_url)
       (set_plugin_arg phase name "operator_csv_modifications_url"
          modifications_url)).

Definition render_export_operator_manifests : M unit :=
  let phase := "postbuild_plugins" in
  let name := "export_operator_manifests" in
  present <- has_plugin_conf phase name ;;
  if negb present then ret tt
  else
    set_plugin_arg phase name "platform" (UserParams.platform user_params) ;;;
    when (truthy (UserParams.operator_manifests_extract_platform user_params))
      (set_plugin_arg phase name "operator_manifests_extract_platform"
         (UserParams.operator_manifests_extract_platform user_params)).

Definition render_koji_tag_build : M unit :=
  let phase := "exit_plugins" in
  let plugin_ := "koji_tag_build" in
  present <- has_plugin_conf phase plugin_ ;;
  when present
    (ignore (set_plugin_arg_valid phase plugin_ "target"
               (UserParams.koji_target user_params))).

(** Parameters to be used in call to create_worker_build *)
Definition worker_params : list string :=
  ["component"; "git_branch"; "git_ref"; "git_uri"; "koji_task_id";
   "filesystem_koji_task_id"; "scratch"; "koji_target"; "user";
   "yum_repourls"; "arrangement_version"; "koji_parent_build"; "isolated";
   "reactor_config_map"; "reactor_config_override"; "git_commit_depth"].

(** [d.pop(k, None)]: the value popped. *)
Definition pop_value (k : string) (d : dict) : json :=
  match Dict.get k d with Some v => v | None => JNull end.

(** The [build_kwargs] dictionary of [render_orchestrate_build]. *)
Definition orchestrate_build_kwargs : dict :=
  let build_kwargs := UserParams.to_dict user_params worker_params in
  (* koji_target is passed as target for some reason *)
  let target := pop_value "koji_target" build_kwargs in
  let build_kwargs := Dict.remove "koji_target" build_kwargs in
  let build_kwargs := Dict.set "target" target build_kwargs in
  if truthy (UserParams.flatpak user_params)
  then Dict.set "flatpak" (JBool true) build_kwargs
  else build_kwargs.

(** ['image:' + build_image] *)
Definition image_prefixed (build_image : json) : M json :=
  match build_image with
  | JStr s => ret (JStr ("image:" ++ s))
  | _ => raise TypeError
  end.

Definition render_orchestrate_build : M unit :=
  let phase := "buildstep_plugins" in
  let plugin_ := "orchestrate_build" in
  present <- has_plugin_conf phase plugin_ ;;
  if negb present then ret tt
  else
    let build_kwargs := orchestrate_build_kwargs in
    ignore (set_plugin_arg_valid phase plugin_ "platforms"
              (UserParams.platforms user_params)) ;;;
    set_plugin_arg phase plugin_ "build_kwargs" (JObj build_kwargs) ;;;
    config_kwargs <-
      (if negb (truthy (UserParams.buildroot_is_imagestream user_params))
       then
         build_from <- image_prefixed (UserParams.build_image user_params) ;;
         ret [("build_from", build_from)]
       else ret []) ;;
    set_plugin_arg phase plugin_ "config_kwargs" (JObj config_kwargs).

Definition render_resolve_composes : M unit :=
  let phase := "prebuild_plugins" in
  let plugin_ := "resolve_composes" in
  present <- has_plugin_conf phase plugin_ ;;
  if negb present then ret tt
  else
    ignore (set_plugin_arg_valid phase plugin_ "compose_ids"
              (UserParams.compose_ids user_params)) ;;;
    ignore (set_plugin_arg_valid phase plugin_ "signing_intent"
              (UserParams.signing_intent user_params)) ;;;
    ignore (set_plugin_arg_valid phase plugin_ "koji_target"
              (UserParams.koji_target user_params)) ;;;
    ignore (set_plugin_arg_valid phase plugin_ "repourls"
              (UserParams.yum_repourls user_params)).

(** The [tag_suffixes] value computed by [render_tag_from_config]:
    the three lists, as they stand after the [extend] calls. *)
Definition tag_suffixes_lists : list string * list string * list string :=
  let unique_tag := last (split_colon (UserParams.image_tag user_params))
                      EmptyString in
  let unique : list string := [unique_tag] in
  let primary : list string := [] in
  let floating : list string := [] in
  if String.eqb (UserParams.build_type user_params) BUILD_TYPE_ORCHESTRATOR
  then
    (* additional_tags or set() *)
    let additional_tags :=
      match UserParams.additional_tags user_params with
      | Some tags => tags
      | None => []
      end in
    if truthy (UserParams.scratch user_params) then
      (unique, primary, floating)
    else if truthy (UserParams.isolated user_params) then
      (unique, (primary ++ ["{version}-{release}"])%list, floating)
    else if truthy (UserParams.tags_from_yaml user_params) then
      (unique, (primary ++ ["{version}-{release}"])%list,
       (floating ++ additional_tags)%list)
    else
      (unique, (primary ++ ["{version}-{release}"])%list,
       ((floating ++ ["latest"; "{version}"]) ++ additional_tags)%list)
  else (unique, primary, floating).

Definition tag_suffixes_json (b : list string * list string * list string)
  : json :=
  let '(unique, primary, floating) := b in
  JObj [("unique", JList (map JStr unique));
        ("primary", JList (map JStr primary));
        ("floating", JList (map JStr floating))].

Definition render_tag_from_config : M unit :=
  let phase := "postbuild_plugins" in
  let plugin_ := "tag_from_config" in
  present <- has_plugin_conf phase plugin_ ;;
  if negb present then ret tt
  else
    let tag_suffixes := tag_suffixes_json tag_suffixes_lists in
    set_plugin_arg phase plugin_ "tag_suffixes" tag_suffixes.

Definition render_pull_base_image : M unit :=
  let phase := "prebuild_plugins" in
  let plugin_ := "pull_base_image" in
  when (truthy (UserParams.parent_images_digests user_params))
    (set_plugin_arg phase plugin_ "parent_images_digests"
       (UserParams.parent_images_digests user_params)).

Definition render_koji_delegate : M unit :=
  let phase := "prebuild_plugins" in
  let plugin_ := "koji_delegate" in
  present <- has_plugin_conf phase plugin_ ;;
  when present
    (when (truthy (UserParams.triggered_after_koji_task user_params))
       (set_plugin_arg phase plugin_ "triggered_after_koji_task"
          (UserParams.triggered_after_koji_task user_params))).

Definition render_tag_and_push : M unit :=
  let phase := "postbuild_plugins" in
  let plugin_ := "tag_and_push" in
  present <- has_plugin_conf phase plugin_ ;;
  when present
    (when (truthy (UserParams.koji_target user_params))
       (set_plugin_arg phase plugin_ "koji_target"
          (UserParams.koji_target user_params))).

Definition render_fetch_sources : M unit :=
  let phase := "prebuild_plugins" in
  let plugin_ := "fetch_sources" in
  present <- has_plugin_conf phase plugin_ ;;
  when present
    (when (truthy (UserParams.sources_for_koji_build_nvr user_params))
       (set_plugin_arg phase plugin_ "koji_build_nvr"
          (UserParams.sources_for_koji_build_nvr user_params)) ;;;
     when (truthy (UserParams.sources_for_koji_build_id user_params))
       (set_plugin_arg phase plugin_ "koji_build_id"
          (UserParams.sources_for_koji_build_id user_params)) ;;;
     when (truthy (UserParams.signing_intent user_params))
       (set_plugin_arg phase plugin_ "signing_intent"
          (UserParams.signing_intent user_params))).

Definition render_download_remote_source : M unit :=
  let phase := "prebuild_plugins" in
  let plugin_ := "download_remote_source" in
  present <- has_plugin_conf phase plugin_ ;;
  when present
    (set_plugin_arg phase plugin_ "remote_sources"
       (UserParams.remote_sources user_params)).

Definition render_resolve_remote_source : M unit :=
  let phase := "prebuild_plugins" in
  let plugin_ := "resolve_remote_source" in
  present <- has_plugin_conf phase plugin_ ;;
  when present
    (ignore (set_plugin_arg_valid phase plugin_ "dependency_replacements"
               (UserParams.dependency_replacements user_params))).

(** [self.user_params.validate()] *)
Definition validate_params : M unit :=
  match UserParams.validate user_params with
  | Ok _ => ret tt
  | Err e => raise e
  end.

End Rules.

(* ================================================================== *)
(** ** The two concrete configurations                                  *)
(* ================================================================== *)

(** Plugin configuration for image builds *)
Module PluginsConfiguration.

Definition pt_path (user_params : UserParams.t) : string :=
  let arrangement_version := UserParams.arrangement_version user_params in
  let build_type := UserParams.build_type user_params in
  build_type ++ "_inner:" ++ str_of_int arrangement_version ++ ".json".

(** The object after [__init__], in a given environment. *)
Definition init (user_params : UserParams.t)
  (tf : string -> read_result template_t)
  (cf : string -> read_result customize_conf_t) : World :=
  mkWorld (PluginsConfigurationBase_init user_params (pt_path user_params))
    tf cf [].

Definition render (user_params : UserParams.t) : M json :=
  validate_params user_params ;;;
  (* adjust for custom configuration first *)
  render_customizations ;;;
  (* Set parameters on each plugin as needed *)
  render_add_filesystem user_params ;;;
  render_add_labels_in_dockerfile user_params ;;;
  render_add_yum_repo_by_url user_params ;;;
  render_bump_release user_params ;;;
  render_check_and_set_platforms user_params ;;;
  render_check_user_settings user_params ;;;
  render_flatpak_update_dockerfile user_params ;;;
  render_import_image user_params ;;;
  render_inject_parent_image user_params ;;;
  render_koji user_params ;;;
  render_koji_tag_build user_params ;;;
  render_koji_upload user_params ;;;
  render_pin_operator_digest user_params ;;;
  render_export_operator_manifests user_params ;;;
  render_orchestrate_build user_params ;;;
  render_pull_base_image user_params ;;;
  render_resolve_composes user_params ;;;
  render_tag_from_config user_params ;;;
  render_koji_delegate user_params ;;;
  render_download_remote_source user_params ;;;
  render_resolve_remote_source user_params ;;;
  render_add_image_content_manifest user_params ;;;
  to_json.

End PluginsConfiguration.

(** Plugins configuration for source container image builds *)
Module SourceContainerPluginsConfiguration.

Definition pt_path (user_params : UserParams.t) : string :=
  let arrangement_version := UserParams.arrangement_version user_params in
  "orchestrator_sources_inner:" ++ str_of_int arrangement_version ++ ".json".

Definition init (user_params : UserParams.t)
  (tf : string -> read_result template_t)
  (cf : string -> read_result customize_conf_t) : World :=
  mkWorld (PluginsConfigurationBase_init user_params (pt_path user_params))
    tf cf [].

Definition render (user_params : UserParams.t) : M json :=
  validate_params user_params ;;;
  (* adjust for custom configuration first *)
  render_customizations ;;;
  (* Set parameters on each plugin as needed *)
  render_fetch_sources user_params ;;;
  render_koji user_params ;;;
  render_koji_tag_build user_params ;;;
  render_tag_and_push user_params ;;;
  to_json.

End SourceContainerPluginsConfiguration.

(* ================================================================== *)
(** * Vocabulary of the statements                                   *)
(* ================================================================== *)

(** Views of the state and of the document, the operations restated on
    the document alone, and a sample build; the lemmas below relate them
    to the methods above. *)

Unset Implicit Arguments.

Definition loaded (w : World) (t : template_t) : Prop :=
  _template (pt w) = Some t.

Definition put_template (t : template_t) (w : World) : World :=
  with_pt (set__template t) w.

(** The only exceptions of the [template] property: the wrapped
    [IOError] and the parser's [ValueError]. *)
Definition is_load_error (e : exn) : bool :=
  match e with
  | OsbsException _ | ValueError => true
  | _ => false
  end.

(** [get_plugin_conf] once the document is at hand. *)
Definition lookup_plugin (phase name : string) (t : template_t)
  : result plugin :=
  match Dict.get phase t with
  | None => Err KeyError
  | Some l =>
      match find (name_is name) l with
      | Some p => Ok p
      | None => Err IndexError
      end
  end.

Definition present (phase name : string) (t : template_t) : bool :=
  match lookup_plugin phase name t with
  | Ok _ => true
  | Err _ => false
  end.

(** The entry's [args] is absent or a mapping. *)
Definition args_is_mapping (p : plugin) : bool :=
  match Dict.get "args" p with
  | None | Some (JObj _) => true
  | Some _ => false
  end.

Definition args_of (p : plugin) : dict :=
  match Dict.get "args" p with
  | Some (JObj a) => a
  | _ => []
  end.

(** The entry after [plugin_conf['args'][k] = v]. *)
Definition with_arg (k : string) (v : json) (p : plugin) : plugin :=
  Dict.set "args" (JObj (Dict.set k v (args_of p))) p.

Definition fail_message (e : exn) (phase name : string) : exn :=
  match e with
  | KeyError =>
      RuntimeError ("Invalid template: plugin phase '" ++ phase ++ "' misses")
  | IndexError =>
      RuntimeError ("no such plugin in template: " ++ dquote ++ name ++ dquote)
  | _ => e
  end.

Definition set_arg_doc (phase name k : string) (v : json) (t : template_t)
  : result template_t :=
  match lookup_plugin phase name t with
  | Err e => Err (fail_message e phase name)
  | Ok p =>
      if args_is_mapping p then
        Ok (Dict.set phase
              (replace_first name (with_arg k v p)
                 (match Dict.get phase t with Some l => l | None => [] end)) t)
      else Err TypeError
  end.

(** [sep.join(parts)] for [sep = ':'] *)
Fixpoint join_colon (parts : list string) : string :=
  match parts with
  | [] => EmptyString
  | [p] => p
  | p :: ps => p ++ ":" ++ join_colon ps
  end.

Definition colon_free (s : string) : bool :=
  forallb (fun c => negb (Ascii.eqb c ":"%char)) (list_ascii_of_string s).

(** The three buckets as the design document states them: the strict
    priority chain scratch > isolated > tags-from-config > default, applied
    for the orchestrator role only. *)
Definition tag_policy (orchestrator scratch isolated tags_from_config : bool)
  (unique_tag : string) (additional_tags : list string)
  : list string * list string * list string :=
  if negb orchestrator then ([unique_tag], [], [])
  else if scratch then ([unique_tag], [], [])
  else if isolated then ([unique_tag], ["{version}-{release}"], [])
  else if tags_from_config then
    ([unique_tag], ["{version}-{release}"], additional_tags)
  else
    ([unique_tag], ["{version}-{release}"],
     "latest" :: "{version}" :: additional_tags).

(** ** A concrete build, for running the model *)

Module Sample.

Definition koji_kwargs (keys : list string) : dict :=
  [("git_uri", JStr "https://src.example.com/ns/pkg.git");
   ("koji_target", JStr "f30-candidate");
   ("scratch", JBool false)].

(** Parameters of an image build; the arguments are the fields the
    examples vary. *)
Definition params (build_type : string) (scratch isolated tags_from_yaml
  parent_images_digests : json) (customize : option string)
  : UserParams.t :=
  {| UserParams.build_json_dir := "/usr/share/osbs";
     UserParams.customize_conf := customize;
     UserParams.arrangement_version := 6;
     UserParams.build_type := build_type;
     UserParams.image_tag := "myimage:7.1-3";
     UserParams.additional_tags := Some ["extra"];
     UserParams.build_image := JStr "registry.example.com/buildroot:latest";
     UserParams.buildroot_is_imagestream := JBool false;
     UserParams.compose_ids := JNull;
     UserParams.dependency_replacements := JNull;
     UserParams.filesystem_koji_task_id := JNull;
     UserParams.flatpak := JBool false;
     UserParams.imagestream_name := JStr "myimage";
     UserParams.isolated := isolated;
     UserParams.koji_parent_build := JNull;
     UserParams.koji_target := JStr "f30-candidate";
     UserParams.koji_upload_dir := JStr "koji-upload";
     UserParams.operator_bundle_replacement_pullspecs := JNull;
     UserParams.operator_csv_modifications_url := JNull;
     UserParams.operator_manifests_extract_platform := JNull;
     UserParams.parent_images_digests := parent_images_digests;
     UserParams.platform := JNull;
     UserParams.platforms := JList [JStr "x86_64"];
     UserParams.release := JNull;
     UserParams.remote_sources := JNull;
     UserParams.scratch := scratch;
     UserParams.signing_intent := JNull;
     UserParams.sources_for_koji_build_id := JNull;
     UserParams.sources_for_koji_build_nvr := JNull;
     UserParams.tags_from_yaml := tags_from_yaml;
     UserParams.triggered_after_koji_task := JNull;
     UserParams.yum_repourls := JNull;
     UserParams.to_dict := koji_kwargs;
     UserParams.validate := Ok tt |}.

Definition orchestrator_params : UserParams.t :=
  params "orchestrator" (JBool false) (JBool false) (JBool false) JNull None.

Definition entry (name : string) (args : dict) : plugin :=
  [("name", JStr name); ("args", JObj args)].

(** An orchestrator template without [pull_base_image]. *)
Definition orchestrator_inner : template_t :=
  [("prebuild_plugins",
    [entry "reactor_config" []; entry "koji" []; entry "bump_release" []]);
   ("buildstep_plugins", [entry "orchestrate_build" []]);
   ("postbuild_plugins", [entry "tag_from_config" []]);
   ("exit_plugins", [entry "koji_tag_build" []; entry "store_metadata" []])].

Definition files (t : read_result template_t) (path : string)
  : read_result template_t :=
  if String.eqb path "/usr/share/osbs/orchestrator_inner:6.json" then t
  else ReadIOError "IOError(2, 'No such file or directory')".

Definition no_customization (path : string) : read_result customize_conf_t :=
  ReadIOError "IOError(2, 'No such file or directory')".

(** A fresh configuration object over the template above. *)
Definition world : World :=
  PluginsConfiguration.init orchestrator_params
    (files (ReadOk orchestrator_inner)) no_customization.

(** The same object once the template has been read. *)
Definition loaded_world : World :=
  snd (template world).

(** A site customization that disables [koji] and enables it again with
    other arguments. *)
Definition site_conf : customize_conf_t :=
  {| disable_plugins :=
       Some [CustomEntry (Some "prebuild_plugins") (Some "koji") None];
     enable_plugins :=
       Some [CustomEntry (Some "prebuild_plugins") (Some "koji")
               (Some (JObj [("hub", JStr "https://koji.example.com/hub")]))] |}.

Definition customized_files (path : string) : read_result customize_conf_t :=
  if String.eqb path "/usr/share/osbs/customize.json" then ReadOk site_conf
  else ReadIOError "IOError(2, 'No such file or directory')".

Definition customized_world : World :=
  PluginsConfiguration.init
    (params "orchestrator" (JBool false) (JBool false) (JBool false) JNull
       (Some "customize.json"))
    (files (ReadOk orchestrator_inner)) customized_files.

(** The same build when the template file is there but is not JSON, and
    when it is not there. *)
Definition bad_json_world : World :=
  PluginsConfiguration.init orchestrator_params (files ReadValueError)
    no_customization.

Definition missing_template_world : World :=
  PluginsConfiguration.init orchestrator_params
    (files (ReadIOError "IOError(2, 'No such file or directory')"))
    no_customization.

(** A build that passes parent image digests, over the sample template
    (which has no [pull_base_image] entry). *)
Definition digests_params : UserParams.t :=
  params "orchestrator" (JBool false) (JBool false) (JBool false)
    (JObj [("registry.example.com/fedora:30",
            JObj [("application/vnd.docker.distribution.manifest.v2+json",
                   JStr "sha256:0123abcd")])])
    None.

End Sample.

(** The document of [w] is loaded and holds [p] as the entry that
    [get_plugin_conf phase name] returns. *)
Definition holds (phase name : string) (w : World) (p : plugin) : Prop :=
  exists t, loaded w t /\ lookup_plugin phase name t = Ok p.

Definition has_name (p : plugin) : bool := Dict.mem "name" p.

(** Every entry of the list has a [name] key. *)
Definition all_named (l : list plugin) : bool := forallb has_name l.

(** [plugin['args'] = args] on the entries with the name. *)
Definition override (name : string) (args : json) (p : plugin) : plugin :=
  if name_is name p then Dict.set "args" args p else p.

(** Add-or-replace on a phase's list, as the design document states it. *)
Definition add_or_replace (name : string) (args : json) (l : list plugin)
  : list plugin :=
  if existsb (name_is name) l then map (override name args) l
  else (l ++ [new_plugin name args])%list.

Definition count_named (name : string) (l : list plugin) : nat :=
  length (filter (name_is name) l).

(** The state after one more record was handed to the logger; nothing
    else differs. *)
Definition emit (r : log_record) (w : World) : World :=
  mkWorld (pt w) (template_files w) (customize_files w) (logged w ++ [r]).

Definition missing_key_disable (e : custom_entry) : bool :=
  match plugin_type e, plugin_name e with
  | Some _, Some _ => false
  | _, _ => true
  end.

Definition missing_key_enable (e : custom_entry) : bool :=
  match plugin_type e, plugin_name e, plugin_args e with
  | Some _, Some _, Some _ => false
  | _, _, _ => true
  end.

Definition invalid_disable : log_record :=
  LogRecord INFO "Invalid custom configuration found for disable_plugins" [].

Definition invalid_enable : log_record :=
  LogRecord INFO "Invalid custom configuration found for enable_plugins" [].

(** The document a state stands for: the cached one, or the one the
    template file holds while it has not been read. *)
Definition doc_is (w : World) (t : template_t) : Prop :=
  _template (pt w) = Some t
  \/ (_template (pt w) = None
      /\ template_files w
           (os_path_join (_build_json_dir (pt w)) (_template_path (pt w)))
         = ReadOk t).

Definition wf_template (t : template_t) : bool :=
  forallb (fun '(_, l) => all_named l) t.

(** One [disable_plugins] directive, on the document. *)
Definition disable_doc (t : template_t) (e : custom_entry) : template_t :=
  match plugin_type e, plugin_name e with
  | Some ty, Some nm =>
      match Dict.get ty t with
      | Some l =>
          match remove_first nm l with
          | Some l' => Dict.set ty l' t
          | None => t
          end
      | None => t
      end
  | _, _ => t
  end.

(** One [enable_plugins] directive, on the document. *)
Definition enable_doc (t : template_t) (e : custom_entry) : template_t :=
  match plugin_type e, plugin_name e, plugin_args e with
  | Some ty, Some nm, Some args =>
      match Dict.get ty t with
      | Some l => Dict.set ty (add_or_replace nm args l) t
      | None => t
      end
  | _, _, _ => t
  end.

(** What the steps of the pass keep: the cached customization document. *)
Definition same_conf (w w' : World) : Prop :=
  _customize_conf (pt w') = _customize_conf (pt w).

Definition template_path_of (w : World) : string :=
  os_path_join (_build_json_dir (pt w)) (_template_path (pt w)).

(** The exception the [template] property raises in a state: none when
    the document is cached or the file holds one. *)
Definition load_failure (w : World) : option exn :=
  match _template (pt w) with
  | Some _ => None
  | None =>
      match template_files w (template_path_of w) with
      | ReadIOError r =>
          Some (OsbsException
                  ("Can't open template '" ++ template_path_of w ++ "': " ++ r))
      | ReadValueError => Some ValueError
      | ReadOk _ => None
      end
  end.

(** A rule that does nothing, and does not raise, when its plugin is not
    in the document. *)
Definition skips_when_absent (phase name : string) (m : M unit) : Prop :=
  forall w t, doc_is w t -> present phase name t = false ->
  exists w', m w = (Ok tt, w') /\ loaded w' t.

Definition no_such_plugin (name : string) : exn :=
  RuntimeError ("no such plugin in template: " ++ dquote ++ name ++ dquote).

Definition same_presence (t t' : template_t) : Prop :=
  forall phase name, present phase name t' = present phase name t.

(** A computation after which, whether it returned or raised, the
    document has the same plugins in the same phases. *)
Definition keeps_presence {A} (m : M A) : Prop :=
  forall w t r w', doc_is w t -> m w = (r, w') ->
  exists t', doc_is w' t' /\ same_presence t t'.

(** ** Further vocabulary: the document after an operation *)

Definition loading_template (w : World) : log_record :=
  LogRecord DEBUG "loading template from path %s" [JStr (template_path_of w)].

(** The path of the customization file, when one is configured. *)
Definition customize_path_of (w : World) : option string :=
  option_map (os_path_join (_build_json_dir (pt w)))
    (_customize_conf_path (pt w)).

(** The list of a phase ([[]] when the phase is missing). *)
Definition phase_list (phase : string) (t : template_t) : list plugin :=
  match Dict.get phase t with
  | Some l => l
  | None => []
  end.

(** The document in which the entry that [get_plugin_conf phase name]
    returns has become [p']. *)
Definition update_entry (phase name : string) (p' : plugin) (t : template_t)
  : template_t :=
  Dict.set phase (replace_first name p' (phase_list phase t)) t.

(** ** Further vocabulary: what the rules keep, and what they write *)

(** A computation that, whether it returns or raises, leaves a document
    related by [R] to the one it found. *)
Definition keeps (R : template_t -> template_t -> Prop) {A} (m : M A)
  : Prop :=
  forall w t r w', doc_is w t -> m w = (r, w') ->
  exists t', doc_is w' t' /\ R t t'.

(** A relation between documents that argument settings on the plugins
    selected by [T] establish. *)
Class DocInvariant (R : template_t -> template_t -> Prop)
  (T : string -> string -> Prop) : Prop := {
  inv_refl : forall t, R t t;
  inv_trans : forall t1 t2 t3, R t1 t2 -> R t2 t3 -> R t1 t3;
  inv_set_arg :
    forall phase name k v t p,
      T phase name ->
      lookup_plugin phase name t = Ok p ->
      args_is_mapping p = true ->
      R t (update_entry phase name (with_arg k v p) t)
}.

Definition any_plugin (phase name : string) : Prop := True.

Definition the_plugin (phase name phase' name' : string) : Prop :=
  (phase', name') = (phase, name).

(** The document without the [args] of its entries. *)
Definition strip_args (t : template_t) : list (string * list plugin) :=
  map (fun '(phase, l) => (phase, map (Dict.remove "args") l)) t.

(** Same phases, same entries in the same order, up to their [args]. *)
Definition same_entries (t t' : template_t) : Prop :=
  strip_args t' = strip_args t.

(** Every plugin found before is found afterwards, with at least the
    arguments it had. *)
Definition args_kept (t t' : template_t) : Prop :=
  forall phase name p,
    lookup_plugin phase name t = Ok p ->
    exists p', lookup_plugin phase name t' = Ok p'
               /\ forall k, Dict.mem k (args_of p) = true ->
                            Dict.mem k (args_of p') = true.

(** Every plugin but the one named is found as before. *)
Definition others_untouched (phase name : string) (t t' : template_t)
  : Prop :=
  forall phase' name', (phase', name') <> (phase, name) ->
  lookup_plugin phase' name' t' = lookup_plugin phase' name' t.

(** The phases of the document, in order. *)
Definition same_phases (t t' : template_t) : Prop :=
  map fst t' = map fst t.

(** The rules of both rule sets, each with the plugin it configures. *)
Definition rule_table (up : UserParams.t)
  : list (string * string * M unit) :=
  [("prebuild_plugins", "add_filesystem", render_add_filesystem up);
   ("prebuild_plugins", "add_image_content_manifest",
    render_add_image_content_manifest up);
   ("prebuild_plugins", "add_labels_in_dockerfile",
    render_add_labels_in_dockerfile up);
   ("prebuild_plugins", "add_yum_repo_by_url", render_add_yum_repo_by_url up);
   ("prebuild_plugins", "check_user_settings", render_check_user_settings up);
   ("prebuild_plugins", "flatpak_update_dockerfile",
    render_flatpak_update_dockerfile up);
   ("prebuild_plugins", "koji", render_koji up);
   ("prebuild_plugins", "bump_release", render_bump_release up);
   ("prebuild_plugins", "check_and_set_platforms",
    render_check_and_set_platforms up);
   ("exit_plugins", "import_image", render_import_image up);
   ("prebuild_plugins", "inject_parent_image", render_inject_parent_image up);
   ("postbuild_plugins", "koji_upload", render_koji_upload up);
   ("prebuild_plugins", "pin_operator_digest", render_pin_operator_digest up);
   ("postbuild_plugins", "export_operator_manifests",
    render_export_operator_manifests up);
   ("exit_plugins", "koji_tag_build", render_koji_tag_build up);
   ("buildstep_plugins", "orchestrate_build", render_orchestrate_build up);
   ("prebuild_plugins", "resolve_composes", render_resolve_composes up);
   ("postbuild_plugins", "tag_from_config", render_tag_from_config up);
   ("prebuild_plugins", "pull_base_image", render_pull_base_image up);
   ("prebuild_plugins", "koji_delegate", render_koji_delegate up);
   ("postbuild_plugins", "tag_and_push", render_tag_and_push up);
   ("prebuild_plugins", "fetch_sources", render_fetch_sources up);
   ("prebuild_plugins", "download_remote_source",
    render_download_remote_source up);
   ("prebuild_plugins", "resolve_remote_source",
    render_resolve_remote_source up)].

(** One argument assignment of a rule: whether it is carried out, the
    key and the value. *)
Definition write : Type := bool * string * json.

(** [set_plugin_arg_valid]: carried out unless the value is [None]. *)
Definition if_set (k : string) (v : json) : write := (is_not_None v, k, v).

(** [if value: set_plugin_arg]: carried out when the value is truthy. *)
Definition if_truthy (v : json) (k : string) (x : json) : write :=
  (truthy v, k, x).

(** [set_plugin_arg], unconditionally. *)
Definition always (k : string) (v : json) : write := (true, k, v).

Definition apply_write (p : plugin) (x : write) : plugin :=
  let '(active, k, v) := x in if active then with_arg k v p else p.

Definition apply_writes (ws : list write) (p : plugin) : plugin :=
  fold_left apply_write ws p.

Definition write_key (x : write) : string := snd (fst x).

(** On a configured plugin whose [args] is absent or a mapping, the
    computation returns and the document is the one in which the
    assignments were applied, in order, to the plugin's entry. *)
Definition performs (phase name : string) (ws : list write) (m : M unit)
  : Prop :=
  forall w t p,
    doc_is w t ->
    lookup_plugin phase name t = Ok p ->
    args_is_mapping p = true ->
    exists w',
      m w = (Ok tt, w')
      /\ doc_is w' (update_entry phase name (apply_writes ws p) t).

(** The assignments of each rule, read off its body.  (The rule of
    [orchestrate_build] is not listed: it can raise on [build_image].) *)
Definition rule_writes (up : UserParams.t)
  : list (string * string * M unit * list write) :=
  [("prebuild_plugins", "add_filesystem", render_add_filesystem up,
    [if_set "repos" (UserParams.yum_repourls up);
     if_set "from_task_id" (UserParams.filesystem_koji_task_id up);
     if_set "architecture" (UserParams.platform up);
     if_set "koji_target" (UserParams.koji_target up)]);
   ("prebuild_plugins", "add_image_content_manifest",
    render_add_image_content_manifest up,
    [if_set "remote_sources" (UserParams.remote_sources up)]);
   ("prebuild_plugins", "add_labels_in_dockerfile",
    render_add_labels_in_dockerfile up,
    [if_truthy (UserParams.release up) "labels"
       (JObj [("release", UserParams.release up)])]);
   ("prebuild_plugins", "add_yum_repo_by_url", render_add_yum_repo_by_url up,
    [if_set "repourls" (UserParams.yum_repourls up)]);
   ("prebuild_plugins", "check_user_settings", render_check_user_settings up,
    [if_set "flatpak" (UserParams.flatpak up)]);
   ("prebuild_plugins", "flatpak_update_dockerfile",
    render_flatpak_update_dockerfile up,
    [if_set "compose_ids" (UserParams.compose_ids up)]);
   ("prebuild_plugins", "koji", render_koji up,
    [if_set "target" (UserParams.koji_target up)]);
   ("prebuild_plugins", "bump_release", render_bump_release up,
    [if_truthy (UserParams.flatpak up) "append" (JBool true)]);
   ("prebuild_plugins", "check_and_set_platforms",
    render_check_and_set_platforms up,
    [if_truthy (UserParams.koji_target up) "koji_target"
       (UserParams.koji_target up)]);
   ("exit_plugins", "import_image", render_import_image up,
    [always "imagestream" (UserParams.imagestream_name up)]);
   ("prebuild_plugins", "inject_parent_image", render_inject_parent_image up,
    [if_set "koji_parent_build" (UserParams.koji_parent_build up)]);
   ("postbuild_plugins", "koji_upload", render_koji_upload up,
    [always "koji_upload_dir" (UserParams.koji_upload_dir up);
     always "platform" (UserParams.platform up);
     always "report_multiple_digests" (JBool true)]);
   ("prebuild_plugins", "pin_operator_digest", render_pin_operator_digest up,
    [if_truthy (UserParams.operator_bundle_replacement_pullspecs up)
       "replacement_pullspecs"
       (UserParams.operator_bundle_replacement_pullspecs up);
     if_truthy (UserParams.operator_csv_modifications_url up)
       "operator_csv_modifications_url"
       (UserParams.operator_csv_modifications_url up)]);
   ("postbuild_plugins", "export_operator_manifests",
    render_export_operator_manifests up,
    [always "platform" (UserParams.platform up);
     if_truthy (UserParams.operator_manifests_extract_platform up)
       "operator_manifests_extract_platform"
       (UserParams.operator_manifests_extract_platform up)]);
   ("exit_plugins", "koji_tag_build", render_koji_tag_build up,
    [if_set "target" (UserParams.koji_target up)]);
   ("prebuild_plugins", "resolve_composes", render_resolve_composes up,
    [if_set "compose_ids" (UserParams.compose_ids up);
     if_set "signing_intent" (UserParams.signing_intent up);
     if_set "koji_target" (UserParams.koji_target up);
     if_set "repourls" (UserParams.yum_repourls up)]);
   ("postbuild_plugins", "tag_from_config", render_tag_from_config up,
    [always "tag_suffixes" (tag_suffixes_json (tag_suffixes_lists up))]);
   ("prebuild_plugins", "pull_base_image", render_pull_base_image up,
    [if_truthy (UserParams.parent_images_digests up) "parent_images_digests"
       (UserParams.parent_images_digests up)]);
   ("prebuild_plugins", "koji_delegate", render_koji_delegate up,
    [if_truthy (UserParams.triggered_after_koji_task up)
       "triggered_after_koji_task"
       (UserParams.triggered_after_koji_task up)]);
   ("postbuild_plugins", "tag_and_push", render_tag_and_push up,
    [if_truthy (UserParams.koji_target up) "koji_target"
       (UserParams.koji_target up)]);
   ("prebuild_plugins", "fetch_sources", render_fetch_sources up,
    [if_truthy (UserParams.sources_for_koji_build_nvr up) "koji_build_nvr"
       (UserParams.sources_for_koji_build_nvr up);
     if_truthy (UserParams.sources_for_koji_build_id up) "koji_build_id"
       (UserParams.sources_for_koji_build_id up);
     if_truthy (UserParams.signing_intent up) "signing_intent"
       (UserParams.signing_intent up)]);
   ("prebuild_plugins", "download_remote_source",
    render_download_remote_source up,
    [always "remote_sources" (UserParams.remote_sources up)]);
   ("prebuild_plugins", "resolve_remote_source",
    render_resolve_remote_source up,
    [if_set "dependency_replacements"
       (UserParams.dependency_replacements up)])].

(** The entry's [args] is a mapping (and not absent). *)
Definition has_mapping (p : plugin) : Prop :=
  Dict.get "args" p = Some (JObj (args_of p)).

(** The [config_kwargs] of [render_orchestrate_build]; [None] when
    ['image:' + build_image] raises. *)
Definition orchestrate_config_kwargs (up : UserParams.t) : option dict :=
  if truthy (UserParams.buildroot_is_imagestream up) then Some []
  else
    match UserParams.build_image up with
    | JStr s => Some [("build_from", JStr ("image:" ++ s))]
    | _ => None
    end.

(** ** Further vocabulary: the whole render *)

(** Every exception the computation can raise, in any state, is in [E]. *)
Definition raises_only (E : exn -> Prop) {A} (m : M A) : Prop :=
  forall w e w', m w = (Err e, w') -> E e.

(** The same, from a state whose document has the plugin configured. *)
Definition raises_only_on (phase name : string) (E : exn -> Prop) {A}
  (m : M A) : Prop :=
  forall w t e w', doc_is w t -> present phase name t = true ->
  m w = (Err e, w') -> E e.

(** What a rule with a presence check can raise: [TypeError] from an
    assignment, or the exception of the [template] property. *)
Definition rule_error (e : exn) : Prop :=
  e = TypeError \/ is_load_error e = true.

(** The two [RuntimeError]s of [set_plugin_arg] for [pull_base_image]. *)
Definition pull_base_image_error (e : exn) : Prop :=
  e = RuntimeError "Invalid template: plugin phase 'prebuild_plugins' misses"
  \/ e = no_such_plugin "pull_base_image".

(** A relation between documents that an operation on the plugin [nm] of
    the phase [ty] establishes, for the plugins selected by [T], when it
    replaces the list of the phase by one in which the entry found under
    every other name is the same. *)
Class PhaseInvariant (R : template_t -> template_t -> Prop)
  (T : string -> string -> Prop) : Prop := {
  ph_refl : forall t, R t t;
  ph_trans : forall t1 t2 t3, R t1 t2 -> R t2 t3 -> R t1 t3;
  ph_store :
    forall ty nm l l' t,
      T ty nm ->
      Dict.get ty t = Some l ->
      (forall name', name' <> nm ->
         find (name_is name') l' = find (name_is name') l) ->
      R t (Dict.set ty l' t)
}.

(** A lookup of the plugin gives what it gave. *)
Definition untouched (phase name : string) (t t' : template_t) : Prop :=
  lookup_plugin phase name t' = lookup_plugin phase name t.

Definition another_plugin (phase name phase' name' : string) : Prop :=
  (phase', name') <> (phase, name).

(** A computation that keeps the cached customization document. *)
Definition preserves_conf {A} (m : M A) : Prop :=
  forall w r w', m w = (r, w') -> same_conf w w'.

(** The directives of a customization document, those to disable first. *)
Definition directives (conf : customize_conf_t) : list custom_entry :=
  (or_empty (disable_plugins conf) ++ or_empty (enable_plugins conf))%list.

(** The directive has the two keys, and they name the plugin. *)
Definition names_plugin (phase name : string) (e : custom_entry) : bool :=
  match plugin_type e, plugin_name e with
  | Some ty, Some nm => (String.eqb ty phase && String.eqb nm name)%bool
  | _, _ => false
  end.

(** The customization document of a state: what the [customize_conf]
    property returns there (the empty one when it raises). *)
Definition customization_of (w : World) : customize_conf_t :=
  match fst (customize_conf w) with
  | Ok conf => conf
  | Err _ => empty_conf
  end.

(** Some directive of the customization names the plugin. *)
Definition customized (phase name : string) (w : World) : bool :=
  existsb (names_plugin phase name) (directives (customization_of w)).

(** Some rule configures the plugin. *)
Definition configured_by_rule (up : UserParams.t) (phase name : string)
  : bool :=
  existsb (fun '(ph, nm, _) => (String.eqb ph phase && String.eqb nm name)%bool)
    (rule_table up).

(** A computation that, when it returns, returns the document of the
    state it leaves, as [to_json] hands it to [json.dumps]. *)
Definition returns_document (m : M json) : Prop :=
  forall w j w', m w = (Ok j, w') ->
  exists t, loaded w' t /\ j = template_to_json t.

(** Every entry of the document has an [args] that is absent or a
    mapping. *)
Definition args_are_mappings (t : template_t) : bool :=
  forallb (fun '(_, l) => forallb args_is_mapping l) t.

(** What the rules of an image build need of the document they find:
    arguments that are mappings, a [pull_base_image] entry when parent
    image digests are passed, and a [build_image] that can be prefixed
    when [orchestrate_build] is configured. *)
Definition renderable (up : UserParams.t) (t : template_t) : bool :=
  (args_are_mappings t
   && (negb (truthy (UserParams.parent_images_digests up))
       || present "prebuild_plugins" "pull_base_image" t)
   && (match orchestrate_config_kwargs up with
       | Some _ => true
       | None => negb (present "buildstep_plugins" "orchestrate_build" t)
       end))%bool.

(** A property of the document that holds afterwards if it held before. *)
Definition maintains (P : template_t -> bool) (t t' : template_t) : Prop :=
  P t = true -> P t' = true.

(** A computation that returns (and does not raise) on a document with
    the property. *)
Definition returns_from (P : template_t -> bool) {A} (m : M A) : Prop :=
  forall w t, doc_is w t -> P t = true -> exists a w', m w = (Ok a, w').

(* ================================================================== *)
(** * Properties                                                        *)
(* ================================================================== *)

(** ** Dictionaries *)

Module DictFacts.
Section Facts.
Variable V : Type.
Implicit Types (d : list (string * V)) (k : string) (v : V).

Lemma get_set_same k v d : Dict.get k (Dict.set k v d) = Some v.
Proof.
  induction d as [|[k' v'] r IH]; simpl.
  - now rewrite String.eqb_refl.
  - destruct (String.eqb k' k) eqn:E; simpl; rewrite E; auto.
Qed.

Lemma get_set_other k k' v d :
  k <> k' -> Dict.get k' (Dict.set k v d) = Dict.get k' d.
Proof.
  intros N. induction d as [|[k0 v0] r IH]; simpl.
  - destruct (String.eqb_spec k k'); [contradiction | reflexivity].
  - destruct (String.eqb_spec k0 k) as [->|E]; simpl.
    + destruct (String.eqb_spec k k'); [contradiction | reflexivity].
    + destruct (String.eqb_spec k0 k'); auto.
Qed.

End Facts.
End DictFacts.

(** ** The template property and the loaded document *)

Lemma loaded_put_template t w : loaded (put_template t w) t.
Proof. reflexivity. Qed.

Lemma put_template_twice t t' w :
  put_template t' (put_template t w) = put_template t' w.
Proof. reflexivity. Qed.

Lemma template_loaded w t : loaded w t -> template w = (Ok t, w).
Proof. unfold loaded, template. now intros ->. Qed.

Lemma template_Ok w t w' : template w = (Ok t, w') -> loaded w' t.
Proof.
  unfold template, loaded.
  destruct (_template (pt w)) as [t0|] eqn:E.
  - intros H. inversion H; subst. exact E.
  - cbn. destruct (template_files w _); intros H; inversion H. reflexivity.
Qed.

Lemma template_Err w e w' :
  template w = (Err e, w') -> is_load_error e = true /\ _template (pt w') = None.
Proof.
  unfold template.
  destruct (_template (pt w)) as [t0|] eqn:E; [discriminate|].
  cbn. destruct (template_files w _); intros H; inversion H; subst; auto.
Qed.

Lemma bind_eq {A B} (m : M A) (f : A -> M B) w :
  bind m f w =
    match m w with
    | (Ok a, w') => f a w'
    | (Err e, w') => (Err e, w')
    end.
Proof. reflexivity. Qed.

Lemma store_phase_loaded phase l w t :
  loaded w t ->
  store_phase phase l w = (Ok tt, put_template (Dict.set phase l t) w).
Proof. unfold loaded, store_phase. now intros ->. Qed.

(** ** Lookup, on the document *)

Lemma filter_head_find {A} (f : A -> bool) (l : list A) :
  match filter f l with x :: _ => Some x | [] => None end = find f l.
Proof.
  induction l as [|a r IH]; simpl; auto. destruct (f a); auto.
Qed.

Lemma get_plugin_conf_eq phase name w :
  get_plugin_conf phase name w =
    match template w with
    | (Ok t, w1) => (lookup_plugin phase name t, w1)
    | (Err e, w1) => (Err e, w1)
    end.
Proof.
  unfold get_plugin_conf. rewrite bind_eq.
  destruct (template w) as [[t|e] w1]; auto.
  unfold lookup_plugin, getitem. rewrite bind_eq.
  destruct (Dict.get phase t) as [l|]; cbn; auto.
  rewrite <- filter_head_find. destruct (filter (name_is name) l); reflexivity.
Qed.

Lemma has_plugin_conf_eq phase name w :
  has_plugin_conf phase name w =
    match template w with
    | (Ok t, w1) => (Ok (present phase name t), w1)
    | (Err e, w1) => (Err e, w1)
    end.
Proof.
  unfold has_plugin_conf, try_except. rewrite bind_eq, get_plugin_conf_eq.
  destruct (template w) as [[t|e] w1] eqn:E.
  - unfold present. destruct (lookup_plugin phase name t) as [p|e'] eqn:L; auto.
    unfold lookup_plugin in L. destruct (Dict.get phase t).
    + destruct (find (name_is name) l); inversion L; reflexivity.
    + inversion L; reflexivity.
  - apply template_Err in E. destruct E as [E _].
    destruct e; simpl in E; try discriminate; reflexivity.
Qed.

Lemma find_existsb {A} (f : A -> bool) (l : list A) :
  existsb f l = match find f l with Some _ => true | None => false end.
Proof.
  induction l as [|a r IH]; simpl; auto. destruct (f a); auto.
Qed.

Lemma lookup_plugin_Ok phase name t p :
  lookup_plugin phase name t = Ok p ->
  exists l, Dict.get phase t = Some l /\ find (name_is name) l = Some p
            /\ In p l /\ name_is name p = true.
Proof.
  unfold lookup_plugin. destruct (Dict.get phase t) as [l|]; [|discriminate].
  destruct (find (name_is name) l) as [q|] eqn:F; [|discriminate].
  intros H; inversion H; subst. exists l. split; [reflexivity|].
  split; [exact F|]. apply find_some in F. exact F.
Qed.

(** C7.  [get_plugin_conf] has two distinct failures, [KeyError] when the
    phase key is not in the document and [IndexError] when the phase is
    there but holds no entry with the name, and otherwise returns an entry
    of the phase with that name; [has_plugin_conf] answers [True] exactly
    when [get_plugin_conf] returns, answers [False] exactly when it raises
    one of these two errors, and lets every other exception through. *)
Theorem get_plugin_conf_two_tier_errors phase name w :
  (forall t w1, template w = (Ok t, w1) ->
     (Dict.get phase t = None ->
      get_plugin_conf phase name w = (Err KeyError, w1))
     /\ (forall l, Dict.get phase t = Some l ->
           existsb (name_is name) l = false ->
           get_plugin_conf phase name w = (Err IndexError, w1))
     /\ (forall l, Dict.get phase t = Some l ->
           existsb (name_is name) l = true ->
           exists p, get_plugin_conf phase name w = (Ok p, w1)
                     /\ In p l /\ name_is name p = true))
  /\ KeyError <> IndexError
  /\ has_plugin_conf phase name w =
       match get_plugin_conf phase name w with
       | (Ok _, w1) => (Ok true, w1)
       | (Err KeyError, w1) | (Err IndexError, w1) => (Ok false, w1)
       | (Err e, w1) => (Err e, w1)
       end
  /\ (forall w1, has_plugin_conf phase name w = (Ok true, w1) <->
                 exists p, get_plugin_conf phase name w = (Ok p, w1))
  /\ (forall w1, has_plugin_conf phase name w = (Ok false, w1) <->
                 get_plugin_conf phase name w = (Err KeyError, w1)
                 \/ get_plugin_conf phase name w = (Err IndexError, w1)).
Proof.
  assert (Hhas : has_plugin_conf phase name w =
       match get_plugin_conf phase name w with
       | (Ok _, w1) => (Ok true, w1)
       | (Err KeyError, w1) | (Err IndexError, w1) => (Ok false, w1)
       | (Err e, w1) => (Err e, w1)
       end).
  { unfold has_plugin_conf, try_except. rewrite bind_eq.
    destruct (get_plugin_conf phase name w) as [[p|e] w1]; auto.
    destruct e; reflexivity. }
  split; [|split; [discriminate|split; [exact Hhas|split]]].
  - intros t w1 Ht. rewrite get_plugin_conf_eq, Ht. unfold lookup_plugin.
    split; [intros ->; reflexivity|]. split.
    + intros l -> E. rewrite find_existsb in E.
      destruct (find (name_is name) l); [discriminate|reflexivity].
    + intros l -> E. rewrite find_existsb in E.
      destruct (find (name_is name) l) as [p|] eqn:F; [|discriminate].
      exists p. split; [reflexivity|]. apply find_some in F. exact F.
  - intros w1. rewrite Hhas.
    destruct (get_plugin_conf phase name w) as [[p|e] w2].
    + split.
      * intros H; inversion H; subst. now exists p.
      * intros [q H]; inversion H; subst. reflexivity.
    + split.
      * destruct e; intros H; inversion H.
      * intros [q H]; inversion H.
  - intros w1. rewrite Hhas.
    destruct (get_plugin_conf phase name w) as [[p|e] w2].
    + split.
      * intros H; inversion H.
      * intros [H|H]; inversion H.
    + split.
      * destruct e; intros H; inversion H; subst; auto.
      * intros [H|H]; inversion H; subst; reflexivity.
Qed.

(** C8.  [set_plugin_arg_valid] with [None] as value returns [False] and
    leaves the whole state as it was (the document is not even loaded);
    with any other value it is [set_plugin_arg] followed by [True]. *)
Theorem set_plugin_arg_valid_unset_is_noop phase plugin_ name value w :
  set_plugin_arg_valid phase plugin_ name value w =
    match value with
    | JNull => (Ok false, w)
    | _ =>
        match set_plugin_arg phase plugin_ name value w with
        | (Ok _, w') => (Ok true, w')
        | (Err e, w') => (Err e, w')
        end
    end.
Proof.
  unfold set_plugin_arg_valid.
  destruct value; cbn [is_not_None]; try reflexivity;
    rewrite bind_eq;
    destruct (set_plugin_arg phase plugin_ name _ w) as [[[]|e] w']; reflexivity.
Qed.

(** ** Setting an argument, on the document *)

Lemma set_plugin_arg_eq phase name k v w :
  set_plugin_arg phase name k v w =
    match template w with
    | (Err e, w1) => (Err e, w1)
    | (Ok t, w1) =>
        match set_arg_doc phase name k v t with
        | Ok t' => (Ok tt, put_template t' w1)
        | Err e => (Err e, w1)
        end
    end.
Proof.
  unfold set_plugin_arg, _get_plugin_conf_or_fail, try_except.
  rewrite bind_eq, get_plugin_conf_eq.
  destruct (template w) as [[t|e] w1] eqn:E.
  - pose proof (template_Ok _ _ _ E) as L. unfold set_arg_doc.
    destruct (lookup_plugin phase name t) as [p|e] eqn:Lk.
    + destruct (lookup_plugin_Ok _ _ _ _ Lk) as (l & Hl & _).
      rewrite bind_eq, (template_loaded _ _ L), bind_eq. unfold getitem.
      rewrite Hl. cbn [ret]. unfold args_is_mapping, with_arg, args_of.
      destruct (Dict.get "args" p) as [[| | | | |a]|];
        try reflexivity; now rewrite (store_phase_loaded _ _ _ _ L).
    + destruct e; reflexivity.
  - apply template_Err in E. destruct E as [E _].
    destruct e; simpl in E; try discriminate; reflexivity.
Qed.

Lemma name_is_with_arg name k v p :
  name_is name (with_arg k v p) = name_is name p.
Proof.
  unfold name_is, with_arg. rewrite DictFacts.get_set_other; [reflexivity|].
  intros H; discriminate H.
Qed.

Lemma args_is_mapping_with_arg k v p : args_is_mapping (with_arg k v p) = true.
Proof.
  unfold args_is_mapping, with_arg. now rewrite DictFacts.get_set_same.
Qed.

Lemma args_of_with_arg k v p :
  args_of (with_arg k v p) = Dict.set k v (args_of p).
Proof.
  unfold with_arg at 1. unfold args_of at 1. now rewrite DictFacts.get_set_same.
Qed.

Lemma find_replace_first name p p' l :
  find (name_is name) l = Some p ->
  name_is name p' = true ->
  find (name_is name) (replace_first name p' l) = Some p'.
Proof.
  intros F Hp'. induction l as [|q r IH]; simpl in *; [discriminate|].
  destruct (name_is name q) eqn:Q; simpl.
  - now rewrite Hp'.
  - rewrite Q. auto.
Qed.

Lemma existsb_replace_first name name' p p' l :
  find (name_is name) l = Some p ->
  name_is name' p' = name_is name' p ->
  existsb (name_is name') (replace_first name p' l)
  = existsb (name_is name') l.
Proof.
  intros F Hp'. induction l as [|q r IH]; simpl in *; [reflexivity|].
  destruct (name_is name q) eqn:Q; simpl.
  - inversion F; subst. now rewrite Hp'.
  - now rewrite IH.
Qed.

Lemma name_is_inj name name' p :
  name_is name p = true -> name_is name' p = true -> name = name'.
Proof.
  unfold name_is. destruct (Dict.get "name" p) as [[| | |s| |]|]; try discriminate.
  intros H1 H2. apply String.eqb_eq in H1, H2. congruence.
Qed.

Lemma find_replace_first_other name name' p p' l :
  find (name_is name) l = Some p ->
  name_is name p' = true ->
  name <> name' ->
  find (name_is name') (replace_first name p' l) = find (name_is name') l.
Proof.
  intros F Hp' N. induction l as [|q r IH]; simpl in *; [reflexivity|].
  destruct (name_is name q) eqn:Q; simpl.
  - destruct (name_is name' p') eqn:A.
    { exfalso. apply N. exact (@name_is_inj name name' p' Hp' A). }
    destruct (name_is name' q) eqn:B; [|reflexivity].
    exfalso. apply N. exact (@name_is_inj name name' q Q B).
  - destruct (name_is name' q); auto.
Qed.

Lemma present_existsb phase name t :
  present phase name t =
    match Dict.get phase t with
    | Some l => existsb (name_is name) l
    | None => false
    end.
Proof.
  unfold present, lookup_plugin. destruct (Dict.get phase t) as [l|]; auto.
  rewrite find_existsb. destruct (find (name_is name) l); reflexivity.
Qed.

(** What a successful [set_plugin_arg] does to the document: the entry
    gets the argument, every other entry is as before, and the same
    plugins are present. *)
Lemma set_arg_doc_Ok phase name k v t p :
  lookup_plugin phase name t = Ok p ->
  args_is_mapping p = true ->
  exists t',
    set_arg_doc phase name k v t = Ok t'
    /\ lookup_plugin phase name t' = Ok (with_arg k v p)
    /\ (forall phase' name', present phase' name' t' = present phase' name' t)
    /\ (forall phase' name', (phase', name') <> (phase, name) ->
          lookup_plugin phase' name' t' = lookup_plugin phase' name' t).
Proof.
  intros Lk Ha. unfold set_arg_doc. rewrite Lk, Ha.
  destruct (lookup_plugin_Ok _ _ _ _ Lk) as (l & Hl & F & _ & Hn).
  rewrite Hl. eexists. split; [reflexivity|].
  assert (Hn' : name_is name (with_arg k v p) = true)
    by now rewrite name_is_with_arg.
  split; [|split].
  - unfold lookup_plugin. rewrite DictFacts.get_set_same.
    erewrite find_replace_first; eauto.
  - intros phase' name'. rewrite !present_existsb.
    destruct (String.eqb_spec phase phase') as [<-|N].
    + rewrite DictFacts.get_set_same, Hl.
      apply existsb_replace_first with (p := p); auto.
      apply name_is_with_arg.
    + now rewrite DictFacts.get_set_other.
  - intros phase' name' N. unfold lookup_plugin.
    destruct (String.eqb_spec phase phase') as [<-|Np].
    + rewrite DictFacts.get_set_same, Hl.
      erewrite find_replace_first_other; eauto.
      intros ->. now apply N.
    + now rewrite DictFacts.get_set_other.
Qed.

Lemma set_arg_doc_Err phase name k v t e :
  set_arg_doc phase name k v t = Err e ->
  match e with
  | RuntimeError _ => present phase name t = false
  | TypeError => exists p, lookup_plugin phase name t = Ok p
                           /\ args_is_mapping p = false
  | _ => False
  end.
Proof.
  unfold set_arg_doc, present.
  destruct (lookup_plugin phase name t) as [p|e'] eqn:Lk.
  - destruct (args_is_mapping p) eqn:A; [discriminate|].
    intros H; inversion H; subst. now exists p.
  - unfold lookup_plugin in Lk. destruct (Dict.get phase t) as [l|].
    + destruct (find (name_is name) l); inversion Lk; subst.
      intros H; inversion H; reflexivity.
    + inversion Lk; subst. intros H; inversion H; reflexivity.
Qed.

Lemma get_plugin_conf_Ok_inv phase name w p w1 :
  get_plugin_conf phase name w = (Ok p, w1) ->
  exists t, template w = (Ok t, w1) /\ loaded w1 t
            /\ lookup_plugin phase name t = Ok p.
Proof.
  rewrite get_plugin_conf_eq.
  destruct (template w) as [[t|e] w0] eqn:E; [|discriminate].
  intros H; inversion H; subst. exists t.
  split; [reflexivity|]. split; [exact (template_Ok _ _ _ E)|reflexivity].
Qed.

Lemma get_plugin_conf_loaded phase name w t :
  loaded w t ->
  get_plugin_conf phase name w = (lookup_plugin phase name t, w).
Proof. intros L. now rewrite get_plugin_conf_eq, (template_loaded _ _ L). Qed.

Lemma has_plugin_conf_loaded phase name w t :
  loaded w t ->
  has_plugin_conf phase name w = (Ok (present phase name t), w).
Proof. intros L. now rewrite has_plugin_conf_eq, (template_loaded _ _ L). Qed.

Lemma set_plugin_arg_loaded phase name k v w t :
  loaded w t ->
  set_plugin_arg phase name k v w =
    match set_arg_doc phase name k v t with
    | Ok t' => (Ok tt, put_template t' w)
    | Err e => (Err e, w)
    end.
Proof. intros L. now rewrite set_plugin_arg_eq, (template_loaded _ _ L). Qed.

(** ** The tag policy (C1) *)

Lemma split_colon_nonempty s : split_colon s <> [].
Proof.
  destruct s as [|a r]; simpl; [discriminate|].
  destruct (Ascii.eqb a ":"); [discriminate|].
  destruct (split_colon r); discriminate.
Qed.

Lemma join_colon_cons2 p q r :
  join_colon (p :: q :: r) = p ++ ":" ++ join_colon (q :: r).
Proof. reflexivity. Qed.

Lemma append_assoc (a b c : string) : (a ++ b) ++ c = a ++ (b ++ c).
Proof. induction a as [|x a IH]; simpl; [reflexivity|now rewrite IH]. Qed.

Lemma join_split_colon s : join_colon (split_colon s) = s.
Proof.
  induction s as [|a r IH]; [reflexivity|].
  pose proof (split_colon_nonempty r) as NE.
  cbn [split_colon].
  destruct (split_colon r) as [|p ps]; [contradiction|].
  destruct (Ascii.eqb_spec a ":"%char) as [->|N].
  - rewrite join_colon_cons2, IH. reflexivity.
  - destruct ps as [|p' ps'].
    + cbn [join_colon] in *. now rewrite IH.
    + rewrite join_colon_cons2 in IH. rewrite join_colon_cons2.
      cbn [append] in *. now rewrite IH.
Qed.

Lemma split_colon_colon_free s :
  forallb colon_free (split_colon s) = true.
Proof.
  induction s as [|a r IH]; [reflexivity|]. simpl.
  destruct (Ascii.eqb a ":"%char) eqn:E.
  - simpl. exact IH.
  - pose proof (split_colon_nonempty r) as NE.
    destruct (split_colon r) as [|p ps]; [contradiction|].
    simpl in *. unfold colon_free at 1. simpl. rewrite E. simpl.
    exact IH.
Qed.

Lemma join_colon_snoc init u :
  init <> [] -> join_colon (init ++ [u]) = join_colon init ++ ":" ++ u.
Proof.
  induction init as [|p ps IH]; [contradiction|]. intros _.
  destruct ps as [|p' ps'].
  - reflexivity.
  - change ((p :: p' :: ps') ++ [u])%list with (p :: (p' :: ps') ++ [u])%list.
    change ((p' :: ps') ++ [u])%list with (p' :: ps' ++ [u])%list at 1.
    rewrite join_colon_cons2.
    change (p' :: ps' ++ [u])%list with ((p' :: ps') ++ [u])%list.
    rewrite IH by discriminate.
    rewrite join_colon_cons2, !append_assoc. reflexivity.
Qed.

(** [image_tag.split(':')[-1]] is what follows the last colon of the
    tag, or the whole tag when it has no colon. *)
Lemma last_split_colon s :
  let u := last (split_colon s) EmptyString in
  colon_free u = true /\ (s = u \/ exists pre, s = pre ++ ":" ++ u).
Proof.
  intros u. pose proof (split_colon_nonempty s) as NE.
  pose proof (app_removelast_last EmptyString NE) as D. fold u in D.
  split.
  - pose proof (split_colon_colon_free s) as F. rewrite D in F.
    rewrite forallb_app in F. apply andb_true_iff in F. destruct F as [_ F].
    simpl in F. now rewrite andb_true_r in F.
  - pose proof (join_split_colon s) as J. rewrite D in J.
    destruct (removelast (split_colon s)) as [|p ps] eqn:R.
    + left. simpl in J. congruence.
    + right. exists (join_colon (p :: ps)).
      rewrite join_colon_snoc in J by discriminate. congruence.
Qed.

Lemma tag_suffixes_lists_policy up :
  tag_suffixes_lists up =
    tag_policy
      (String.eqb (UserParams.build_type up) BUILD_TYPE_ORCHESTRATOR)
      (truthy (UserParams.scratch up))
      (truthy (UserParams.isolated up))
      (truthy (UserParams.tags_from_yaml up))
      (last (split_colon (UserParams.image_tag up)) EmptyString)
      (match UserParams.additional_tags up with Some a => a | None => [] end).
Proof.
  unfold tag_suffixes_lists, tag_policy.
  destruct (String.eqb _ BUILD_TYPE_ORCHESTRATOR); [|reflexivity].
  destruct (truthy (UserParams.scratch up)); [reflexivity|].
  destruct (truthy (UserParams.isolated up)); [reflexivity|].
  destruct (truthy (UserParams.tags_from_yaml up)); reflexivity.
Qed.

(** C1.  When the [tag_from_config] plugin is configured (with an [args]
    block that is absent or a mapping), [render_tag_from_config] succeeds
    and leaves [tag_suffixes] set to the three buckets of the policy: the
    unique bucket holds the one token that follows the last colon of
    [image_tag]; primary and floating are empty unless the build type is
    the orchestrator's, and then exactly the first matching branch of
    scratch > isolated > tags-from-config > default fills them. *)
Theorem render_tag_from_config_sets_policy up w p w1 :
  get_plugin_conf "postbuild_plugins" "tag_from_config" w = (Ok p, w1) ->
  args_is_mapping p = true ->
  exists u w' p',
    render_tag_from_config up w = (Ok tt, w')
    /\ get_plugin_conf "postbuild_plugins" "tag_from_config" w' = (Ok p', w')
    /\ colon_free u = true
    /\ (UserParams.image_tag up = u
        \/ exists pre, UserParams.image_tag up = pre ++ ":" ++ u)
    /\ Dict.get "tag_suffixes" (args_of p') =
         Some (tag_suffixes_json
                 (tag_policy
                    (String.eqb (UserParams.build_type up)
                       BUILD_TYPE_ORCHESTRATOR)
                    (truthy (UserParams.scratch up))
                    (truthy (UserParams.isolated up))
                    (truthy (UserParams.tags_from_yaml up))
                    u
                    (match UserParams.additional_tags up with
                     | Some a => a
                     | None => []
                     end))).
Proof.
  intros G A.
  destruct (get_plugin_conf_Ok_inv _ _ _ _ _ G) as (t & Ht & L & Lk).
  destruct (set_arg_doc_Ok _ _ "tag_suffixes"
              (tag_suffixes_json (tag_suffixes_lists up)) _ _ Lk A)
    as (t' & Hs & Lk' & _).
  exists (last (split_colon (UserParams.image_tag up)) EmptyString),
    (put_template t' w1), (with_arg "tag_suffixes"
                             (tag_suffixes_json (tag_suffixes_lists up)) p).
  destruct (last_split_colon (UserParams.image_tag up)) as [C S].
  split; [|split; [|split; [exact C|split; [exact S|]]]].
  - unfold render_tag_from_config. rewrite bind_eq, has_plugin_conf_eq, Ht.
    unfold present. rewrite Lk. cbn [negb].
    now rewrite (set_plugin_arg_loaded _ _ _ _ _ _ L), Hs.
  - rewrite (get_plugin_conf_loaded _ _ _ _ (loaded_put_template t' w1)).
    now rewrite Lk'.
  - rewrite args_of_with_arg, DictFacts.get_set_same.
    now rewrite tag_suffixes_lists_policy.
Qed.

Example sample_tag_suffixes_default :
  tag_suffixes_lists Sample.orchestrator_params
  = (["7.1-3"], ["{version}-{release}"], ["latest"; "{version}"; "extra"]).
Proof. reflexivity. Qed.

Example sample_tag_suffixes_scratch :
  tag_suffixes_lists
    (Sample.params "orchestrator" (JBool true) (JBool true) (JBool true)
       JNull None)
  = (["7.1-3"], [], []).
Proof. reflexivity. Qed.

Example sample_tag_suffixes_isolated :
  tag_suffixes_lists
    (Sample.params "orchestrator" (JBool false) (JBool true) (JBool true)
       JNull None)
  = (["7.1-3"], ["{version}-{release}"], []).
Proof. reflexivity. Qed.

Example sample_tag_suffixes_from_yaml :
  tag_suffixes_lists
    (Sample.params "orchestrator" (JBool false) (JBool false) (JBool true)
       JNull None)
  = (["7.1-3"], ["{version}-{release}"], ["extra"]).
Proof. reflexivity. Qed.

Example sample_tag_suffixes_worker :
  tag_suffixes_lists
    (Sample.params "worker" (JBool false) (JBool true) (JBool true) JNull None)
  = (["7.1-3"], [], []).
Proof. reflexivity. Qed.

Lemma render_tag_from_config_sets_policy_witness :
  exists u w' p',
    render_tag_from_config Sample.orchestrator_params Sample.world = (Ok tt, w')
    /\ get_plugin_conf "postbuild_plugins" "tag_from_config" w' = (Ok p', w')
    /\ colon_free u = true
    /\ ("myimage:7.1-3" = u \/ exists pre, "myimage:7.1-3" = pre ++ ":" ++ u)
    /\ Dict.get "tag_suffixes" (args_of p') =
         Some (tag_suffixes_json
                 (tag_policy true false false false u ["extra"])).
Proof.
  exact (render_tag_from_config_sets_policy Sample.orchestrator_params
           Sample.world (Sample.entry "tag_from_config" [])
           Sample.loaded_world eq_refl eq_refl).
Defined.

(** ** Chains of argument settings on one plugin *)

Lemma holds_get_plugin_conf phase name w p :
  holds phase name w p -> get_plugin_conf phase name w = (Ok p, w).
Proof.
  intros (t & L & Lk). now rewrite (get_plugin_conf_loaded _ _ _ _ L), Lk.
Qed.

Lemma get_plugin_conf_holds phase name w p w1 :
  get_plugin_conf phase name w = (Ok p, w1) -> holds phase name w1 p.
Proof.
  intros G. destruct (get_plugin_conf_Ok_inv _ _ _ _ _ G) as (t & _ & L & Lk).
  now exists t.
Qed.

Lemma set_plugin_arg_step phase name k v w p :
  holds phase name w p -> args_is_mapping p = true ->
  exists w', set_plugin_arg phase name k v w = (Ok tt, w')
             /\ holds phase name w' (with_arg k v p).
Proof.
  intros (t & L & Lk) A.
  destruct (set_arg_doc_Ok phase name k v t p Lk A) as (t' & Hs & Lk' & _).
  exists (put_template t' w). split.
  - now rewrite (set_plugin_arg_loaded _ _ _ _ _ _ L), Hs.
  - exists t'. split; [apply loaded_put_template|exact Lk'].
Qed.

Lemma set_plugin_arg_valid_step phase name k v w p :
  holds phase name w p -> args_is_mapping p = true ->
  exists w' b,
    set_plugin_arg_valid phase name k v w = (Ok b, w')
    /\ holds phase name w' (if is_not_None v then with_arg k v p else p).
Proof.
  intros H A. unfold set_plugin_arg_valid.
  destruct (is_not_None v).
  - destruct (set_plugin_arg_step phase name k v w p H A) as (w' & E & H').
    exists w', true. rewrite bind_eq, E. auto.
  - exists w, false. auto.
Qed.

Lemma args_is_mapping_if (c : bool) k v p :
  args_is_mapping p = true ->
  args_is_mapping (if c then with_arg k v p else p) = true.
Proof. destruct c; auto using args_is_mapping_with_arg. Qed.

Lemma get_args_with_arg_other k k' v p :
  k <> k' ->
  Dict.get k' (args_of (with_arg k v p)) = Dict.get k' (args_of p).
Proof. intros N. now rewrite args_of_with_arg, DictFacts.get_set_other. Qed.

Lemma get_args_with_arg_same k v p :
  Dict.get k (args_of (with_arg k v p)) = Some v.
Proof. now rewrite args_of_with_arg, DictFacts.get_set_same. Qed.

(** ** The orchestrate_build rule (C10) *)

Lemma orchestrate_build_kwargs_target up :
  Dict.get "target" (orchestrate_build_kwargs up)
  = Some (pop_value "koji_target" (UserParams.to_dict up worker_params)).
Proof.
  unfold orchestrate_build_kwargs.
  destruct (truthy (UserParams.flatpak up)).
  - rewrite DictFacts.get_set_other by discriminate.
    apply DictFacts.get_set_same.
  - apply DictFacts.get_set_same.
Qed.

(** C10.  When the [orchestrate_build] plugin is configured (with an
    [args] block that is absent or a mapping), then after
    [render_orchestrate_build], whether it returns or raises on
    [build_image], the plugin's [build_kwargs] argument has the key
    [target], bound to what [to_dict] gave for [koji_target]; when
    [to_dict] gave nothing for it, or gave [None], [target] is bound to
    [None] and not left out. *)
Theorem render_orchestrate_build_always_sets_target up w p w1 :
  get_plugin_conf "buildstep_plugins" "orchestrate_build" w = (Ok p, w1) ->
  args_is_mapping p = true ->
  exists r w' p' kw,
    render_orchestrate_build up w = (r, w')
    /\ get_plugin_conf "buildstep_plugins" "orchestrate_build" w' = (Ok p', w')
    /\ Dict.get "build_kwargs" (args_of p') = Some (JObj kw)
    /\ Dict.get "target" kw
       = Some (pop_value "koji_target" (UserParams.to_dict up worker_params))
    /\ (Dict.get "koji_target" (UserParams.to_dict up worker_params) = None
        \/ Dict.get "koji_target" (UserParams.to_dict up worker_params)
           = Some JNull ->
        Dict.get "target" kw = Some JNull).
Proof.
  intros G A. pose proof (get_plugin_conf_holds _ _ _ _ _ G) as H0.
  destruct (get_plugin_conf_Ok_inv _ _ _ _ _ G) as (t & Ht & _ & Lk).
  set (phase := "buildstep_plugins") in *.
  set (name := "orchestrate_build") in *.
  destruct (set_plugin_arg_valid_step phase name "platforms"
              (UserParams.platforms up) w1 p H0 A) as (w2 & b & E2 & H2).
  set (p2 := if is_not_None (UserParams.platforms up)
             then with_arg "platforms" (UserParams.platforms up) p else p) in *.
  assert (A2 : args_is_mapping p2 = true) by now apply args_is_mapping_if.
  destruct (set_plugin_arg_step phase name "build_kwargs"
              (JObj (orchestrate_build_kwargs up)) w2 p2 H2 A2)
    as (w3 & E3 & H3).
  set (p3 := with_arg "build_kwargs" (JObj (orchestrate_build_kwargs up)) p2) in *.
  assert (A3 : args_is_mapping p3 = true) by apply args_is_mapping_with_arg.
  assert (K3 : Dict.get "build_kwargs" (args_of p3)
               = Some (JObj (orchestrate_build_kwargs up)))
    by apply get_args_with_arg_same.
  assert (T : Dict.get "target" (orchestrate_build_kwargs up)
              = Some (pop_value "koji_target"
                        (UserParams.to_dict up worker_params)))
    by apply orchestrate_build_kwargs_target.
  assert (N : Dict.get "koji_target" (UserParams.to_dict up worker_params) = None
        \/ Dict.get "koji_target" (UserParams.to_dict up worker_params)
           = Some JNull ->
        Dict.get "target" (orchestrate_build_kwargs up) = Some JNull).
  { rewrite T. unfold pop_value. intros [-> | ->]; reflexivity. }
  assert (Start :
             render_orchestrate_build up w
             = (config_kwargs <-
                  (if negb (truthy (UserParams.buildroot_is_imagestream up))
                   then
                     build_from <- image_prefixed (UserParams.build_image up) ;;
                     ret [("build_from", build_from)]
                   else ret []) ;;
                set_plugin_arg phase name "config_kwargs" (JObj config_kwargs))
                 w3).
  { unfold render_orchestrate_build. fold phase name.
    set (rest := bind (if negb _ then _ else _) _).
    rewrite bind_eq, has_plugin_conf_eq, Ht. unfold present. rewrite Lk.
    cbn [negb]. unfold ignore. rewrite bind_eq, bind_eq, E2. cbn [ret].
    now rewrite bind_eq, E3. }
  rewrite Start. clear Start.
  assert (Fin : forall c,
             exists r w' p',
               set_plugin_arg phase name "config_kwargs" (JObj c) w3 = (r, w')
               /\ get_plugin_conf phase name w' = (Ok p', w')
               /\ Dict.get "build_kwargs" (args_of p')
                  = Some (JObj (orchestrate_build_kwargs up))).
  { intros c.
    destruct (set_plugin_arg_step phase name "config_kwargs" (JObj c) w3 p3 H3 A3)
      as (w4 & E4 & H4).
    exists (Ok tt), w4, (with_arg "config_kwargs" (JObj c) p3).
    split; [exact E4|]. split; [now apply holds_get_plugin_conf|].
    rewrite get_args_with_arg_other by discriminate. exact K3. }
  rewrite bind_eq.
  destruct (negb (truthy (UserParams.buildroot_is_imagestream up))).
  - rewrite bind_eq. unfold image_prefixed.
    destruct (UserParams.build_image up) as [| | |s| |];
      try (exists (Err TypeError), w3, p3, (orchestrate_build_kwargs up);
           cbn [raise]; split; [reflexivity|];
           split; [now apply holds_get_plugin_conf|]; auto).
    cbn [ret]. destruct (Fin [("build_from", JStr ("image:" ++ s))])
      as (r & w' & p' & E & G' & K).
    exists r, w', p', (orchestrate_build_kwargs up). auto.
  - cbn [ret]. destruct (Fin []) as (r & w' & p' & E & G' & K).
    exists r, w', p', (orchestrate_build_kwargs up). auto.
Qed.

Lemma render_orchestrate_build_always_sets_target_witness :
  exists r w' p' kw,
    render_orchestrate_build Sample.orchestrator_params Sample.world = (r, w')
    /\ get_plugin_conf "buildstep_plugins" "orchestrate_build" w' = (Ok p', w')
    /\ Dict.get "build_kwargs" (args_of p') = Some (JObj kw)
    /\ Dict.get "target" kw = Some (JStr "f30-candidate")
    /\ (Some (JStr "f30-candidate") = None
        \/ Some (JStr "f30-candidate") = Some JNull ->
        Dict.get "target" kw = Some JNull).
Proof.
  exact (render_orchestrate_build_always_sets_target
           Sample.orchestrator_params Sample.world
           (Sample.entry "orchestrate_build" []) Sample.loaded_world
           eq_refl eq_refl).
Defined.

(** ** Template keys (C9) *)

(** [str_of_int] writes the decimal numeral of the integer: reading it
    back gives the integer. *)
Lemma str_of_int_decimal (z : Z) :
  option_map Z.of_int (NilZero.int_of_string (str_of_int z)) = Some z.
Proof.
  unfold str_of_int. rewrite NilZero.isi.
  - simpl. now rewrite DecimalZ.of_to.
  - destruct z; simpl; try discriminate.
    intros H. injection H as H. now apply DecimalPos.Unsigned.to_uint_nonnil in H.
  - destruct z; simpl; try discriminate.
    intros H. injection H as H. now apply DecimalPos.Unsigned.to_uint_nonnil in H.
Qed.

(** C9.  The template key is a function of the build type and the
    arrangement version only: image builds use
    [<build_type>_inner:<version>.json], source-container builds use
    [orchestrator_sources_inner:<version>.json] whatever the build type;
    the version is written as its decimal numeral, and the key is the path
    the [PluginsTemplate] object is created with. *)
Theorem pt_path_resolution up up' :
  PluginsConfiguration.pt_path up
  = UserParams.build_type up ++ "_inner:"
      ++ str_of_int (UserParams.arrangement_version up) ++ ".json"
  /\ SourceContainerPluginsConfiguration.pt_path up
     = "orchestrator_sources_inner:"
         ++ str_of_int (UserParams.arrangement_version up) ++ ".json"
  /\ option_map Z.of_int
       (NilZero.int_of_string (str_of_int (UserParams.arrangement_version up)))
     = Some (UserParams.arrangement_version up)
  /\ (UserParams.build_type up' = UserParams.build_type up ->
      UserParams.arrangement_version up' = UserParams.arrangement_version up ->
      PluginsConfiguration.pt_path up' = PluginsConfiguration.pt_path up)
  /\ (UserParams.arrangement_version up' = UserParams.arrangement_version up ->
      SourceContainerPluginsConfiguration.pt_path up'
      = SourceContainerPluginsConfiguration.pt_path up)
  /\ (forall tf cf,
        _template_path (pt (PluginsConfiguration.init up tf cf))
        = PluginsConfiguration.pt_path up)
  /\ (forall tf cf,
        _template_path (pt (SourceContainerPluginsConfiguration.init up tf cf))
        = SourceContainerPluginsConfiguration.pt_path up).
Proof.
  split; [reflexivity|]. split; [reflexivity|].
  split; [apply str_of_int_decimal|].
  split; [|split; [|split; reflexivity]].
  - unfold PluginsConfiguration.pt_path. now intros -> ->.
  - unfold SourceContainerPluginsConfiguration.pt_path. now intros ->.
Qed.

Example sample_pt_path :
  PluginsConfiguration.pt_path Sample.orchestrator_params
  = "orchestrator_inner:6.json"
  /\ SourceContainerPluginsConfiguration.pt_path
       (Sample.params "worker" JNull JNull JNull JNull None)
     = "orchestrator_sources_inner:6.json".
Proof. split; reflexivity. Qed.

Lemma pt_path_resolution_witness :
  PluginsConfiguration.pt_path
    (Sample.params "orchestrator" (JBool true) JNull JNull JNull None)
  = PluginsConfiguration.pt_path Sample.orchestrator_params
  /\ SourceContainerPluginsConfiguration.pt_path
       (Sample.params "worker" JNull JNull JNull JNull None)
     = SourceContainerPluginsConfiguration.pt_path Sample.orchestrator_params.
Proof.
  pose proof (pt_path_resolution Sample.orchestrator_params
                (Sample.params "orchestrator" (JBool true) JNull JNull JNull None))
    as (_ & _ & _ & H & _).
  pose proof (pt_path_resolution Sample.orchestrator_params
                (Sample.params "worker" JNull JNull JNull JNull None))
    as (_ & _ & _ & _ & H' & _).
  split; [exact (H eq_refl eq_refl)|exact (H' eq_refl)].
Defined.

(** ** add_plugin (C6) *)

Lemma dict_set_set {V} k (v v' : V) d :
  Dict.set k v' (Dict.set k v d) = Dict.set k v' d.
Proof.
  induction d as [|[k0 v0] r IH]; simpl.
  - now rewrite String.eqb_refl.
  - destruct (String.eqb k0 k) eqn:E; simpl; rewrite E; [reflexivity|].
    now rewrite IH.
Qed.

Lemma name_is_override name' name args p :
  name_is name' (override name args p) = name_is name' p.
Proof.
  unfold override. destruct (name_is name p); [|reflexivity].
  unfold name_is. rewrite DictFacts.get_set_other; [reflexivity|discriminate].
Qed.

Lemma has_name_override name args p :
  has_name (override name args p) = has_name p.
Proof.
  unfold override, has_name, Dict.mem. destruct (name_is name p); [|reflexivity].
  rewrite DictFacts.get_set_other; [reflexivity|discriminate].
Qed.

Lemma override_override name a1 a2 p :
  override name a2 (override name a1 p) = override name a2 p.
Proof.
  unfold override at 1. rewrite name_is_override. unfold override.
  destruct (name_is name p); [apply dict_set_set|reflexivity].
Qed.

Lemma override_new_plugin name a1 a2 :
  override name a2 (new_plugin name a1) = new_plugin name a2.
Proof.
  unfold override, name_is, new_plugin. simpl. now rewrite String.eqb_refl.
Qed.

Lemma map_override_absent name args l :
  existsb (name_is name) l = false -> map (override name args) l = l.
Proof.
  induction l as [|p r IH]; simpl; [reflexivity|].
  intros H. apply orb_false_iff in H. destruct H as [H1 H2].
  unfold override at 1. now rewrite H1, IH.
Qed.

Lemma existsb_map_override name' name args l :
  existsb (name_is name') (map (override name args) l)
  = existsb (name_is name') l.
Proof.
  induction l as [|p r IH]; simpl; [reflexivity|].
  now rewrite name_is_override, IH.
Qed.

Lemma count_named_map_override name' name args l :
  count_named name' (map (override name args) l) = count_named name' l.
Proof.
  unfold count_named. induction l as [|p r IH]; simpl; [reflexivity|].
  rewrite name_is_override. destruct (name_is name' p); simpl; now rewrite IH.
Qed.

Lemma count_named_existsb name l :
  existsb (name_is name) l = negb (Nat.eqb (count_named name l) 0).
Proof.
  unfold count_named. induction l as [|p r IH]; simpl; [reflexivity|].
  destruct (name_is name p); simpl; auto.
Qed.

Lemma all_named_add_or_replace name args l :
  all_named l = true -> all_named (add_or_replace name args l) = true.
Proof.
  unfold add_or_replace, all_named. intros H.
  destruct (existsb (name_is name) l).
  - rewrite forallb_forall in *. intros q Hq. apply in_map_iff in Hq.
    destruct Hq as (p & <- & Hp). rewrite has_name_override. auto.
  - rewrite forallb_app, H. reflexivity.
Qed.

(** The loop of [add_plugin] on a list whose entries all have a name. *)
Lemma add_plugin_scan_named name args l :
  all_named l = true ->
  add_plugin_scan name args l
  = (map (override name args) l, existsb (name_is name) l, false).
Proof.
  induction l as [|p r IH]; simpl; [reflexivity|].
  intros H. apply andb_true_iff in H. destruct H as [Hp Hr].
  rewrite (IH Hr). unfold has_name, Dict.mem in Hp.
  unfold override, name_is.
  destruct (Dict.get "name" p) as [v|]; [|discriminate].
  destruct v; reflexivity.
Qed.

Lemma add_plugin_named phase name args reason w t w1 l :
  template w = (Ok t, w1) ->
  Dict.get phase t = Some l ->
  all_named l = true ->
  exists w',
    add_plugin phase name args reason w = (Ok tt, w')
    /\ loaded w' (Dict.set phase (add_or_replace name args l) t).
Proof.
  intros Ht Hl Hn. pose proof (template_Ok _ _ _ Ht) as L.
  unfold add_plugin. rewrite bind_eq, Ht, bind_eq. unfold getitem.
  rewrite Hl. cbn [ret]. rewrite (add_plugin_scan_named _ _ _ Hn).
  rewrite bind_eq, (store_phase_loaded _ _ _ _ L). unfold add_or_replace.
  destruct (existsb (name_is name) l) eqn:E; cbn [negb].
  - eexists. split; [reflexivity|]. apply loaded_put_template.
  - rewrite (map_override_absent _ _ _ E), bind_eq.
    rewrite (store_phase_loaded _ _ _ _ (loaded_put_template _ w1)).
    rewrite dict_set_set, put_template_twice.
    destruct (reason_given reason).
    + eexists. split; [reflexivity|]. reflexivity.
    + eexists. split; [reflexivity|]. apply loaded_put_template.
Qed.

Lemma existsb_add_or_replace name args l :
  existsb (name_is name) (add_or_replace name args l) = true.
Proof.
  unfold add_or_replace. destruct (existsb (name_is name) l) eqn:E.
  - now rewrite existsb_map_override.
  - rewrite existsb_app. simpl. unfold name_is at 2. simpl.
    rewrite String.eqb_refl. now rewrite orb_true_r.
Qed.

Lemma add_or_replace_twice name a1 a2 l :
  map (override name a2) (add_or_replace name a1 l) = add_or_replace name a2 l.
Proof.
  unfold add_or_replace. destruct (existsb (name_is name) l) eqn:E.
  - rewrite map_map. apply map_ext. intros p. apply override_override.
  - rewrite map_app. simpl. rewrite override_new_plugin.
    now rewrite (map_override_absent _ _ _ E).
Qed.

Lemma count_named_add_or_replace name args l :
  count_named name (add_or_replace name args l)
  = Nat.max 1 (count_named name l).
Proof.
  unfold add_or_replace. pose proof (count_named_existsb name l) as C.
  destruct (existsb (name_is name) l).
  - rewrite count_named_map_override.
    destruct (count_named name l); [discriminate|]. now destruct n.
  - destruct (count_named name l) eqn:Z; [|discriminate].
    unfold count_named in *. rewrite filter_app, length_app, Z. simpl.
    unfold name_is. simpl. now rewrite String.eqb_refl.
Qed.

Lemma override_args name args q p :
  q = override name args p -> name_is name q = true ->
  Dict.get "args" q = Some args.
Proof.
  intros -> H. rewrite name_is_override in H. unfold override. rewrite H.
  apply DictFacts.get_set_same.
Qed.

(** C6.  On a phase whose entries all have a name, [add_plugin] succeeds
    and the phase becomes: the same list with [args] replaced on the
    entries of that name when there is one, and otherwise the list followed
    by the new entry.  A second call with other arguments then changes
    nothing but the [args] of those entries, position by position, so that
    the result is the one of the second call alone; the phase holds one
    entry of that name when it held at most one before. *)
Theorem add_plugin_override_law phase name args1 args2 reason1 reason2
  w t w1 l :
  template w = (Ok t, w1) ->
  Dict.get phase t = Some l ->
  all_named l = true ->
  exists wa wb la lb,
    add_plugin phase name args1 reason1 w = (Ok tt, wa)
    /\ loaded wa (Dict.set phase la t)
    /\ la = (if existsb (name_is name) l
             then map (override name args1) l
             else l ++ [new_plugin name args1])%list
    /\ add_plugin phase name args2 reason2 wa = (Ok tt, wb)
    /\ loaded wb (Dict.set phase lb t)
    /\ (forall i, nth_error lb i
                  = option_map (override name args2) (nth_error la i))
    /\ lb = (if existsb (name_is name) l
             then map (override name args2) l
             else l ++ [new_plugin name args2])%list
    /\ (forall q, In q lb -> name_is name q = true ->
                  Dict.get "args" q = Some args2)
    /\ count_named name lb = Nat.max 1 (count_named name l).
Proof.
  intros Ht Hl Hn.
  destruct (add_plugin_named phase name args1 reason1 w t w1 l Ht Hl Hn)
    as (wa & Ea & La).
  pose proof (all_named_add_or_replace name args1 l Hn) as Hna.
  destruct (add_plugin_named phase name args2 reason2 wa _ wa
              (add_or_replace name args1 l) (template_loaded _ _ La)
              (DictFacts.get_set_same _ _ _ _) Hna)
    as (wb & Eb & Lb).
  rewrite dict_set_set in Lb.
  assert (Hb : add_or_replace name args2 (add_or_replace name args1 l)
               = map (override name args2) (add_or_replace name args1 l)).
  { unfold add_or_replace at 1. now rewrite existsb_add_or_replace. }
  rewrite Hb in Lb.
  exists wa, wb, (add_or_replace name args1 l),
    (map (override name args2) (add_or_replace name args1 l)).
  split; [exact Ea|]. split; [exact La|]. split; [reflexivity|].
  split; [exact Eb|]. split; [exact Lb|].
  split; [intros i; apply nth_error_map|].
  split; [apply add_or_replace_twice|]. split.
  - intros q Hq Hnq. apply in_map_iff in Hq. destruct Hq as (p & Hp & _).
    symmetry in Hp. exact (override_args _ _ _ _ Hp Hnq).
  - rewrite add_or_replace_twice. apply count_named_add_or_replace.
Qed.

Lemma add_plugin_override_law_witness :
  exists wa wb la lb,
    add_plugin "prebuild_plugins" "koji_parent" (JObj []) None Sample.world
    = (Ok tt, wa)
    /\ loaded wa (Dict.set "prebuild_plugins" la Sample.orchestrator_inner)
    /\ la = [Sample.entry "reactor_config" []; Sample.entry "koji" [];
             Sample.entry "bump_release" []; new_plugin "koji_parent" (JObj [])]
    /\ add_plugin "prebuild_plugins" "koji_parent"
         (JObj [("poll_interval", JNum 5)]) None wa = (Ok tt, wb)
    /\ loaded wb (Dict.set "prebuild_plugins" lb Sample.orchestrator_inner)
    /\ (forall i, nth_error lb i
                  = option_map
                      (override "koji_parent" (JObj [("poll_interval", JNum 5)]))
                      (nth_error la i))
    /\ lb = [Sample.entry "reactor_config" []; Sample.entry "koji" [];
             Sample.entry "bump_release" [];
             new_plugin "koji_parent" (JObj [("poll_interval", JNum 5)])]
    /\ (forall q, In q lb -> name_is "koji_parent" q = true ->
                  Dict.get "args" q = Some (JObj [("poll_interval", JNum 5)]))
    /\ count_named "koji_parent" lb = 1.
Proof.
  exact (add_plugin_override_law "prebuild_plugins" "koji_parent" (JObj [])
           (JObj [("poll_interval", JNum 5)]) None None Sample.world
           Sample.orchestrator_inner Sample.loaded_world
           [Sample.entry "reactor_config" []; Sample.entry "koji" [];
            Sample.entry "bump_release" []]
           eq_refl eq_refl eq_refl).
Defined.

(** ** Malformed customization entries (C5) *)

Lemma disable_one_missing_key e w :
  missing_key_disable e = true ->
  disable_one e w = (Ok tt, emit invalid_disable w).
Proof.
  unfold missing_key_disable, disable_one, try_except.
  destruct (plugin_type e), (plugin_name e); try discriminate; reflexivity.
Qed.

Lemma enable_one_missing_key e w :
  missing_key_enable e = true ->
  enable_one e w = (Ok tt, emit invalid_enable w).
Proof.
  unfold missing_key_enable, enable_one, try_except.
  destruct (plugin_type e), (plugin_name e), (plugin_args e);
    try discriminate; reflexivity.
Qed.

(** C5.  A [disable_plugins] entry without [plugin_type] or [plugin_name],
    and an [enable_plugins] entry without one of these or without
    [plugin_args], changes nothing of the state but the log, which gets
    exactly one record; the loop goes on with the entries that follow, and
    so does whatever comes after the loop. *)
Theorem malformed_customization_entry_is_skipped e rest w :
  (missing_key_disable e = true ->
   disable_one e w = (Ok tt, emit invalid_disable w)
   /\ pt (emit invalid_disable w) = pt w
   /\ logged (emit invalid_disable w) = (logged w ++ [invalid_disable])%list
   /\ for_each disable_one (e :: rest) w
      = for_each disable_one rest (emit invalid_disable w)
   /\ (forall (A : Type) (k : M A),
         (for_each disable_one [e] ;;; k) w = k (emit invalid_disable w)))
  /\ (missing_key_enable e = true ->
      enable_one e w = (Ok tt, emit invalid_enable w)
      /\ pt (emit invalid_enable w) = pt w
      /\ logged (emit invalid_enable w) = (logged w ++ [invalid_enable])%list
      /\ for_each enable_one (e :: rest) w
         = for_each enable_one rest (emit invalid_enable w)
      /\ (forall (A : Type) (k : M A),
            (for_each enable_one [e] ;;; k) w = k (emit invalid_enable w))).
Proof.
  split; intros H.
  - pose proof (disable_one_missing_key e w H) as E.
    split; [exact E|]. split; [reflexivity|]. split; [reflexivity|]. split.
    + cbn [for_each]. now rewrite bind_eq, E.
    + intros A k. cbn [for_each]. now rewrite !bind_eq, E.
  - pose proof (enable_one_missing_key e w H) as E.
    split; [exact E|]. split; [reflexivity|]. split; [reflexivity|]. split.
    + cbn [for_each]. now rewrite bind_eq, E.
    + intros A k. cbn [for_each]. now rewrite !bind_eq, E.
Qed.

Lemma malformed_customization_entry_is_skipped_witness :
  (disable_one (CustomEntry (Some "prebuild_plugins") None None) Sample.world
   = (Ok tt, emit invalid_disable Sample.world)
   /\ for_each disable_one
        [CustomEntry (Some "prebuild_plugins") None None;
         CustomEntry (Some "prebuild_plugins") (Some "koji") None]
        Sample.world
      = for_each disable_one
          [CustomEntry (Some "prebuild_plugins") (Some "koji") None]
          (emit invalid_disable Sample.world))
  /\ (enable_one (CustomEntry (Some "prebuild_plugins") (Some "koji") None)
        Sample.world
      = (Ok tt, emit invalid_enable Sample.world)).
Proof.
  pose proof (malformed_customization_entry_is_skipped
                (CustomEntry (Some "prebuild_plugins") None None)
                [CustomEntry (Some "prebuild_plugins") (Some "koji") None]
                Sample.world) as [Hd _].
  pose proof (malformed_customization_entry_is_skipped
                (CustomEntry (Some "prebuild_plugins") (Some "koji") None)
                [] Sample.world) as [_ He].
  destruct (Hd eq_refl) as (H1 & _ & _ & H2 & _).
  destruct (He eq_refl) as (H3 & _).
  split; [split; [exact H1|exact H2]|exact H3].
Defined.

(** After the malformed entry the valid one is carried out: [koji] is
    removed from the sample template. *)
Example sample_malformed_then_valid :
  let '(r, w') :=
    for_each disable_one
      [CustomEntry (Some "prebuild_plugins") None None;
       CustomEntry (Some "prebuild_plugins") (Some "koji") None]
      Sample.world in
  r = Ok tt
  /\ _template (pt w')
     = Some (Dict.set "prebuild_plugins"
               [Sample.entry "reactor_config" []; Sample.entry "bump_release" []]
               Sample.orchestrator_inner).
Proof. split; reflexivity. Qed.

(** ** The customization pass (C4) *)

Lemma template_doc_is w t :
  doc_is w t ->
  exists w1, template w = (Ok t, w1) /\ loaded w1 t
             /\ _customize_conf (pt w1) = _customize_conf (pt w).
Proof.
  intros [L|[N F]].
  - exists w. split; [now apply template_loaded|]. split; [exact L|reflexivity].
  - unfold template. rewrite N. cbn. rewrite F. eexists.
    split; [reflexivity|]. split; reflexivity.
Qed.

Lemma wf_template_get phase t l :
  wf_template t = true -> Dict.get phase t = Some l -> all_named l = true.
Proof.
  unfold wf_template. induction t as [|[k v] r IH]; simpl; [discriminate|].
  intros H. apply andb_true_iff in H. destruct H as [Hv Hr].
  destruct (String.eqb k phase); [intros E; now inversion E; subst|auto].
Qed.

Lemma wf_template_set phase t l :
  wf_template t = true -> all_named l = true ->
  wf_template (Dict.set phase l t) = true.
Proof.
  unfold wf_template. intros Ht Hl.
  induction t as [|[k v] r IH]; simpl.
  - now rewrite Hl.
  - simpl in Ht. apply andb_true_iff in Ht. destruct Ht as [Hv Hr].
    destruct (String.eqb k phase); simpl.
    + now rewrite Hl, Hr.
    + now rewrite Hv, IH.
Qed.

Lemma all_named_remove_first name l l' :
  remove_first name l = Some l' -> all_named l = true -> all_named l' = true.
Proof.
  revert l'. induction l as [|p r IH]; simpl; [discriminate|].
  intros l' H Hn. apply andb_true_iff in Hn. destruct Hn as [Hp Hr].
  destruct (name_is name p).
  - now inversion H; subst.
  - destruct (remove_first name r) as [r'|]; [|discriminate].
    inversion H; subst. simpl. now rewrite Hp, (IH r' eq_refl Hr).
Qed.

Lemma wf_disable_doc t e :
  wf_template t = true -> wf_template (disable_doc t e) = true.
Proof.
  intros H. unfold disable_doc.
  destruct (plugin_type e) as [ty|], (plugin_name e) as [nm|]; auto.
  destruct (Dict.get ty t) as [l|] eqn:G; auto.
  destruct (remove_first nm l) as [l'|] eqn:R; auto.
  apply wf_template_set; auto.
  eapply all_named_remove_first; eauto using wf_template_get.
Qed.

Lemma wf_enable_doc t e :
  wf_template t = true -> wf_template (enable_doc t e) = true.
Proof.
  intros H. unfold enable_doc.
  destruct (plugin_type e) as [ty|], (plugin_name e) as [nm|],
    (plugin_args e) as [a|]; auto.
  destruct (Dict.get ty t) as [l|] eqn:G; auto.
  apply wf_template_set; auto.
  apply all_named_add_or_replace. eauto using wf_template_get.
Qed.

Lemma disable_one_doc e w t :
  doc_is w t ->
  exists w', disable_one e w = (Ok tt, w')
             /\ doc_is w' (disable_doc t e) /\ same_conf w w'.
Proof.
  intros D. unfold disable_doc.
  destruct (missing_key_disable e) eqn:MK.
  - exists (emit invalid_disable w).
    split; [now apply disable_one_missing_key|].
    unfold missing_key_disable in MK.
    destruct (plugin_type e), (plugin_name e); try discriminate;
      (split; [exact D|reflexivity]).
  - unfold missing_key_disable in MK. unfold disable_one, try_except.
    destruct (plugin_type e) as [ty|]; [|discriminate].
    destruct (plugin_name e) as [nm|]; [|discriminate].
    destruct (template_doc_is w t D) as (w1 & Ht & L & C).
    unfold remove_plugin. rewrite bind_eq, Ht, bind_eq. unfold getitem.
    destruct (Dict.get ty t) as [l|]; cbn [ret raise].
    + destruct (remove_first nm l) as [l'|].
      * rewrite bind_eq, (store_phase_loaded _ _ _ _ L). cbn.
        eexists. split; [reflexivity|]. split; [now left|exact C].
      * cbn [ret]. exists w1. split; [reflexivity|].
        split; [now left|exact C].
    + eexists. split; [reflexivity|]. split; [now left|exact C].
Qed.

Lemma enable_one_doc e w t :
  doc_is w t -> wf_template t = true ->
  exists w', enable_one e w = (Ok tt, w')
             /\ doc_is w' (enable_doc t e) /\ same_conf w w'.
Proof.
  intros D WF. unfold enable_doc.
  destruct (missing_key_enable e) eqn:MK.
  - exists (emit invalid_enable w).
    split; [now apply enable_one_missing_key|].
    unfold missing_key_enable in MK.
    destruct (plugin_type e), (plugin_name e), (plugin_args e);
      try discriminate; (split; [exact D|reflexivity]).
  - unfold missing_key_enable in MK. unfold enable_one, try_except.
    destruct (plugin_type e) as [ty|]; [|discriminate].
    destruct (plugin_name e) as [nm|]; [|discriminate].
    destruct (plugin_args e) as [a|]; [|discriminate].
    destruct (template_doc_is w t D) as (w1 & Ht & L & C).
    destruct (Dict.get ty t) as [l|] eqn:G.
    + pose proof (wf_template_get _ _ _ WF G) as Hn.
      assert (S : exists w', add_plugin ty nm a (Some "enabled at user request") w
                             = (Ok tt, w')
                             /\ loaded w' (Dict.set ty (add_or_replace nm a l) t)
                             /\ same_conf w w').
      { unfold add_plugin. rewrite bind_eq, Ht, bind_eq. unfold getitem.
        rewrite G. cbn [ret]. rewrite (add_plugin_scan_named _ _ _ Hn).
        rewrite bind_eq, (store_phase_loaded _ _ _ _ L). unfold add_or_replace.
        destruct (existsb (name_is nm) l) eqn:E; cbn [negb].
        - eexists. split; [reflexivity|]. split; [reflexivity|exact C].
        - rewrite (map_override_absent _ _ _ E), bind_eq.
          rewrite (store_phase_loaded _ _ _ _ (loaded_put_template _ w1)).
          rewrite dict_set_set, put_template_twice. cbn.
          eexists. split; [reflexivity|]. split; [reflexivity|exact C]. }
      destruct S as (w' & E & L' & C'). exists w'. rewrite E.
      split; [reflexivity|]. split; [now left|exact C'].
    + unfold add_plugin. rewrite bind_eq, Ht, bind_eq. unfold getitem.
      rewrite G. cbn [raise]. eexists. split; [reflexivity|].
      split; [now left|exact C].
Qed.

Lemma for_each_disable_doc l w t :
  doc_is w t ->
  exists w', for_each disable_one l w = (Ok tt, w')
             /\ doc_is w' (fold_left disable_doc l t) /\ same_conf w w'.
Proof.
  revert w t. induction l as [|e r IH]; intros w t D.
  - exists w. split; [reflexivity|]. split; [exact D|reflexivity].
  - destruct (disable_one_doc e w t D) as (w1 & E1 & D1 & C1).
    destruct (IH w1 _ D1) as (w2 & E2 & D2 & C2).
    exists w2. cbn [for_each fold_left]. rewrite bind_eq, E1.
    split; [exact E2|]. split; [exact D2|]. unfold same_conf in *. congruence.
Qed.

Lemma wf_fold_disable l t :
  wf_template t = true -> wf_template (fold_left disable_doc l t) = true.
Proof.
  revert t. induction l as [|e r IH]; intros t H; [exact H|].
  simpl. apply IH. now apply wf_disable_doc.
Qed.

Lemma for_each_enable_doc l w t :
  doc_is w t -> wf_template t = true ->
  exists w', for_each enable_one l w = (Ok tt, w')
             /\ doc_is w' (fold_left enable_doc l t) /\ same_conf w w'.
Proof.
  revert w t. induction l as [|e r IH]; intros w t D WF.
  - exists w. split; [reflexivity|]. split; [exact D|reflexivity].
  - destruct (enable_one_doc e w t D WF) as (w1 & E1 & D1 & C1).
    destruct (IH w1 _ D1 (wf_enable_doc _ e WF)) as (w2 & E2 & D2 & C2).
    exists w2. cbn [for_each fold_left]. rewrite bind_eq, E1.
    split; [exact E2|]. split; [exact D2|]. unfold same_conf in *. congruence.
Qed.

Lemma customize_conf_Ok w conf wc :
  customize_conf w = (Ok conf, wc) ->
  _customize_conf (pt wc) = Some conf
  /\ (forall t, doc_is w t -> doc_is wc t).
Proof.
  unfold customize_conf.
  destruct (_customize_conf (pt w)) as [c|] eqn:C.
  - intros H; inversion H; subst. auto.
  - destruct (_customize_conf_path (pt w)) as [cp|].
    + cbn. destruct (customize_files w _); intros H; inversion H; subst;
        (split; [reflexivity|intros t D; exact D]).
    + intros H; inversion H; subst. split; [reflexivity|intros t D; exact D].
Qed.

Lemma customize_conf_cached w conf :
  _customize_conf (pt w) = Some conf -> customize_conf w = (Ok conf, w).
Proof. unfold customize_conf. now intros ->. Qed.

Lemma count_named_remove_first name l :
  count_named name l = 1 ->
  exists l0, remove_first name l = Some l0
             /\ existsb (name_is name) l0 = false
             /\ length l = S (length l0).
Proof.
  unfold count_named. induction l as [|p r IH]; simpl; [discriminate|].
  destruct (name_is name p) eqn:N; simpl.
  - intros H. exists r. split; [reflexivity|]. split; [|reflexivity].
    pose proof (count_named_existsb name r) as C. unfold count_named in C.
    injection H as H. now rewrite C, H.
  - intros H. destruct (IH H) as (l0 & R & E & Len).
    exists (p :: l0). rewrite R. simpl. rewrite N, E, Len. auto.
Qed.

Lemma find_app_absent name (l : list plugin) p :
  existsb (name_is name) l = false -> name_is name p = true ->
  find (name_is name) (l ++ [p]) = Some p.
Proof.
  induction l as [|q r IH]; simpl; intros E Hp.
  - now rewrite Hp.
  - apply orb_false_iff in E. destruct E as [E1 E2]. rewrite E1. auto.
Qed.

(** C4.  On a document whose entries all have a name, the customization
    pass returns, and the document it leaves is the one obtained by
    carrying out every [disable_plugins] directive and then every
    [enable_plugins] directive.  In particular, when the customization
    disables and re-enables one plugin that the phase holds once, the
    plugin is configured afterwards with the arguments of the enable
    directive, and its entry is the last of the phase, after the entries
    that were not removed. *)
Theorem customization_disables_before_enables w conf wc t :
  customize_conf w = (Ok conf, wc) ->
  doc_is w t ->
  wf_template t = true ->
  exists w',
    render_customizations w = (Ok tt, w')
    /\ doc_is w'
         (fold_left enable_doc (or_empty (enable_plugins conf))
            (fold_left disable_doc (or_empty (disable_plugins conf)) t))
    /\ (forall phase name xargs args l,
          disable_plugins conf
          = Some [CustomEntry (Some phase) (Some name) xargs] ->
          enable_plugins conf
          = Some [CustomEntry (Some phase) (Some name) (Some args)] ->
          Dict.get phase t = Some l ->
          count_named name l = 1 ->
          exists l0 w'',
            remove_first name l = Some l0
            /\ length l = S (length l0)
            /\ existsb (name_is name) l0 = false
            /\ doc_is w'
                 (Dict.set phase (l0 ++ [new_plugin name args])%list t)
            /\ get_plugin_conf phase name w' = (Ok (new_plugin name args), w'')).
Proof.
  intros Hc D WF.
  destruct (customize_conf_Ok _ _ _ Hc) as [Cc Dc]. specialize (Dc t D).
  set (dis := or_empty (disable_plugins conf)).
  set (en := or_empty (enable_plugins conf)).
  assert (P1 : exists w1,
             (match dis with
              | [] => log DEBUG "No site-user specified plugins to disable" []
              | _ => for_each disable_one dis
              end) wc = (Ok tt, w1)
             /\ doc_is w1 (fold_left disable_doc dis t) /\ same_conf wc w1).
  { destruct dis as [|d ds] eqn:Ed.
    - eexists. split; [reflexivity|]. split; [exact Dc|reflexivity].
    - apply for_each_disable_doc. exact Dc. }
  destruct P1 as (w1 & E1 & D1 & C1).
  pose proof (wf_fold_disable dis t WF) as WF1.
  assert (Cc1 : _customize_conf (pt w1) = Some conf)
    by (unfold same_conf in C1; congruence).
  assert (P2 : exists w2,
             (match en with
              | [] => log DEBUG "No site-user specified plugins to enable" []
              | _ => for_each enable_one en
              end) w1 = (Ok tt, w2)
             /\ doc_is w2 (fold_left enable_doc en (fold_left disable_doc dis t))).
  { destruct en as [|e es] eqn:Ee.
    - eexists. split; [reflexivity|]. exact D1.
    - destruct (for_each_enable_doc (e :: es) w1 _ D1 WF1) as (w2 & E2 & D2 & _).
      now exists w2. }
  destruct P2 as (w2 & E2 & D2).
  exists w2. split; [|split; [exact D2|]].
  - unfold render_customizations. fold dis.
    rewrite bind_eq, Hc. fold dis. rewrite bind_eq, E1.
    rewrite bind_eq, (customize_conf_cached _ _ Cc1). fold en. exact E2.
  - intros phase name xargs args l Hd He Hl Hcount.
    destruct (count_named_remove_first name l Hcount) as (l0 & R & Ex & Len).
    assert (F : fold_left enable_doc en (fold_left disable_doc dis t)
                = Dict.set phase (l0 ++ [new_plugin name args])%list t).
    { unfold en, dis. rewrite Hd, He. cbn [or_empty fold_left].
      unfold disable_doc. cbn [plugin_type plugin_name]. rewrite Hl, R.
      unfold enable_doc. cbn [plugin_type plugin_name plugin_args].
      rewrite DictFacts.get_set_same. unfold add_or_replace. rewrite Ex.
      apply dict_set_set. }
    rewrite F in D2.
    destruct (template_doc_is _ _ D2) as (w3 & Ht3 & _ & _).
    exists l0, w3. split; [exact R|]. split; [exact Len|].
    split; [exact Ex|]. split; [exact D2|].
    rewrite get_plugin_conf_eq, Ht3. unfold lookup_plugin.
    rewrite DictFacts.get_set_same, find_app_absent; auto.
    unfold name_is. simpl. now rewrite String.eqb_refl.
Qed.

Lemma customization_disables_before_enables_witness :
  exists w' w'',
    render_customizations Sample.customized_world = (Ok tt, w')
    /\ doc_is w'
         (Dict.set "prebuild_plugins"
            [Sample.entry "reactor_config" []; Sample.entry "bump_release" [];
             new_plugin "koji"
               (JObj [("hub", JStr "https://koji.example.com/hub")])]
            Sample.orchestrator_inner)
    /\ get_plugin_conf "prebuild_plugins" "koji" w'
       = (Ok (new_plugin "koji"
                (JObj [("hub", JStr "https://koji.example.com/hub")])), w'').
Proof.
  destruct (customization_disables_before_enables Sample.customized_world
              Sample.site_conf (snd (customize_conf Sample.customized_world))
              Sample.orchestrator_inner eq_refl
              (or_intror (conj eq_refl eq_refl)) eq_refl)
    as (w' & E & _ & S).
  destruct (S "prebuild_plugins" "koji" None
              (JObj [("hub", JStr "https://koji.example.com/hub")])
              [Sample.entry "reactor_config" []; Sample.entry "koji" [];
               Sample.entry "bump_release" []]
              eq_refl eq_refl eq_refl eq_refl)
    as (l0 & w'' & R & _ & _ & D & G).
  exists w', w''. split; [exact E|]. split; [|exact G].
  injection R as <-. exact D.
Defined.

(** The order of the two passes is visible: enabling first and disabling
    afterwards would leave the sample without [koji]. *)
Example sample_pass_order_matters :
  present "prebuild_plugins" "koji"
    (fold_left enable_doc (or_empty (enable_plugins Sample.site_conf))
       (fold_left disable_doc (or_empty (disable_plugins Sample.site_conf))
          Sample.orchestrator_inner)) = true
  /\ present "prebuild_plugins" "koji"
       (fold_left disable_doc (or_empty (disable_plugins Sample.site_conf))
          (fold_left enable_doc (or_empty (enable_plugins Sample.site_conf))
             Sample.orchestrator_inner)) = false.
Proof. split; reflexivity. Qed.

(** ** A template that cannot be loaded (C3) *)

Lemma load_failure_is_load_error w e :
  load_failure w = Some e -> is_load_error e = true.
Proof.
  unfold load_failure. destruct (_template (pt w)); [discriminate|].
  destruct (template_files w _); intros H; inversion H; reflexivity.
Qed.

Lemma load_failure_unloaded w e :
  load_failure w = Some e -> _template (pt w) = None.
Proof.
  unfold load_failure. now destruct (_template (pt w)).
Qed.

Lemma template_unloadable w e :
  load_failure w = Some e ->
  exists w', template w = (Err e, w')
             /\ load_failure w' = Some e /\ same_conf w w'.
Proof.
  unfold load_failure, template, template_path_of.
  destruct (_template (pt w)) eqn:T; [discriminate|]. cbn.
  destruct (template_files w _) eqn:F; intros H; inversion H; subst;
    (eexists; split; [reflexivity|]; split; [|reflexivity]);
    unfold load_failure, template_path_of; cbn; now rewrite T, F.
Qed.

Lemma has_plugin_conf_unloadable phase name w e :
  load_failure w = Some e ->
  exists w', has_plugin_conf phase name w = (Err e, w')
             /\ load_failure w' = Some e.
Proof.
  intros H. destruct (template_unloadable w e H) as (w' & E & H' & _).
  exists w'. now rewrite has_plugin_conf_eq, E.
Qed.

(** One step of either loop, when the template cannot be loaded: a
    malformed entry is logged, a well-formed one lets the load error
    through. *)
Lemma disable_one_unloadable d w e :
  load_failure w = Some e ->
  exists r w', disable_one d w = (r, w')
               /\ (r = Ok tt \/ r = Err e)
               /\ load_failure w' = Some e /\ same_conf w w'.
Proof.
  intros H. destruct (missing_key_disable d) eqn:MK.
  - exists (Ok tt), (emit invalid_disable w).
    rewrite (disable_one_missing_key d w MK).
    split; [reflexivity|]. split; [now left|]. split; [exact H|reflexivity].
  - unfold missing_key_disable in MK. unfold disable_one, try_except.
    destruct (plugin_type d) as [ty|]; [|discriminate].
    destruct (plugin_name d) as [nm|]; [|discriminate].
    destruct (template_unloadable w e H) as (w' & E & H' & C).
    unfold remove_plugin. rewrite bind_eq, E.
    pose proof (load_failure_is_load_error w e H) as LE.
    exists (Err e), w'. destruct e; try discriminate; auto.
Qed.

Lemma enable_one_unloadable d w e :
  load_failure w = Some e ->
  exists r w', enable_one d w = (r, w')
               /\ (r = Ok tt \/ r = Err e)
               /\ load_failure w' = Some e /\ same_conf w w'.
Proof.
  intros H. destruct (missing_key_enable d) eqn:MK.
  - exists (Ok tt), (emit invalid_enable w).
    rewrite (enable_one_missing_key d w MK).
    split; [reflexivity|]. split; [now left|]. split; [exact H|reflexivity].
  - unfold missing_key_enable in MK. unfold enable_one, try_except.
    destruct (plugin_type d) as [ty|]; [|discriminate].
    destruct (plugin_name d) as [nm|]; [|discriminate].
    destruct (plugin_args d) as [a|]; [|discriminate].
    destruct (template_unloadable w e H) as (w' & E & H' & C).
    unfold add_plugin. rewrite bind_eq, E.
    pose proof (load_failure_is_load_error w e H) as LE.
    exists (Err e), w'. destruct e; try discriminate; auto.
Qed.

Lemma for_each_unloadable (body : custom_entry -> M unit) l w e :
  (forall d w, load_failure w = Some e ->
     exists r w', body d w = (r, w') /\ (r = Ok tt \/ r = Err e)
                  /\ load_failure w' = Some e /\ same_conf w w') ->
  load_failure w = Some e ->
  exists r w', for_each body l w = (r, w')
               /\ (r = Ok tt \/ r = Err e)
               /\ load_failure w' = Some e /\ same_conf w w'.
Proof.
  intros Hb. revert w. induction l as [|d ds IH]; intros w H.
  - exists (Ok tt), w. cbn.
    split; [reflexivity|]. split; [now left|]. split; [exact H|reflexivity].
  - destruct (Hb d w H) as (r & w1 & E & [->| ->] & H1 & C1).
    + destruct (IH w1 H1) as (r2 & w2 & E2 & R2 & H2 & C2).
      exists r2, w2. cbn [for_each]. rewrite bind_eq, E.
      split; [exact E2|]. split; [exact R2|]. split; [exact H2|].
      unfold same_conf in *. congruence.
    + exists (Err e), w1. cbn [for_each]. rewrite bind_eq, E. auto.
Qed.

Lemma customize_conf_load_failure w conf wc e :
  customize_conf w = (Ok conf, wc) ->
  load_failure w = Some e -> load_failure wc = Some e.
Proof.
  unfold customize_conf.
  destruct (_customize_conf (pt w)) as [c|] eqn:C.
  - intros H; inversion H; subst. auto.
  - destruct (_customize_conf_path (pt w)) as [cp|].
    + cbn. destruct (customize_files w _); intros H; inversion H; subst;
        intros L; exact L.
    + intros H; inversion H; subst. intros L; exact L.
Qed.

Lemma render_customizations_unloadable w conf wc e :
  customize_conf w = (Ok conf, wc) ->
  load_failure w = Some e ->
  exists r w', render_customizations w = (r, w')
               /\ (r = Ok tt \/ r = Err e)
               /\ load_failure w' = Some e.
Proof.
  intros Hc H.
  destruct (customize_conf_Ok _ _ _ Hc) as [Cc _].
  pose proof (customize_conf_load_failure _ _ _ _ Hc H) as Hwc.
  unfold render_customizations. rewrite bind_eq, Hc, bind_eq.
  assert (P1 : exists r w1,
             (match or_empty (disable_plugins conf) with
              | [] => log DEBUG "No site-user specified plugins to disable" []
              | _ => for_each disable_one (or_empty (disable_plugins conf))
              end) wc = (r, w1)
             /\ (r = Ok tt \/ r = Err e)
             /\ load_failure w1 = Some e /\ same_conf wc w1).
  { destruct (or_empty (disable_plugins conf)) as [|d ds].
    - eexists _, _. split; [reflexivity|]. split; [now left|].
      split; [exact Hwc|reflexivity].
    - apply for_each_unloadable; [|exact Hwc].
      intros d' w' Hd. now apply disable_one_unloadable. }
  destruct P1 as (r1 & w1 & E1 & [->| ->] & H1 & C1); rewrite E1.
  - assert (Cc1 : _customize_conf (pt w1) = Some conf)
      by (unfold same_conf in C1; congruence).
    rewrite bind_eq, (customize_conf_cached _ _ Cc1).
    destruct (or_empty (enable_plugins conf)) as [|d ds].
    + eexists _, _. split; [reflexivity|]. split; [now left|exact H1].
    + destruct (for_each_unloadable enable_one (d :: ds) w1 e
                  (fun d' w' => enable_one_unloadable d' w' e) H1)
        as (r2 & w2 & E2 & R2 & H2 & _).
      exists r2, w2. auto.
  - exists (Err e), w1. auto.
Qed.

Lemma first_rule_unloadable up w e :
  load_failure w = Some e ->
  (exists w', render_add_filesystem up w = (Err e, w')
              /\ load_failure w' = Some e)
  /\ (exists w', render_fetch_sources up w = (Err e, w')
                 /\ load_failure w' = Some e).
Proof.
  intros H. split.
  - destruct (has_plugin_conf_unloadable "prebuild_plugins" "add_filesystem"
                w e H) as (w' & E & H').
    exists w'. unfold render_add_filesystem. now rewrite bind_eq, E.
  - destruct (has_plugin_conf_unloadable "prebuild_plugins" "fetch_sources"
                w e H) as (w' & E & H').
    exists w'. unfold render_fetch_sources. now rewrite bind_eq, E.
Qed.

(** C3, as the code has it.  When the parameters validate and the
    customization document can be had, a template that cannot be loaded
    makes both [render] methods raise, and no document exists afterwards
    (nothing was cached, hence nothing was mutated, by the customization
    pass or by a rule).  The exception is the [OsbsException] of the
    [template] property when the file cannot be opened, and the parser's
    [ValueError], as it is, when the file is not JSON. *)
Theorem render_fails_when_template_cannot_be_loaded up w conf wc e :
  UserParams.validate up = Ok tt ->
  customize_conf w = (Ok conf, wc) ->
  load_failure w = Some e ->
  (exists w', PluginsConfiguration.render up w = (Err e, w')
              /\ _template (pt w') = None)
  /\ (exists w', SourceContainerPluginsConfiguration.render up w = (Err e, w')
                 /\ _template (pt w') = None)
  /\ match template_files w (template_path_of w) with
     | ReadIOError r =>
         e = OsbsException
               ("Can't open template '" ++ template_path_of w ++ "': " ++ r)
     | ReadValueError => e = ValueError
     | ReadOk _ => False
     end.
Proof.
  intros Hv Hc H.
  destruct (render_customizations_unloadable w conf wc e Hc H)
    as (r & w1 & E1 & R1 & H1).
  split; [|split].
  - unfold PluginsConfiguration.render, validate_params. rewrite Hv.
    rewrite bind_eq. cbn [ret]. rewrite bind_eq, E1.
    destruct R1 as [-> | ->].
    + destruct (first_rule_unloadable up w1 e H1) as [(w2 & E2 & H2) _].
      exists w2. rewrite bind_eq, E2.
      split; [reflexivity|exact (load_failure_unloaded _ _ H2)].
    + exists w1. split; [reflexivity|exact (load_failure_unloaded _ _ H1)].
  - unfold SourceContainerPluginsConfiguration.render, validate_params.
    rewrite Hv. rewrite bind_eq. cbn [ret]. rewrite bind_eq, E1.
    destruct R1 as [-> | ->].
    + destruct (first_rule_unloadable up w1 e H1) as [_ (w2 & E2 & H2)].
      exists w2. rewrite bind_eq, E2.
      split; [reflexivity|exact (load_failure_unloaded _ _ H2)].
    + exists w1. split; [reflexivity|exact (load_failure_unloaded _ _ H1)].
  - unfold load_failure in H. destruct (_template (pt w)); [discriminate|].
    destruct (template_files w (template_path_of w));
      inversion H; reflexivity.
Qed.

Lemma render_fails_when_template_cannot_be_loaded_witness :
  (exists w', PluginsConfiguration.render Sample.orchestrator_params
                Sample.missing_template_world
              = (Err (OsbsException
                        ("Can't open template '"
                           ++ "/usr/share/osbs/orchestrator_inner:6.json"
                           ++ "': IOError(2, 'No such file or directory')")), w')
              /\ _template (pt w') = None)
  /\ (exists w', PluginsConfiguration.render Sample.orchestrator_params
                   Sample.bad_json_world = (Err ValueError, w')
                 /\ _template (pt w') = None).
Proof.
  split.
  - exact (proj1 (render_fails_when_template_cannot_be_loaded
                    Sample.orchestrator_params Sample.missing_template_world
                    empty_conf (snd (customize_conf Sample.missing_template_world))
                    _ eq_refl eq_refl eq_refl)).
  - exact (proj1 (render_fails_when_template_cannot_be_loaded
                    Sample.orchestrator_params Sample.bad_json_world
                    empty_conf (snd (customize_conf Sample.bad_json_world))
                    _ eq_refl eq_refl eq_refl)).
Defined.

(** C3, as it is stated, fails: a template file that is not valid JSON
    makes [render] raise the parser's [ValueError], which the [template]
    property does not turn into its [OsbsException]. *)
Lemma render_on_bad_json_is_not_a_template_load_error :
  template_files Sample.bad_json_world (template_path_of Sample.bad_json_world)
  = ReadValueError
  /\ fst (PluginsConfiguration.render Sample.orchestrator_params
            Sample.bad_json_world) = Err ValueError
  /\ ~ (exists msg,
          fst (PluginsConfiguration.render Sample.orchestrator_params
                 Sample.bad_json_world) = Err (OsbsException msg)).
Proof.
  split; [reflexivity|]. split; [reflexivity|].
  intros [msg H]. discriminate H.
Qed.

(** ** Presence checks of the rules (C2) *)

Lemma has_plugin_conf_doc_is phase name w t :
  doc_is w t ->
  exists w1, has_plugin_conf phase name w = (Ok (present phase name t), w1)
             /\ loaded w1 t.
Proof.
  intros D. destruct (template_doc_is w t D) as (w1 & Ht & L & _).
  exists w1. now rewrite has_plugin_conf_eq, Ht.
Qed.

Lemma guard_when phase name body :
  skips_when_absent phase name
    (present <- has_plugin_conf phase name ;; when present body).
Proof.
  intros w t D P.
  destruct (has_plugin_conf_doc_is phase name w t D) as (w1 & E & L).
  exists w1. now rewrite bind_eq, E, P.
Qed.

Lemma guard_unless phase name body :
  skips_when_absent phase name
    (present <- has_plugin_conf phase name ;;
     if negb present then ret tt else body).
Proof.
  intros w t D P.
  destruct (has_plugin_conf_doc_is phase name w t D) as (w1 & E & L).
  exists w1. now rewrite bind_eq, E, P.
Qed.

(** Every rule but [render_pull_base_image] starts with the presence
    check of its plugin. *)
Lemma guarded_rules_skip_absent_plugin up :
  skips_when_absent "prebuild_plugins" "add_filesystem"
    (render_add_filesystem up)
  /\ skips_when_absent "prebuild_plugins" "add_image_content_manifest"
       (render_add_image_content_manifest up)
  /\ skips_when_absent "prebuild_plugins" "add_labels_in_dockerfile"
       (render_add_labels_in_dockerfile up)
  /\ skips_when_absent "prebuild_plugins" "add_yum_repo_by_url"
       (render_add_yum_repo_by_url up)
  /\ skips_when_absent "prebuild_plugins" "check_user_settings"
       (render_check_user_settings up)
  /\ skips_when_absent "prebuild_plugins" "flatpak_update_dockerfile"
       (render_flatpak_update_dockerfile up)
  /\ skips_when_absent "prebuild_plugins" "koji" (render_koji up)
  /\ skips_when_absent "prebuild_plugins" "bump_release"
       (render_bump_release up)
  /\ skips_when_absent "prebuild_plugins" "check_and_set_platforms"
       (render_check_and_set_platforms up)
  /\ skips_when_absent "exit_plugins" "import_image" (render_import_image up)
  /\ skips_when_absent "prebuild_plugins" "inject_parent_image"
       (render_inject_parent_image up)
  /\ skips_when_absent "postbuild_plugins" "koji_upload"
       (render_koji_upload up)
  /\ skips_when_absent "prebuild_plugins" "pin_operator_digest"
       (render_pin_operator_digest up)
  /\ skips_when_absent "postbuild_plugins" "export_operator_manifests"
       (render_export_operator_manifests up)
  /\ skips_when_absent "exit_plugins" "koji_tag_build"
       (render_koji_tag_build up)
  /\ skips_when_absent "buildstep_plugins" "orchestrate_build"
       (render_orchestrate_build up)
  /\ skips_when_absent "prebuild_plugins" "resolve_composes"
       (render_resolve_composes up)
  /\ skips_when_absent "postbuild_plugins" "tag_from_config"
       (render_tag_from_config up)
  /\ skips_when_absent "prebuild_plugins" "koji_delegate"
       (render_koji_delegate up)
  /\ skips_when_absent "postbuild_plugins" "tag_and_push"
       (render_tag_and_push up)
  /\ skips_when_absent "prebuild_plugins" "fetch_sources"
       (render_fetch_sources up)
  /\ skips_when_absent "prebuild_plugins" "download_remote_source"
       (render_download_remote_source up)
  /\ skips_when_absent "prebuild_plugins" "resolve_remote_source"
       (render_resolve_remote_source up).
Proof.
  repeat split; first [apply guard_when | apply guard_unless].
Qed.

(** [render_pull_base_image] has no such check: with parent image
    digests to pass and no [pull_base_image] entry, it raises. *)
Lemma render_pull_base_image_unguarded up w t :
  doc_is w t ->
  present "prebuild_plugins" "pull_base_image" t = false ->
  truthy (UserParams.parent_images_digests up) = true ->
  exists msg w', render_pull_base_image up w = (Err (RuntimeError msg), w')
                 /\ loaded w' t.
Proof.
  intros D P T. destruct (template_doc_is w t D) as (w1 & Ht & L & _).
  unfold render_pull_base_image, when. rewrite T, set_plugin_arg_eq, Ht.
  unfold set_arg_doc. unfold present in P.
  destruct (lookup_plugin "prebuild_plugins" "pull_base_image" t) as [p|e] eqn:Lk;
    [discriminate|].
  unfold lookup_plugin in Lk.
  destruct (Dict.get "prebuild_plugins" t) as [l|].
  - destruct (find (name_is "pull_base_image") l); inversion Lk; subst.
    eexists _, w1. split; [reflexivity|exact L].
  - inversion Lk; subst. eexists _, w1. split; [reflexivity|exact L].
Qed.

(** C2 at a failing input.  The sample template has no [pull_base_image]
    entry and the build passes parent image digests:
    [render_pull_base_image], which has no presence check, raises
    [RuntimeError] from [set_plugin_arg], and so does the whole
    [render]. *)
Theorem render_pull_base_image_raises_when_absent :
  has_plugin_conf "prebuild_plugins" "pull_base_image" Sample.world
  = (Ok false, Sample.loaded_world)
  /\ render_pull_base_image Sample.digests_params Sample.world
     = (Err (no_such_plugin "pull_base_image"), Sample.loaded_world)
  /\ fst (PluginsConfiguration.render Sample.digests_params Sample.world)
     = Err (no_such_plugin "pull_base_image").
Proof. split; [reflexivity|split; reflexivity]. Qed.

(** ** Rules leave the set of configured plugins as it is *)

Lemma kp_ret {A} (a : A) : keeps_presence (ret a).
Proof.
  intros w t r w' D H. inversion H; subst. exists t. split; [exact D|easy].
Qed.

Lemma kp_raise {A} (e : exn) : keeps_presence (@raise A e).
Proof.
  intros w t r w' D H. inversion H; subst. exists t. split; [exact D|easy].
Qed.

Lemma kp_bind {A B} (m : M A) (f : A -> M B) :
  keeps_presence m -> (forall a, keeps_presence (f a)) ->
  keeps_presence (bind m f).
Proof.
  intros Hm Hf w t r w' D H. rewrite bind_eq in H.
  destruct (m w) as [[a|e] w1] eqn:E.
  - destruct (Hm w t _ _ D E) as (t1 & D1 & P1).
    destruct (Hf a w1 t1 _ _ D1 H) as (t2 & D2 & P2).
    exists t2. split; [exact D2|]. intros ph nm. now rewrite P2, P1.
  - inversion H; subst. exact (Hm w t _ _ D E).
Qed.

Lemma kp_if {A} (b : bool) (m1 m2 : M A) :
  keeps_presence m1 -> keeps_presence m2 ->
  keeps_presence (if b then m1 else m2).
Proof. now destruct b. Qed.

Lemma kp_when (b : bool) (m : M unit) :
  keeps_presence m -> keeps_presence (when b m).
Proof. intros H. unfold when. apply kp_if; [exact H|apply kp_ret]. Qed.

Lemma kp_ignore {A} (m : M A) : keeps_presence m -> keeps_presence (ignore m).
Proof. intros H. unfold ignore. apply kp_bind; [exact H|intros; apply kp_ret]. Qed.

Lemma kp_has_plugin_conf phase name :
  keeps_presence (has_plugin_conf phase name).
Proof.
  intros w t r w' D H.
  destruct (has_plugin_conf_doc_is phase name w t D) as (w1 & E & L).
  rewrite E in H. inversion H; subst. exists t. split; [now left|easy].
Qed.

Lemma kp_set_plugin_arg phase name k v :
  keeps_presence (set_plugin_arg phase name k v).
Proof.
  intros w t r w' D H.
  destruct (template_doc_is w t D) as (w1 & Ht & L & _).
  rewrite set_plugin_arg_eq, Ht in H.
  destruct (set_arg_doc phase name k v t) as [t2|e] eqn:S.
  - inversion H; subst. exists t2. split; [now left|].
    unfold set_arg_doc in S.
    destruct (lookup_plugin phase name t) as [p|e] eqn:Lk; [|discriminate].
    destruct (args_is_mapping p) eqn:A; [|discriminate].
    destruct (set_arg_doc_Ok phase name k v t p Lk A) as (t3 & S3 & _ & P & _).
    unfold set_arg_doc in S3. rewrite Lk, A in S3. congruence.
  - inversion H; subst. exists t. split; [now left|easy].
Qed.

Lemma kp_set_plugin_arg_valid phase name k v :
  keeps_presence (set_plugin_arg_valid phase name k v).
Proof.
  unfold set_plugin_arg_valid. apply kp_if; [|apply kp_ret].
  apply kp_bind; [apply kp_set_plugin_arg|intros; apply kp_ret].
Qed.

Lemma kp_image_prefixed v : keeps_presence (image_prefixed v).
Proof. unfold image_prefixed. destruct v; (apply kp_ret || apply kp_raise). Qed.

Ltac keeps_presence_tac :=
  repeat first
    [ apply kp_ret
    | apply kp_raise
    | apply kp_has_plugin_conf
    | apply kp_set_plugin_arg_valid
    | apply kp_set_plugin_arg
    | apply kp_image_prefixed
    | apply kp_when
    | apply kp_ignore
    | apply kp_if
    | apply kp_bind; [|intros ?] ].

(** No rule of either rule set adds a plugin to the document or removes
    one from it, [render_pull_base_image] included. *)
Lemma rules_keep_presence up :
  keeps_presence (render_add_filesystem up)
  /\ keeps_presence (render_add_image_content_manifest up)
  /\ keeps_presence (render_add_labels_in_dockerfile up)
  /\ keeps_presence (render_add_yum_repo_by_url up)
  /\ keeps_presence (render_check_user_settings up)
  /\ keeps_presence (render_flatpak_update_dockerfile up)
  /\ keeps_presence (render_koji up)
  /\ keeps_presence (render_bump_release up)
  /\ keeps_presence (render_check_and_set_platforms up)
  /\ keeps_presence (render_import_image up)
  /\ keeps_presence (render_inject_parent_image up)
  /\ keeps_presence (render_koji_upload up)
  /\ keeps_presence (render_pin_operator_digest up)
  /\ keeps_presence (render_export_operator_manifests up)
  /\ keeps_presence (render_koji_tag_build up)
  /\ keeps_presence (render_orchestrate_build up)
  /\ keeps_presence (render_resolve_composes up)
  /\ keeps_presence (render_tag_from_config up)
  /\ keeps_presence (render_pull_base_image up)
  /\ keeps_presence (render_koji_delegate up)
  /\ keeps_presence (render_tag_and_push up)
  /\ keeps_presence (render_fetch_sources up)
  /\ keeps_presence (render_download_remote_source up)
  /\ keeps_presence (render_resolve_remote_source up).
Proof.
  repeat split.
  all: unfold render_add_filesystem, render_add_image_content_manifest,
    render_add_labels_in_dockerfile, render_add_yum_repo_by_url,
    render_check_user_settings, render_flatpak_update_dockerfile, render_koji,
    render_bump_release, render_check_and_set_platforms, render_import_image,
    render_inject_parent_image, render_koji_upload, render_pin_operator_digest,
    render_export_operator_manifests, render_koji_tag_build,
    render_orchestrate_build, render_resolve_composes, render_tag_from_config,
    render_pull_base_image, render_koji_delegate, render_tag_and_push,
    render_fetch_sources, render_download_remote_source,
    render_resolve_remote_source; cbv zeta; keeps_presence_tac.
Qed.

Lemma kp_to_json : keeps_presence to_json.
Proof.
  intros w t r w' D H. destruct (template_doc_is w t D) as (w1 & Ht & L & _).
  unfold to_json in H. rewrite bind_eq, Ht in H. inversion H; subst.
  exists t. split; [now left|easy].
Qed.

(** Both [render] methods, from the end of the customization pass on:
    whatever the arrangement's template and the parameters, and whether
    a rule raises or not, the plugins configured at the end are those
    configured after the customization pass. *)
Lemma render_keeps_presence_after_customizations up w w1 t1 :
  UserParams.validate up = Ok tt ->
  render_customizations w = (Ok tt, w1) ->
  doc_is w1 t1 ->
  (forall r w', PluginsConfiguration.render up w = (r, w') ->
     exists t', doc_is w' t' /\ same_presence t1 t')
  /\ (forall r w', SourceContainerPluginsConfiguration.render up w = (r, w') ->
        exists t', doc_is w' t' /\ same_presence t1 t').
Proof.
  intros Hv Hc D.
  destruct (rules_keep_presence up)
    as (K1 & K2 & K3 & K4 & K5 & K6 & K7 & K8 & K9 & K10 & K11 & K12 & K13
        & K14 & K15 & K16 & K17 & K18 & K19 & K20 & K21 & K22 & K23 & K24).
  pose proof kp_to_json as KJ.
  split; intros r w' H.
  - unfold PluginsConfiguration.render, validate_params in H. rewrite Hv in H.
    rewrite bind_eq in H. cbn [ret] in H. rewrite bind_eq, Hc in H.
    match type of H with
    | ?m w1 = _ => assert (K : keeps_presence m)
    end.
    { repeat (apply kp_bind; [assumption|intros _]). assumption. }
    exact (K w1 t1 r w' D H).
  - unfold SourceContainerPluginsConfiguration.render, validate_params in H.
    rewrite Hv in H.
    rewrite bind_eq in H. cbn [ret] in H. rewrite bind_eq, Hc in H.
    match type of H with
    | ?m w1 = _ => assert (K : keeps_presence m)
    end.
    { repeat (apply kp_bind; [assumption|intros _]). assumption. }
    exact (K w1 t1 r w' D H).
Qed.

(** ** The model on the sample build *)

(** [to_dict] that leaves [koji_target] out: [target] is there, bound to
    [None]. *)
Example sample_target_is_null_when_unset :
  let up :=
    {| UserParams.build_json_dir := "/usr/share/osbs";
       UserParams.customize_conf := None;
       UserParams.arrangement_version := 6;
       UserParams.build_type := "orchestrator";
       UserParams.image_tag := "myimage:7.1-3";
       UserParams.additional_tags := None;
       UserParams.build_image := JStr "registry.example.com/buildroot:latest";
       UserParams.buildroot_is_imagestream := JBool false;
       UserParams.compose_ids := JNull;
       UserParams.dependency_replacements := JNull;
       UserParams.filesystem_koji_task_id := JNull;
       UserParams.flatpak := JBool true;
       UserParams.imagestream_name := JNull;
       UserParams.isolated := JNull;
       UserParams.koji_parent_build := JNull;
       UserParams.koji_target := JNull;
       UserParams.koji_upload_dir := JNull;
       UserParams.operator_bundle_replacement_pullspecs := JNull;
       UserParams.operator_csv_modifications_url := JNull;
       UserParams.operator_manifests_extract_platform := JNull;
       UserParams.parent_images_digests := JNull;
       UserParams.platform := JNull;
       UserParams.platforms := JNull;
       UserParams.release := JNull;
       UserParams.remote_sources := JNull;
       UserParams.scratch := JNull;
       UserParams.signing_intent := JNull;
       UserParams.sources_for_koji_build_id := JNull;
       UserParams.sources_for_koji_build_nvr := JNull;
       UserParams.tags_from_yaml := JNull;
       UserParams.triggered_after_koji_task := JNull;
       UserParams.yum_repourls := JNull;
       UserParams.to_dict := fun _ => [("git_uri", JStr "https://src.example.com/ns/pkg.git")];
       UserParams.validate := Ok tt |} in
  orchestrate_build_kwargs up
  = [("git_uri", JStr "https://src.example.com/ns/pkg.git");
     ("target", JNull); ("flatpak", JBool true)].
Proof. reflexivity. Qed.

(** The whole [render] of the sample build. *)
Example sample_render :
  fst (PluginsConfiguration.render Sample.orchestrator_params Sample.world)
  = Ok (JObj
          [("prebuild_plugins",
            JList
              [JObj [("name", JStr "reactor_config"); ("args", JObj [])];
               JObj [("name", JStr "koji");
                     ("args", JObj [("target", JStr "f30-candidate")])];
               JObj [("name", JStr "bump_release"); ("args", JObj [])]]);
           ("buildstep_plugins",
            JList
              [JObj
                 [("name", JStr "orchestrate_build");
                  ("args",
                   JObj
                     [("platforms", JList [JStr "x86_64"]);
                      ("build_kwargs",
                       JObj
                         [("git_uri", JStr "https://src.example.com/ns/pkg.git");
                          ("scratch", JBool false);
                          ("target", JStr "f30-candidate")]);
                      ("config_kwargs",
                       JObj
                         [("build_from",
                           JStr "image:registry.example.com/buildroot:latest")])])]]);
           ("postbuild_plugins",
            JList
              [JObj
                 [("name", JStr "tag_from_config");
                  ("args",
                   JObj
                     [("tag_suffixes",
                       JObj
                         [("unique", JList [JStr "7.1-3"]);
                          ("primary", JList [JStr "{version}-{release}"]);
                          ("floating",
                           JList [JStr "latest"; JStr "{version}";
                                  JStr "extra"])])])]]);
           ("exit_plugins",
            JList
              [JObj [("name", JStr "koji_tag_build");
                     ("args", JObj [("target", JStr "f30-candidate")])];
               JObj [("name", JStr "store_metadata"); ("args", JObj [])]])]).
Proof. reflexivity. Qed.

(* ================================================================== *)
(** * Further properties of the template object                        *)
(* ================================================================== *)

(** ** The two lazily loaded documents *)

(** X1.  The template file is read at most once.  After an access that
    returned, the document is cached: a later access returns it without
    reading or logging, whatever the files hold by then.  An access that
    raised cached nothing and logged its attempt: the next access reads
    the file again and raises the same exception. *)
Theorem template_is_read_at_most_once w :
  match template w with
  | (Ok t, w1) =>
      _template (pt w1) = Some t
      /\ (forall tf cf lg,
            template (mkWorld (pt w1) tf cf lg)
            = (Ok t, mkWorld (pt w1) tf cf lg))
      /\ match _template (pt w) with
         | Some _ => w1 = w
         | None =>
             template_files w (template_path_of w) = ReadOk t
             /\ logged w1 = (logged w ++ [loading_template w])%list
         end
  | (Err e, w1) =>
      _template (pt w) = None
      /\ w1 = emit (loading_template w) w
      /\ template w1 = (Err e, emit (loading_template w) w1)
      /\ match template_files w (template_path_of w) with
         | ReadIOError r =>
             e = OsbsException
                   ("Can't open template '" ++ template_path_of w ++ "': " ++ r)
         | ReadValueError => e = ValueError
         | ReadOk _ => False
         end
  end.
Proof.
  unfold template at 1, template_path_of, loading_template.
  destruct (_template (pt w)) as [t|] eqn:T.
  - split; [exact T|]. split; [|reflexivity].
    intros tf cf lg. unfold template. cbn. now rewrite T.
  - cbn. unfold template_path_of.
    destruct (template_files w _) as [r| |t] eqn:F.
    + split; [reflexivity|]. split; [reflexivity|]. split; [|reflexivity].
      unfold template, emit, loading_template, template_path_of. cbn.
      now rewrite T, F.
    + split; [reflexivity|]. split; [reflexivity|]. split; [|reflexivity].
      unfold template, emit, loading_template, template_path_of. cbn.
      now rewrite T, F.
    + split; [reflexivity|]. split; [|split; reflexivity].
      intros tf cf lg. reflexivity.
Qed.

(** X2.  The customization document is optional: with no path configured,
    or a file that cannot be opened, [customize_conf] is the empty
    dictionary.  Its only exception is the parser's [ValueError] on a file
    that is there but is not JSON, and then nothing is cached.  Once it
    returned, it returns the same document again without reading or
    logging; it never touches the template. *)
Theorem customize_conf_only_fails_on_bad_json w :
  match customize_conf w with
  | (Ok c, w1) =>
      customize_conf w1 = (Ok c, w1)
      /\ _template (pt w1) = _template (pt w)
      /\ match _customize_conf (pt w), customize_path_of w with
         | Some c0, _ => c = c0 /\ w1 = w
         | None, None => c = empty_conf /\ logged w1 = logged w
         | None, Some path =>
             match customize_files w path with
             | ReadOk c0 => c = c0
             | ReadIOError _ => c = empty_conf
             | ReadValueError => False
             end
         end
  | (Err e, w1) =>
      e = ValueError
      /\ _customize_conf (pt w1) = None
      /\ _template (pt w1) = _template (pt w)
      /\ exists path, customize_path_of w = Some path
                      /\ customize_files w path = ReadValueError
  end.
Proof.
  unfold customize_conf at 1, customize_path_of.
  destruct (_customize_conf (pt w)) as [c0|] eqn:C.
  - split; [now apply customize_conf_cached|]. split; [reflexivity|].
    destruct (option_map (os_path_join (_build_json_dir (pt w)))
                (_customize_conf_path (pt w))); auto.
  - destruct (_customize_conf_path (pt w)) as [cp|] eqn:P; cbn.
    + destruct (customize_files w _) as [r| |c0] eqn:F.
      * split; [reflexivity|]. split; reflexivity.
      * split; [reflexivity|]. split; [exact C|]. split; [reflexivity|].
        eexists. split; [reflexivity|exact F].
      * split; [reflexivity|]. split; reflexivity.
    + split; [reflexivity|]. split; [reflexivity|]. split; reflexivity.
Qed.

(** ** remove_plugin *)

Lemma remove_first_split name l :
  match remove_first name l with
  | None => existsb (name_is name) l = false
  | Some l' =>
      exists l1 p l2,
        l = (l1 ++ p :: l2)%list /\ l' = (l1 ++ l2)%list
        /\ existsb (name_is name) l1 = false /\ name_is name p = true
  end.
Proof.
  induction l as [|q r IH]; simpl; [reflexivity|].
  destruct (name_is name q) eqn:N.
  - exists [], q, r. auto.
  - destruct (remove_first name r) as [r'|]; simpl.
    + destruct IH as (l1 & p & l2 & -> & -> & E & P).
      exists (q :: l1), p, l2. simpl. rewrite N, E. auto.
    + exact IH.
Qed.

Lemma count_named_remove_first_S name l l' :
  remove_first name l = Some l' -> count_named name l = S (count_named name l').
Proof.
  unfold count_named. revert l'. induction l as [|q r IH]; simpl; [discriminate|].
  intros l'. destruct (name_is name q) eqn:N; simpl.
  - intros H; inversion H; subst. reflexivity.
  - destruct (remove_first name r) as [r'|]; [|discriminate].
    intros H; inversion H; subst. simpl. rewrite N. now apply IH.
Qed.

Lemma find_remove_first_other name name' l l' :
  name' <> name -> remove_first name l = Some l' ->
  find (name_is name') l' = find (name_is name') l.
Proof.
  intros D. revert l'. induction l as [|q r IH]; simpl; [discriminate|].
  intros l'. destruct (name_is name q) eqn:N.
  - intros H; inversion H; subst.
    destruct (name_is name' q) eqn:N'; [|reflexivity].
    exfalso. apply D. exact (name_is_inj name' name q N' N).
  - destruct (remove_first name r) as [r'|]; [|discriminate].
    intros H; inversion H; subst. simpl.
    destruct (name_is name' q); [reflexivity|now apply IH].
Qed.

(** The outcomes of [remove_plugin] on a document. *)
Lemma remove_plugin_doc phase name reason w t :
  doc_is w t ->
  exists r w',
    remove_plugin phase name reason w = (r, w')
    /\ match Dict.get phase t with
       | None => r = Err KeyError /\ loaded w' t
       | Some l =>
           r = Ok tt
           /\ match remove_first name l with
              | None => existsb (name_is name) l = false /\ loaded w' t
              | Some l' =>
                  loaded w' (Dict.set phase l' t)
                  /\ exists l1 p l2,
                       l = (l1 ++ p :: l2)%list /\ l' = (l1 ++ l2)%list
                       /\ existsb (name_is name) l1 = false
                       /\ name_is name p = true
              end
       end.
Proof.
  intros D. destruct (template_doc_is w t D) as (w1 & Ht & L & _).
  unfold remove_plugin. rewrite bind_eq, Ht, bind_eq. unfold getitem.
  destruct (Dict.get phase t) as [l|]; cbn [ret raise].
  - pose proof (remove_first_split name l) as S.
    destruct (remove_first name l) as [l'|].
    + rewrite bind_eq, (store_phase_loaded _ _ _ _ L).
      destruct (reason_given reason); eexists _, _;
        (split; [reflexivity|]; split; [reflexivity|]; split; [reflexivity|exact S]).
    + eexists _, _. split; [reflexivity|]. auto.
  - eexists _, _. split; [reflexivity|]. auto.
Qed.


(** X3.  [remove_plugin] on a phase of the document removes the first
    entry with the name and nothing else: the entries before and after it
    keep their order, later entries of the same name stay.  When no entry
    has the name it returns without changing the document.  When the
    document has no such phase it raises [KeyError]. *)
Theorem remove_plugin_removes_first_match phase name reason w t :
  doc_is w t ->
  exists r w',
    remove_plugin phase name reason w = (r, w')
    /\ match Dict.get phase t with
       | None => r = Err KeyError /\ loaded w' t
       | Some l =>
           r = Ok tt
           /\ match remove_first name l with
              | None => existsb (name_is name) l = false /\ loaded w' t
              | Some l' =>
                  loaded w' (Dict.set phase l' t)
                  /\ exists l1 p l2,
                       l = (l1 ++ p :: l2)%list /\ l' = (l1 ++ l2)%list
                       /\ existsb (name_is name) l1 = false
                       /\ name_is name p = true
              end
       end.
Proof. exact (remove_plugin_doc phase name reason w t). Qed.

Lemma remove_plugin_removes_first_match_witness :
  exists r w',
    remove_plugin "prebuild_plugins" "koji" None Sample.world = (r, w')
    /\ r = Ok tt
    /\ loaded w'
         (Dict.set "prebuild_plugins"
            [Sample.entry "reactor_config" []; Sample.entry "bump_release" []]
            Sample.orchestrator_inner).
Proof.
  destruct (remove_plugin_removes_first_match "prebuild_plugins" "koji" None
              Sample.world Sample.orchestrator_inner
              (or_intror (conj eq_refl eq_refl)))
    as (r & w' & E & R & L & _).
  exists r, w'. split; [exact E|]. split; [exact R|exact L].
Defined.

(** X4.  What a lookup sees after [remove_plugin] returned: in the phase,
    one entry of the name less than before (none less when there was
    none), so the plugin is still configured exactly when the phase held
    it more than once; every other plugin of the phase, and every other
    phase, is found as before. *)
Theorem remove_plugin_then_lookup phase name reason w t w' :
  doc_is w t ->
  remove_plugin phase name reason w = (Ok tt, w') ->
  exists t',
    loaded w' t'
    /\ count_named name (phase_list phase t')
       = Nat.pred (count_named name (phase_list phase t))
    /\ has_plugin_conf phase name w'
       = (Ok (Nat.ltb 1 (count_named name (phase_list phase t))), w')
    /\ (forall name', name' <> name ->
          lookup_plugin phase name' t' = lookup_plugin phase name' t)
    /\ (forall phase', phase' <> phase ->
          Dict.get phase' t' = Dict.get phase' t)
    /\ map fst t' = map fst t.
Proof.
  intros D H.
  destruct (remove_plugin_doc phase name reason w t D)
    as (r & w0 & E & S).
  rewrite E in H. inversion H; subst r w0. clear H.
  unfold phase_list.
  destruct (Dict.get phase t) as [l|] eqn:G; [|destruct S; discriminate].
  destruct S as [_ S].
  destruct (remove_first name l) as [l'|] eqn:R.
  - destruct S as [L _]. exists (Dict.set phase l' t).
    split; [exact L|]. rewrite DictFacts.get_set_same.
    pose proof (count_named_remove_first_S name l l' R) as C.
    split; [now rewrite C|]. split; [|split; [|split]].
    + rewrite (has_plugin_conf_loaded _ _ _ _ L), present_existsb.
      rewrite DictFacts.get_set_same, count_named_existsb, C.
      now destruct (count_named name l').
    + intros name' N. unfold lookup_plugin.
      rewrite DictFacts.get_set_same, G.
      now rewrite (find_remove_first_other name name' l l' N R).
    + intros phase' N. now apply DictFacts.get_set_other.
    + clear -G. revert G. induction t as [|[k v] r IH]; simpl; [discriminate|].
      destruct (String.eqb k phase); simpl; [reflexivity|].
      intros G. now rewrite IH.
  - destruct S as [Ex L]. exists t. split; [exact L|]. rewrite G.
    pose proof (count_named_existsb name l) as C. rewrite Ex in C.
    destruct (count_named name l) eqn:Z; [|discriminate].
    split; [reflexivity|]. split; [|auto].
    rewrite (has_plugin_conf_loaded _ _ _ _ L), present_existsb, G, Ex.
    reflexivity.
Qed.

Lemma remove_plugin_then_lookup_witness :
  exists t',
    loaded (snd (remove_plugin "prebuild_plugins" "koji" None Sample.world)) t'
    /\ count_named "koji" (phase_list "prebuild_plugins" t') = 0
    /\ has_plugin_conf "prebuild_plugins" "koji"
         (snd (remove_plugin "prebuild_plugins" "koji" None Sample.world))
       = (Ok false,
          snd (remove_plugin "prebuild_plugins" "koji" None Sample.world)).
Proof.
  destruct (remove_plugin_then_lookup "prebuild_plugins" "koji" None
              Sample.world Sample.orchestrator_inner
              (snd (remove_plugin "prebuild_plugins" "koji" None Sample.world))
              (or_intror (conj eq_refl eq_refl)) eq_refl)
    as (t' & L & C & H & _).
  exists t'. split; [exact L|]. split; [exact C|exact H].
Defined.

(** ** add_plugin *)

Lemma find_map_override name' name args l :
  find (name_is name') (map (override name args) l)
  = option_map (override name args) (find (name_is name') l).
Proof.
  induction l as [|q r IH]; simpl; [reflexivity|].
  rewrite name_is_override. destruct (name_is name' q); [reflexivity|exact IH].
Qed.

Lemma find_app_miss name' (l : list plugin) q :
  name_is name' q = false ->
  find (name_is name') (l ++ [q]) = find (name_is name') l.
Proof.
  intros N. induction l as [|p r IH]; simpl; [now rewrite N|].
  destruct (name_is name' p); [reflexivity|exact IH].
Qed.

Lemma override_other name' name args q :
  name_is name' q = true -> name' <> name -> override name args q = q.
Proof.
  intros N D. unfold override. destruct (name_is name q) eqn:E; [|reflexivity].
  exfalso. apply D. exact (name_is_inj name' name q N E).
Qed.

Lemma find_add_or_replace_other name' name args l :
  name' <> name ->
  find (name_is name') (add_or_replace name args l) = find (name_is name') l.
Proof.
  intros D. unfold add_or_replace. destruct (existsb (name_is name) l).
  - rewrite find_map_override.
    destruct (find (name_is name') l) as [q|] eqn:F; [|reflexivity].
    apply find_some in F. destruct F as [_ F]. simpl.
    now rewrite (override_other name' name args q F D).
  - apply find_app_miss. unfold name_is, new_plugin. simpl.
    apply String.eqb_neq. congruence.
Qed.

Lemma find_add_or_replace_same name args l :
  exists q, find (name_is name) (add_or_replace name args l) = Some q
            /\ Dict.get "name" q = Some (JStr name)
            /\ Dict.get "args" q = Some args.
Proof.
  unfold add_or_replace. destruct (existsb (name_is name) l) eqn:E.
  - rewrite find_map_override. rewrite find_existsb in E.
    destruct (find (name_is name) l) as [p|] eqn:F; [|discriminate].
    apply find_some in F. destruct F as [_ F].
    exists (override name args p). split; [reflexivity|].
    unfold override. rewrite F. split.
    + rewrite DictFacts.get_set_other by discriminate.
      unfold name_is in F.
      destruct (Dict.get "name" p) as [[| | |s| |]|]; try discriminate.
      apply String.eqb_eq in F. now subst.
    + apply DictFacts.get_set_same.
  - exists (new_plugin name args). split; [|split; reflexivity].
    apply find_app_absent; [exact E|].
    unfold name_is, new_plugin. simpl. apply String.eqb_refl.
Qed.

Lemma map_fst_dict_set {V} phase (l l' : V) (t : list (string * V)) :
  Dict.get phase t = Some l -> map fst (Dict.set phase l' t) = map fst t.
Proof.
  induction t as [|[k v] r IH]; simpl; [discriminate|].
  destruct (String.eqb k phase); simpl; [reflexivity|].
  intros G. now rewrite IH.
Qed.

(** X5.  [add_plugin] on a phase whose entries all have a name: afterwards
    [get_plugin_conf] finds an entry of that name whose [args] is the
    value given; every other plugin of the phase and every other phase is
    as before; the phase is one entry longer exactly when the name was
    new, and the phases of the document are the same. *)
Theorem add_plugin_then_lookup phase name args reason w t l :
  doc_is w t ->
  Dict.get phase t = Some l ->
  all_named l = true ->
  exists w' t' q,
    add_plugin phase name args reason w = (Ok tt, w')
    /\ loaded w' t'
    /\ get_plugin_conf phase name w' = (Ok q, w')
    /\ Dict.get "name" q = Some (JStr name)
    /\ Dict.get "args" q = Some args
    /\ (forall name', name' <> name ->
          lookup_plugin phase name' t' = lookup_plugin phase name' t)
    /\ (forall phase', phase' <> phase ->
          Dict.get phase' t' = Dict.get phase' t)
    /\ length (phase_list phase t')
       = length l + (if existsb (name_is name) l then 0 else 1)
    /\ map fst t' = map fst t.
Proof.
  intros D G Hn. destruct (template_doc_is w t D) as (w1 & Ht & _ & _).
  destruct (add_plugin_named phase name args reason w t w1 l Ht G Hn)
    as (w' & E & L).
  destruct (find_add_or_replace_same name args l) as (q & F & Qn & Qa).
  exists w', (Dict.set phase (add_or_replace name args l) t), q.
  split; [exact E|]. split; [exact L|]. split.
  { rewrite (get_plugin_conf_loaded _ _ _ _ L). unfold lookup_plugin.
    now rewrite DictFacts.get_set_same, F. }
  split; [exact Qn|]. split; [exact Qa|]. split; [|split; [|split]].
  - intros name' N. unfold lookup_plugin.
    rewrite DictFacts.get_set_same, G.
    now rewrite (find_add_or_replace_other name' name args l N).
  - intros phase' N. now apply DictFacts.get_set_other.
  - unfold phase_list. rewrite DictFacts.get_set_same. unfold add_or_replace.
    destruct (existsb (name_is name) l).
    + rewrite length_map. lia.
    + rewrite length_app. simpl. lia.
  - now apply map_fst_dict_set with (l := l).
Qed.

Lemma add_plugin_then_lookup_witness :
  exists w' t' q,
    add_plugin "exit_plugins" "sendmail" (JObj [("smtp_host", JStr "smtp")])
      None Sample.world = (Ok tt, w')
    /\ loaded w' t'
    /\ get_plugin_conf "exit_plugins" "sendmail" w' = (Ok q, w')
    /\ Dict.get "args" q = Some (JObj [("smtp_host", JStr "smtp")])
    /\ length (phase_list "exit_plugins" t') = 3.
Proof.
  destruct (add_plugin_then_lookup "exit_plugins" "sendmail"
              (JObj [("smtp_host", JStr "smtp")]) None Sample.world
              Sample.orchestrator_inner
              [Sample.entry "koji_tag_build" []; Sample.entry "store_metadata" []]
              (or_intror (conj eq_refl eq_refl)) eq_refl eq_refl)
    as (w' & t' & q & E & L & G & _ & A & _ & _ & Len & _).
  exists w', t', q. auto.
Defined.

Lemma add_plugin_scan_nameless name args l1 q l2 :
  all_named l1 = true -> has_name q = false ->
  add_plugin_scan name args (l1 ++ q :: l2)
  = ((map (override name args) l1 ++ q :: l2)%list,
     existsb (name_is name) l1, true).
Proof.
  intros H1 Hq. induction l1 as [|p r IH]; simpl.
  - unfold has_name, Dict.mem in Hq. now destruct (Dict.get "name" q).
  - simpl in H1. apply andb_true_iff in H1. destruct H1 as [Hp Hr].
    rewrite (IH Hr). unfold has_name, Dict.mem in Hp.
    unfold override, name_is.
    destruct (Dict.get "name" p) as [v|]; [|discriminate].
    destruct v; try reflexivity.
Qed.

(** X6.  [add_plugin] reads [plugin['name']] of every entry: on a phase
    that holds an entry without a name it raises [KeyError] at that entry.
    The entries before it that have the name were already given the new
    [args], the entries from it on are untouched, and nothing is appended.
    In the customization pass this [KeyError] is taken for a malformed
    directive: one record is logged and the pass goes on. *)
Theorem add_plugin_stops_at_nameless_entry phase name args reason w t l1 q l2 :
  doc_is w t ->
  Dict.get phase t = Some (l1 ++ q :: l2)%list ->
  all_named l1 = true ->
  has_name q = false ->
  exists w',
    add_plugin phase name args reason w = (Err KeyError, w')
    /\ loaded w'
         (Dict.set phase (map (override name args) l1 ++ q :: l2)%list t)
    /\ (existsb (name_is name) l1 = false ->
        has_plugin_conf phase name w'
        = (Ok (existsb (name_is name) l2), w'))
    /\ exists w'',
         enable_one (CustomEntry (Some phase) (Some name) (Some args)) w
         = (Ok tt, emit invalid_enable w'')
         /\ _template (pt w'')
            = Some (Dict.set phase
                      (map (override name args) l1 ++ q :: l2)%list t).
Proof.
  intros D G H1 Hq. destruct (template_doc_is w t D) as (w1 & Ht & L & _).
  assert (E : forall reason,
             add_plugin phase name args reason w
             = (Err KeyError,
                put_template
                  (Dict.set phase
                     (map (override name args) l1 ++ q :: l2)%list t) w1)).
  { intros rs. unfold add_plugin. rewrite bind_eq, Ht, bind_eq. unfold getitem.
    rewrite G. cbn [ret].
    rewrite (add_plugin_scan_nameless name args l1 q l2 H1 Hq).
    now rewrite bind_eq, (store_phase_loaded _ _ _ _ L). }
  eexists. split; [apply E|]. split; [reflexivity|]. split.
  - intros Ex.
    rewrite (has_plugin_conf_loaded _ _ _
               (Dict.set phase (map (override name args) l1 ++ q :: l2)%list t)
               (loaded_put_template _ w1)).
    rewrite present_existsb, DictFacts.get_set_same.
    rewrite (map_override_absent _ _ _ Ex), existsb_app, Ex. simpl.
    assert (Nq : name_is name q = false).
    { unfold name_is. unfold has_name, Dict.mem in Hq.
      now destruct (Dict.get "name" q). }
    now rewrite Nq.
  - eexists. unfold enable_one, try_except. cbn [plugin_type plugin_name plugin_args].
    rewrite E. split; reflexivity.
Qed.

Lemma add_plugin_stops_at_nameless_entry_witness :
  exists w',
    add_plugin "exit_plugins" "sendmail" JNull None
      (mkWorld
         (mkPluginsTemplate
            (Some [("exit_plugins",
                    [Sample.entry "sendmail" []; [("args", JObj [])];
                     Sample.entry "store_metadata" []])])
            None "/usr/share/osbs" "orchestrator_inner:6.json" None)
         (Sample.files ReadValueError) Sample.no_customization [])
    = (Err KeyError, w')
    /\ loaded w'
         [("exit_plugins",
           [[("name", JStr "sendmail"); ("args", JNull)]; [("args", JObj [])];
            Sample.entry "store_metadata" []])].
Proof.
  destruct (add_plugin_stops_at_nameless_entry "exit_plugins" "sendmail" JNull
              None
              (mkWorld
                 (mkPluginsTemplate
                    (Some [("exit_plugins",
                            [Sample.entry "sendmail" []; [("args", JObj [])];
                             Sample.entry "store_metadata" []])])
                    None "/usr/share/osbs" "orchestrator_inner:6.json" None)
                 (Sample.files ReadValueError) Sample.no_customization [])
              [("exit_plugins",
                [Sample.entry "sendmail" []; [("args", JObj [])];
                 Sample.entry "store_metadata" []])]
              [Sample.entry "sendmail" []] [("args", JObj [])]
              [Sample.entry "store_metadata" []]
              (or_introl eq_refl) eq_refl eq_refl eq_refl)
    as (w' & E & L & _).
  exists w'. split; [exact E|exact L].
Defined.

(** ** Phases are never created *)

(** X7.  No operation creates a phase.  On a phase that the document does
    not have, [remove_plugin] and [add_plugin] raise [KeyError],
    [has_plugin_conf] answers [False], [set_plugin_arg] raises
    [RuntimeError], and a customization directive is logged as invalid and
    skipped; the document stays as it was. *)
Theorem operations_on_a_missing_phase phase name k v args xargs reason w t :
  doc_is w t ->
  Dict.get phase t = None ->
  exists w1,
    loaded w1 t
    /\ remove_plugin phase name reason w = (Err KeyError, w1)
    /\ add_plugin phase name args reason w = (Err KeyError, w1)
    /\ get_plugin_conf phase name w = (Err KeyError, w1)
    /\ has_plugin_conf phase name w = (Ok false, w1)
    /\ set_plugin_arg phase name k v w
       = (Err (RuntimeError
                 ("Invalid template: plugin phase '" ++ phase ++ "' misses")),
          w1)
    /\ disable_one (CustomEntry (Some phase) (Some name) xargs) w
       = (Ok tt, emit invalid_disable w1)
    /\ enable_one (CustomEntry (Some phase) (Some name) (Some args)) w
       = (Ok tt, emit invalid_enable w1).
Proof.
  intros D G. destruct (template_doc_is w t D) as (w1 & Ht & L & _).
  exists w1. split; [exact L|].
  assert (R : remove_plugin phase name reason w = (Err KeyError, w1)).
  { unfold remove_plugin. rewrite bind_eq, Ht, bind_eq. unfold getitem.
    now rewrite G. }
  assert (A : forall rs, add_plugin phase name args rs w = (Err KeyError, w1)).
  { intros rs. unfold add_plugin. rewrite bind_eq, Ht, bind_eq. unfold getitem.
    now rewrite G. }
  assert (Rd : remove_plugin phase name (Some "disabled at user request") w
               = (Err KeyError, w1)).
  { unfold remove_plugin. rewrite bind_eq, Ht, bind_eq. unfold getitem.
    now rewrite G. }
  split; [exact R|]. split; [apply A|].
  split; [rewrite get_plugin_conf_eq, Ht; unfold lookup_plugin; now rewrite G|].
  split; [rewrite has_plugin_conf_eq, Ht, present_existsb; now rewrite G|].
  split.
  { rewrite set_plugin_arg_eq, Ht. unfold set_arg_doc, lookup_plugin.
    now rewrite G. }
  split.
  - unfold disable_one, try_except. cbn [plugin_type plugin_name].
    now rewrite Rd.
  - unfold enable_one, try_except. cbn [plugin_type plugin_name plugin_args].
    now rewrite A.
Qed.

Lemma operations_on_a_missing_phase_witness :
  exists w1,
    loaded w1 Sample.orchestrator_inner
    /\ add_plugin "prepublish_plugins" "squash" (JObj []) None Sample.world
       = (Err KeyError, w1)
    /\ enable_one
         (CustomEntry (Some "prepublish_plugins") (Some "squash")
            (Some (JObj []))) Sample.world
       = (Ok tt, emit invalid_enable w1).
Proof.
  destruct (operations_on_a_missing_phase "prepublish_plugins" "squash"
              "k" JNull (JObj []) None None Sample.world
              Sample.orchestrator_inner
              (or_intror (conj eq_refl eq_refl)) eq_refl)
    as (w1 & L & _ & A & _ & _ & _ & _ & E).
  exists w1. auto.
Defined.

(** ** set_plugin_arg *)

Lemma replace_first_same name p l :
  find (name_is name) l = Some p -> replace_first name p l = l.
Proof.
  induction l as [|q r IH]; simpl; [reflexivity|].
  destruct (name_is name q); [now intros [= ->]|].
  intros F. now rewrite IH.
Qed.

Lemma replace_first_twice name p1 p2 l :
  name_is name p1 = true ->
  replace_first name p2 (replace_first name p1 l) = replace_first name p2 l.
Proof.
  intros N. induction l as [|q r IH]; simpl; [reflexivity|].
  destruct (name_is name q) eqn:Q; simpl.
  - now rewrite N.
  - now rewrite Q, IH.
Qed.

Lemma dict_set_same {V} k (v : V) d :
  Dict.get k d = Some v -> Dict.set k v d = d.
Proof.
  induction d as [|[k0 v0] r IH]; simpl; [discriminate|].
  destruct (String.eqb k0 k); [now intros [= ->]|].
  intros G. now rewrite IH.
Qed.

Lemma update_entry_same phase name p t :
  lookup_plugin phase name t = Ok p -> update_entry phase name p t = t.
Proof.
  intros Lk. destruct (lookup_plugin_Ok _ _ _ _ Lk) as (l & G & F & _).
  unfold update_entry, phase_list. rewrite G, (replace_first_same _ _ _ F).
  now apply dict_set_same.
Qed.

Lemma update_entry_twice phase name p1 p2 t :
  name_is name p1 = true ->
  update_entry phase name p2 (update_entry phase name p1 t)
  = update_entry phase name p2 t.
Proof.
  intros N. unfold update_entry, phase_list.
  rewrite DictFacts.get_set_same, (replace_first_twice _ _ _ _ N).
  apply dict_set_set.
Qed.

Lemma lookup_update_entry phase name p p' t :
  lookup_plugin phase name t = Ok p -> name_is name p' = true ->
  lookup_plugin phase name (update_entry phase name p' t) = Ok p'.
Proof.
  intros Lk N. destruct (lookup_plugin_Ok _ _ _ _ Lk) as (l & G & F & _).
  unfold update_entry, phase_list, lookup_plugin.
  rewrite DictFacts.get_set_same, G.
  now rewrite (find_replace_first name p p' l F N).
Qed.

Lemma set_arg_doc_update phase name k v t p :
  lookup_plugin phase name t = Ok p -> args_is_mapping p = true ->
  set_arg_doc phase name k v t
  = Ok (update_entry phase name (with_arg k v p) t).
Proof. intros Lk A. unfold set_arg_doc. now rewrite Lk, A. Qed.

Lemma set_arg_doc_Ok_inv phase name k v t t' :
  set_arg_doc phase name k v t = Ok t' ->
  exists p, lookup_plugin phase name t = Ok p /\ args_is_mapping p = true
            /\ t' = update_entry phase name (with_arg k v p) t.
Proof.
  unfold set_arg_doc.
  destruct (lookup_plugin phase name t) as [p|e] eqn:Lk; [|discriminate].
  destruct (args_is_mapping p) eqn:A; [|discriminate].
  intros [= <-]. now exists p.
Qed.

(** X8.  When [set_plugin_arg] returns, the plugin was configured, and
    afterwards [get_plugin_conf] returns its entry with the argument set
    to the value; the other arguments of the plugin and the other keys of
    its entry are as before (an [args] mapping is created when the entry
    had none), and so is the entry of every other plugin. *)
Theorem set_plugin_arg_then_lookup phase name k v w w' :
  set_plugin_arg phase name k v w = (Ok tt, w') ->
  exists t t' p p',
    doc_is w t /\ lookup_plugin phase name t = Ok p
    /\ loaded w' t'
    /\ get_plugin_conf phase name w' = (Ok p', w')
    /\ Dict.get "args" p' = Some (JObj (args_of p'))
    /\ Dict.get k (args_of p') = Some v
    /\ (forall k', k' <> k ->
          Dict.get k' (args_of p') = Dict.get k' (args_of p))
    /\ (forall key, key <> "args" -> Dict.get key p' = Dict.get key p)
    /\ (forall phase' name', (phase', name') <> (phase, name) ->
          lookup_plugin phase' name' t' = lookup_plugin phase' name' t).
Proof.
  intros H. rewrite set_plugin_arg_eq in H.
  destruct (template w) as [[t|e] w1] eqn:Ht; [|discriminate].
  pose proof (template_Ok _ _ _ Ht) as L.
  destruct (set_arg_doc phase name k v t) as [t'|e] eqn:S; [|discriminate].
  inversion H; subst w'. clear H.
  destruct (set_arg_doc_Ok_inv _ _ _ _ _ _ S) as (p & Lk & A & ->).
  destruct (set_arg_doc_Ok phase name k v t p Lk A) as (t2 & S2 & Lk2 & _ & Fr).
  rewrite S in S2. inversion S2; subst t2. clear S2.
  exists t, (update_entry phase name (with_arg k v p) t), p, (with_arg k v p).
  split.
  { unfold template in Ht. unfold doc_is.
    destruct (_template (pt w)) as [t0|] eqn:T.
    - left. now inversion Ht.
    - right. split; [reflexivity|]. cbn in Ht.
      destruct (template_files w _); inversion Ht; reflexivity. }
  split; [exact Lk|]. split; [apply loaded_put_template|]. split.
  { rewrite (get_plugin_conf_loaded _ _ _ _ (loaded_put_template _ w1)).
    now rewrite Lk2. }
  split.
  { unfold with_arg at 1. rewrite DictFacts.get_set_same.
    now rewrite args_of_with_arg. }
  split; [apply get_args_with_arg_same|].
  split; [intros k' N; now apply get_args_with_arg_other|].
  split; [|exact Fr].
  intros key N. unfold with_arg. apply DictFacts.get_set_other. congruence.
Qed.

Lemma set_plugin_arg_then_lookup_witness :
  exists t t' p p',
    doc_is Sample.world t
    /\ lookup_plugin "prebuild_plugins" "koji" t = Ok p
    /\ loaded (snd (set_plugin_arg "prebuild_plugins" "koji" "target"
                      (JStr "f30") Sample.world)) t'
    /\ Dict.get "target" (args_of p') = Some (JStr "f30").
Proof.
  destruct (set_plugin_arg_then_lookup "prebuild_plugins" "koji" "target"
              (JStr "f30") Sample.world
              (snd (set_plugin_arg "prebuild_plugins" "koji" "target"
                      (JStr "f30") Sample.world)) eq_refl)
    as (t & t' & p & p' & D & Lk & L & _ & _ & G & _).
  exists t, t', p, p'. auto.
Defined.



Lemma with_arg_twice k v1 v2 p :
  with_arg k v2 (with_arg k v1 p) = with_arg k v2 p.
Proof.
  unfold with_arg at 1. rewrite args_of_with_arg, dict_set_set.
  unfold with_arg. apply dict_set_set.
Qed.

Lemma set_plugin_arg_Ok_inv phase name k v w w' :
  set_plugin_arg phase name k v w = (Ok tt, w') ->
  exists t w1 p,
    template w = (Ok t, w1) /\ loaded w1 t
    /\ lookup_plugin phase name t = Ok p /\ args_is_mapping p = true
    /\ w' = put_template (update_entry phase name (with_arg k v p) t) w1.
Proof.
  intros H. rewrite set_plugin_arg_eq in H.
  destruct (template w) as [[t|e] w1] eqn:Ht; [|discriminate].
  destruct (set_arg_doc phase name k v t) as [t'|e] eqn:S; [|discriminate].
  destruct (set_arg_doc_Ok_inv _ _ _ _ _ _ S) as (p & Lk & A & ->).
  inversion H; subst. exists t, w1, p.
  split; [reflexivity|]. split; [exact (template_Ok _ _ _ Ht)|]. auto.
Qed.

Lemma set_plugin_arg_run phase name k v w t p :
  loaded w t -> lookup_plugin phase name t = Ok p ->
  args_is_mapping p = true ->
  set_plugin_arg phase name k v w
  = (Ok tt, put_template (update_entry phase name (with_arg k v p) t) w).
Proof.
  intros L Lk A.
  now rewrite (set_plugin_arg_loaded _ _ _ _ _ _ L),
    (set_arg_doc_update _ _ _ _ _ _ Lk A).
Qed.

(** X10.  Two [set_plugin_arg] calls on the same argument of the same
    plugin: the second value wins, and the document is the one the second
    call alone would have produced; repeating a call with the same value
    changes nothing. *)
Theorem set_plugin_arg_last_write_wins phase name k v1 v2 w w1 :
  set_plugin_arg phase name k v1 w = (Ok tt, w1) ->
  exists w2 w2',
    set_plugin_arg phase name k v2 w1 = (Ok tt, w2)
    /\ set_plugin_arg phase name k v2 w = (Ok tt, w2')
    /\ _template (pt w2) = _template (pt w2')
    /\ (v2 = v1 -> _template (pt w2) = _template (pt w1)).
Proof.
  intros H.
  destruct (set_plugin_arg_Ok_inv _ _ _ _ _ _ H) as (t & w0 & p & Ht & L & Lk & A & ->).
  assert (N : name_is name (with_arg k v1 p) = true).
  { rewrite name_is_with_arg.
    now destruct (lookup_plugin_Ok _ _ _ _ Lk) as (_ & _ & _ & _ & N). }
  pose proof (lookup_update_entry phase name p _ t Lk N) as Lk1.
  pose proof (args_is_mapping_with_arg k v1 p) as A1.
  eexists _, _. split.
  { exact (set_plugin_arg_run phase name k v2 _ _ _
             (loaded_put_template _ w0) Lk1 A1). }
  split.
  { rewrite set_plugin_arg_eq, Ht.
    now rewrite (set_arg_doc_update _ _ _ _ _ _ Lk A). }
  rewrite with_arg_twice, (update_entry_twice _ _ _ _ _ N).
  split; [reflexivity|]. now intros ->.
Qed.

Lemma set_plugin_arg_last_write_wins_witness :
  exists w2 w2',
    set_plugin_arg "prebuild_plugins" "koji" "target" (JStr "f31")
      (snd (set_plugin_arg "prebuild_plugins" "koji" "target" (JStr "f30")
              Sample.world)) = (Ok tt, w2)
    /\ set_plugin_arg "prebuild_plugins" "koji" "target" (JStr "f31")
         Sample.world = (Ok tt, w2')
    /\ _template (pt w2) = _template (pt w2').
Proof.
  destruct (set_plugin_arg_last_write_wins "prebuild_plugins" "koji" "target"
              (JStr "f30") (JStr "f31") Sample.world
              (snd (set_plugin_arg "prebuild_plugins" "koji" "target"
                      (JStr "f30") Sample.world)) eq_refl)
    as (w2 & w2' & E1 & E2 & T & _).
  exists w2, w2'. auto.
Defined.

Lemma dict_set_comm {V} k1 k2 (v1 v2 : V) d :
  k1 <> k2 -> Dict.mem k1 d = true -> Dict.mem k2 d = true ->
  Dict.set k2 v2 (Dict.set k1 v1 d) = Dict.set k1 v1 (Dict.set k2 v2 d).
Proof.
  intros N. unfold Dict.mem.
  induction d as [|[k v] r IH]; simpl; [discriminate|].
  destruct (String.eqb_spec k k1) as [->|N1]; simpl.
  - destruct (String.eqb_spec k1 k2) as [E|_]; [contradiction|]. simpl.
    now rewrite String.eqb_refl.
  - destruct (String.eqb_spec k k2) as [->|N2]; simpl.
    + destruct (String.eqb_spec k2 k1) as [E|_]; [congruence|]. reflexivity.
    + destruct (String.eqb_spec k k1); [contradiction|].
      destruct (String.eqb_spec k k2); [contradiction|].
      intros M1 M2. now rewrite IH.
Qed.

Lemma replace_first_comm n1 n2 p1 p2 l :
  n1 <> n2 -> name_is n1 p1 = true -> name_is n2 p2 = true ->
  replace_first n2 p2 (replace_first n1 p1 l)
  = replace_first n1 p1 (replace_first n2 p2 l).
Proof.
  intros N H1 H2.
  assert (X1 : name_is n2 p1 = false).
  { destruct (name_is n2 p1) eqn:E; [|reflexivity].
    exfalso. apply N. exact (name_is_inj n1 n2 p1 H1 E). }
  assert (X2 : name_is n1 p2 = false).
  { destruct (name_is n1 p2) eqn:E; [|reflexivity].
    exfalso. apply N. exact (name_is_inj n1 n2 p2 E H2). }
  induction l as [|q r IH]; simpl; [reflexivity|].
  destruct (name_is n1 q) eqn:Q1; destruct (name_is n2 q) eqn:Q2; simpl.
  - exfalso. apply N. exact (name_is_inj n1 n2 q Q1 Q2).
  - now rewrite X1, Q1.
  - now rewrite X2, Q2.
  - now rewrite Q1, Q2, IH.
Qed.

Lemma update_entry_comm ph1 n1 p1 ph2 n2 p2 t :
  (ph1, n1) <> (ph2, n2) ->
  Dict.mem ph1 t = true -> Dict.mem ph2 t = true ->
  name_is n1 p1 = true -> name_is n2 p2 = true ->
  update_entry ph2 n2 p2 (update_entry ph1 n1 p1 t)
  = update_entry ph1 n1 p1 (update_entry ph2 n2 p2 t).
Proof.
  intros N M1 M2 H1 H2. unfold update_entry, phase_list.
  destruct (String.eqb_spec ph1 ph2) as [<-|Np].
  - rewrite !DictFacts.get_set_same, !dict_set_set.
    rewrite replace_first_comm; auto. intros ->. now apply N.
  - rewrite (DictFacts.get_set_other _ ph1 ph2) by exact Np.
    rewrite (DictFacts.get_set_other _ ph2 ph1) by congruence.
    now apply dict_set_comm.
Qed.

Lemma lookup_plugin_mem phase name t p :
  lookup_plugin phase name t = Ok p -> Dict.mem phase t = true.
Proof.
  intros Lk. destruct (lookup_plugin_Ok _ _ _ _ Lk) as (l & G & _).
  unfold Dict.mem. now rewrite G.
Qed.

Lemma lookup_plugin_name_is phase name t p :
  lookup_plugin phase name t = Ok p -> name_is name p = true.
Proof.
  intros Lk. now destruct (lookup_plugin_Ok _ _ _ _ Lk) as (_ & _ & _ & _ & N).
Qed.

Lemma lookup_update_entry_other phase name p p' phase' name' t :
  lookup_plugin phase name t = Ok p -> name_is name p' = true ->
  (phase', name') <> (phase, name) ->
  lookup_plugin phase' name' (update_entry phase name p' t)
  = lookup_plugin phase' name' t.
Proof.
  intros Lk N D. destruct (lookup_plugin_Ok _ _ _ _ Lk) as (l & G & F & _).
  unfold update_entry, phase_list, lookup_plugin. rewrite G.
  destruct (String.eqb_spec phase phase') as [<-|Np].
  - rewrite DictFacts.get_set_same, G.
    erewrite find_replace_first_other; eauto. intros ->. now apply D.
  - now rewrite DictFacts.get_set_other.
Qed.

(** X11.  Argument settings on two different plugins are independent:
    when one is done after the other, doing them in the opposite order
    succeeds as well and leaves the same document. *)
Theorem set_plugin_arg_on_distinct_plugins_commute
  ph1 n1 k1 v1 ph2 n2 k2 v2 w wa wab :
  (ph1, n1) <> (ph2, n2) ->
  set_plugin_arg ph1 n1 k1 v1 w = (Ok tt, wa) ->
  set_plugin_arg ph2 n2 k2 v2 wa = (Ok tt, wab) ->
  exists wb wba,
    set_plugin_arg ph2 n2 k2 v2 w = (Ok tt, wb)
    /\ set_plugin_arg ph1 n1 k1 v1 wb = (Ok tt, wba)
    /\ _template (pt wba) = _template (pt wab).
Proof.
  intros N Ha Hab.
  destruct (set_plugin_arg_Ok_inv _ _ _ _ _ _ Ha)
    as (t & w0 & p1 & Ht & L & Lk1 & A1 & ->).
  pose proof (lookup_plugin_name_is _ _ _ _ Lk1) as Nm1.
  assert (Nm1' : name_is n1 (with_arg k1 v1 p1) = true)
    by now rewrite name_is_with_arg.
  destruct (set_plugin_arg_Ok_inv _ _ _ _ _ _ Hab)
    as (ta & w0' & p2 & Hta & _ & Lk2a & A2 & ->).
  rewrite (template_loaded _ _ (loaded_put_template _ w0)) in Hta.
  inversion Hta; subst ta w0'. clear Hta.
  assert (Lk2 : lookup_plugin ph2 n2 t = Ok p2).
  { rewrite <- Lk2a. symmetry.
    apply lookup_update_entry_other with (p := p1); auto;
      try (intros E; apply N; now inversion E). }
  pose proof (lookup_plugin_name_is _ _ _ _ Lk2) as Nm2.
  assert (Nm2' : name_is n2 (with_arg k2 v2 p2) = true)
    by now rewrite name_is_with_arg.
  assert (Lk1b : lookup_plugin ph1 n1
                   (update_entry ph2 n2 (with_arg k2 v2 p2) t) = Ok p1).
  { rewrite <- Lk1.
    apply lookup_update_entry_other with (p := p2); auto. }
  eexists _, _. split.
  { rewrite set_plugin_arg_eq, Ht.
    now rewrite (set_arg_doc_update _ _ _ _ _ _ Lk2 A2). }
  split.
  { exact (set_plugin_arg_run ph1 n1 k1 v1 _ _ _
             (loaded_put_template _ w0) Lk1b A1). }
  cbn. f_equal. symmetry. apply update_entry_comm; auto.
  - exact (lookup_plugin_mem _ _ _ _ Lk1).
  - exact (lookup_plugin_mem _ _ _ _ Lk2).
Qed.

Lemma set_plugin_arg_on_distinct_plugins_commute_witness :
  exists wb wba,
    set_plugin_arg "exit_plugins" "koji_tag_build" "target" (JStr "f30")
      Sample.world = (Ok tt, wb)
    /\ set_plugin_arg "prebuild_plugins" "koji" "target" (JStr "f30") wb
       = (Ok tt, wba)
    /\ _template (pt wba)
       = _template
           (pt (snd (set_plugin_arg "exit_plugins" "koji_tag_build" "target"
                       (JStr "f30")
                       (snd (set_plugin_arg "prebuild_plugins" "koji" "target"
                               (JStr "f30") Sample.world))))).
Proof.
  assert (N : ("prebuild_plugins", "koji") <> ("exit_plugins", "koji_tag_build"))
    by discriminate.
  exact (set_plugin_arg_on_distinct_plugins_commute
           "prebuild_plugins" "koji" "target" (JStr "f30")
           "exit_plugins" "koji_tag_build" "target" (JStr "f30")
           Sample.world
           (snd (set_plugin_arg "prebuild_plugins" "koji" "target" (JStr "f30")
                   Sample.world))
           (snd (set_plugin_arg "exit_plugins" "koji_tag_build" "target"
                   (JStr "f30")
                   (snd (set_plugin_arg "prebuild_plugins" "koji" "target"
                           (JStr "f30") Sample.world))))
           N eq_refl eq_refl).
Defined.

(* ================================================================== *)
(** * Further properties of the rendering rules                        *)
(* ================================================================== *)

(** ** Relations that every rule keeps *)

Section Keeps.

Context {R : template_t -> template_t -> Prop} {T : string -> string -> Prop}
  {Inv : DocInvariant R T}.

Lemma keeps_ret {A} (a : A) : keeps R (ret a).
Proof.
  intros w t r w' D H. inversion H; subst. exists t.
  split; [exact D|apply inv_refl].
Qed.

Lemma keeps_raise {A} (e : exn) : keeps R (@raise A e).
Proof.
  intros w t r w' D H. inversion H; subst. exists t.
  split; [exact D|apply inv_refl].
Qed.

Lemma keeps_log lv msg args : keeps R (log lv msg args).
Proof.
  intros w t r w' D H. inversion H; subst. exists t.
  split; [exact D|apply inv_refl].
Qed.

Lemma keeps_bind {A B} (m : M A) (f : A -> M B) :
  keeps R m -> (forall a, keeps R (f a)) -> keeps R (bind m f).
Proof.
  intros Hm Hf w t r w' D H. rewrite bind_eq in H.
  destruct (m w) as [[a|e] w1] eqn:E.
  - destruct (Hm w t _ _ D E) as (t1 & D1 & P1).
    destruct (Hf a w1 t1 _ _ D1 H) as (t2 & D2 & P2).
    exists t2. split; [exact D2|]. exact (inv_trans _ _ _ P1 P2).
  - inversion H; subst. exact (Hm w t _ _ D E).
Qed.

Lemma keeps_try_except {A} (m : M A) (h : exn -> option (M A)) :
  keeps R m -> (forall e k, h e = Some k -> keeps R k) ->
  keeps R (try_except m h).
Proof.
  intros Hm Hh w t r w' D H. unfold try_except in H.
  destruct (m w) as [[a|e] w1] eqn:E.
  - inversion H; subst. exact (Hm w t _ _ D E).
  - destruct (Hm w t _ _ D E) as (t1 & D1 & P1).
    destruct (h e) as [k|] eqn:He.
    + destruct (Hh e k He w1 t1 _ _ D1 H) as (t2 & D2 & P2).
      exists t2. split; [exact D2|]. exact (inv_trans _ _ _ P1 P2).
    + inversion H; subst. exists t1. auto.
Qed.

Lemma keeps_if {A} (b : bool) (m1 m2 : M A) :
  keeps R m1 -> keeps R m2 -> keeps R (if b then m1 else m2).
Proof. now destruct b. Qed.

Lemma keeps_when (b : bool) (m : M unit) : keeps R m -> keeps R (when b m).
Proof. intros H. unfold when. apply keeps_if; [exact H|apply keeps_ret]. Qed.

Lemma keeps_ignore {A} (m : M A) : keeps R m -> keeps R (ignore m).
Proof.
  intros H. unfold ignore. apply keeps_bind; [exact H|intros; apply keeps_ret].
Qed.

Lemma keeps_template : keeps R template.
Proof.
  intros w t r w' D H. destruct (template_doc_is w t D) as (w1 & Ht & L & _).
  rewrite Ht in H. inversion H; subst. exists t.
  split; [now left|apply inv_refl].
Qed.

Lemma keeps_customize_conf : keeps R customize_conf.
Proof.
  intros w t r w' D H. exists t. split; [|apply inv_refl].
  unfold customize_conf in H.
  destruct (_customize_conf (pt w)).
  - inversion H; subst. exact D.
  - destruct (_customize_conf_path (pt w)).
    + cbn in H. destruct (customize_files w _); inversion H; subst; exact D.
    + inversion H; subst. exact D.
Qed.

Lemma keeps_has_plugin_conf phase name : keeps R (has_plugin_conf phase name).
Proof.
  intros w t r w' D H.
  destruct (has_plugin_conf_doc_is phase name w t D) as (w1 & E & L).
  rewrite E in H. inversion H; subst. exists t.
  split; [now left|apply inv_refl].
Qed.

Lemma keeps_set_plugin_arg phase name k v :
  T phase name -> keeps R (set_plugin_arg phase name k v).
Proof.
  intros Ht w t r w' D H.
  destruct (template_doc_is w t D) as (w1 & E & L & _).
  rewrite set_plugin_arg_eq, E in H.
  destruct (set_arg_doc phase name k v t) as [t2|e] eqn:S.
  - inversion H; subst.
    destruct (set_arg_doc_Ok_inv _ _ _ _ _ _ S) as (p & Lk & A & ->).
    eexists. split; [now left|]. now apply inv_set_arg.
  - inversion H; subst. exists t. split; [now left|apply inv_refl].
Qed.

Lemma keeps_set_plugin_arg_valid phase name k v :
  T phase name -> keeps R (set_plugin_arg_valid phase name k v).
Proof.
  intros Ht. unfold set_plugin_arg_valid. apply keeps_if; [|apply keeps_ret].
  apply keeps_bind; [now apply keeps_set_plugin_arg|intros; apply keeps_ret].
Qed.

Lemma keeps_image_prefixed v : keeps R (image_prefixed v).
Proof.
  unfold image_prefixed. destruct v; (apply keeps_ret || apply keeps_raise).
Qed.

Lemma keeps_to_json : keeps R to_json.
Proof.
  unfold to_json. apply keeps_bind; [apply keeps_template|].
  intros; apply keeps_ret.
Qed.

Lemma keeps_validate_params up : keeps R (validate_params up).
Proof.
  unfold validate_params. destruct (UserParams.validate up);
    [apply keeps_ret|apply keeps_raise].
Qed.

Lemma keeps_for_each {A} (body : A -> M unit) l :
  (forall a, keeps R (body a)) -> keeps R (for_each body l).
Proof.
  intros Hb. induction l as [|a r IH]; simpl; [apply keeps_ret|].
  apply keeps_bind; [apply Hb|intros _; exact IH].
Qed.

End Keeps.

Ltac keeps_tac :=
  repeat first
    [ apply keeps_ret
    | apply keeps_raise
    | apply keeps_has_plugin_conf
    | apply keeps_set_plugin_arg_valid; assumption
    | apply keeps_set_plugin_arg; assumption
    | apply keeps_image_prefixed
    | apply keeps_when
    | apply keeps_ignore
    | apply keeps_if
    | apply keeps_bind; [|intros ?] ].

Ltac unfold_rules :=
  unfold render_add_filesystem, render_add_image_content_manifest,
    render_add_labels_in_dockerfile, render_add_yum_repo_by_url,
    render_check_user_settings, render_flatpak_update_dockerfile, render_koji,
    render_bump_release, render_check_and_set_platforms, render_import_image,
    render_inject_parent_image, render_koji_upload, render_pin_operator_digest,
    render_export_operator_manifests, render_koji_tag_build,
    render_orchestrate_build, render_resolve_composes, render_tag_from_config,
    render_pull_base_image, render_koji_delegate, render_tag_and_push,
    render_fetch_sources, render_download_remote_source,
    render_resolve_remote_source; cbv zeta.

(** Each rule keeps a relation that argument settings on its own plugin
    establish. *)
Lemma each_rule_keeps R T {Inv : DocInvariant R T} up :
  (T "prebuild_plugins" "add_filesystem" ->
   keeps R (render_add_filesystem up))
  /\ (T "prebuild_plugins" "add_image_content_manifest" ->
      keeps R (render_add_image_content_manifest up))
  /\ (T "prebuild_plugins" "add_labels_in_dockerfile" ->
      keeps R (render_add_labels_in_dockerfile up))
  /\ (T "prebuild_plugins" "add_yum_repo_by_url" ->
      keeps R (render_add_yum_repo_by_url up))
  /\ (T "prebuild_plugins" "check_user_settings" ->
      keeps R (render_check_user_settings up))
  /\ (T "prebuild_plugins" "flatpak_update_dockerfile" ->
      keeps R (render_flatpak_update_dockerfile up))
  /\ (T "prebuild_plugins" "koji" -> keeps R (render_koji up))
  /\ (T "prebuild_plugins" "bump_release" -> keeps R (render_bump_release up))
  /\ (T "prebuild_plugins" "check_and_set_platforms" ->
      keeps R (render_check_and_set_platforms up))
  /\ (T "exit_plugins" "import_image" -> keeps R (render_import_image up))
  /\ (T "prebuild_plugins" "inject_parent_image" ->
      keeps R (render_inject_parent_image up))
  /\ (T "postbuild_plugins" "koji_upload" -> keeps R (render_koji_upload up))
  /\ (T "prebuild_plugins" "pin_operator_digest" ->
      keeps R (render_pin_operator_digest up))
  /\ (T "postbuild_plugins" "export_operator_manifests" ->
      keeps R (render_export_operator_manifests up))
  /\ (T "exit_plugins" "koji_tag_build" -> keeps R (render_koji_tag_build up))
  /\ (T "buildstep_plugins" "orchestrate_build" ->
      keeps R (render_orchestrate_build up))
  /\ (T "prebuild_plugins" "resolve_composes" ->
      keeps R (render_resolve_composes up))
  /\ (T "postbuild_plugins" "tag_from_config" ->
      keeps R (render_tag_from_config up))
  /\ (T "prebuild_plugins" "pull_base_image" ->
      keeps R (render_pull_base_image up))
  /\ (T "prebuild_plugins" "koji_delegate" -> keeps R (render_koji_delegate up))
  /\ (T "postbuild_plugins" "tag_and_push" -> keeps R (render_tag_and_push up))
  /\ (T "prebuild_plugins" "fetch_sources" -> keeps R (render_fetch_sources up))
  /\ (T "prebuild_plugins" "download_remote_source" ->
      keeps R (render_download_remote_source up))
  /\ (T "prebuild_plugins" "resolve_remote_source" ->
      keeps R (render_resolve_remote_source up)).
Proof.
  repeat split; intros Ht; unfold_rules; keeps_tac.
Qed.

Lemma dict_remove_set {V} k (v : V) d :
  Dict.remove k (Dict.set k v d) = Dict.remove k d.
Proof.
  induction d as [|[k0 v0] r IH]; simpl.
  - now rewrite String.eqb_refl.
  - destruct (String.eqb k0 k) eqn:E; simpl; rewrite E; [reflexivity|].
    now rewrite IH.
Qed.

Lemma map_remove_args_replace_first name p p' l :
  find (name_is name) l = Some p ->
  Dict.remove "args" p' = Dict.remove "args" p ->
  map (Dict.remove "args") (replace_first name p' l)
  = map (Dict.remove "args") l.
Proof.
  intros F E. induction l as [|q r IH]; simpl in *; [reflexivity|].
  destruct (name_is name q).
  - inversion F; subst. simpl. now rewrite E.
  - simpl. now rewrite IH.
Qed.

Lemma strip_args_dict_set phase l l' t :
  Dict.get phase t = Some l ->
  map (Dict.remove "args") l' = map (Dict.remove "args") l ->
  strip_args (Dict.set phase l' t) = strip_args t.
Proof.
  intros G E. unfold strip_args.
  induction t as [|[k v] r IH]; simpl in *; [discriminate|].
  destruct (String.eqb k phase); simpl.
  - inversion G; subst. now rewrite E.
  - now rewrite IH.
Qed.

Lemma strip_args_update_entry phase name k v t p :
  lookup_plugin phase name t = Ok p ->
  strip_args (update_entry phase name (with_arg k v p) t) = strip_args t.
Proof.
  intros Lk. destruct (lookup_plugin_Ok _ _ _ _ Lk) as (l & G & F & _).
  unfold update_entry, phase_list. rewrite G.
  apply strip_args_dict_set with (l := l); [exact G|].
  apply map_remove_args_replace_first with (p := p); [exact F|].
  unfold with_arg. apply dict_remove_set.
Qed.

#[export] Instance same_entries_invariant : DocInvariant same_entries any_plugin.
Proof.
  split.
  - reflexivity.
  - unfold same_entries. intros t1 t2 t3 H1 H2. congruence.
  - intros phase name k v t p _ Lk _. now apply strip_args_update_entry.
Qed.

#[export] Instance same_phases_invariant : DocInvariant same_phases any_plugin.
Proof.
  split.
  - reflexivity.
  - unfold same_phases. intros t1 t2 t3 H1 H2. congruence.
  - intros phase name k v t p _ Lk _.
    destruct (lookup_plugin_Ok _ _ _ _ Lk) as (l & G & _).
    unfold same_phases, update_entry. now apply map_fst_dict_set with (l := l).
Qed.

Lemma dict_mem_set {V} k k' (v : V) d :
  Dict.mem k' d = true -> Dict.mem k' (Dict.set k v d) = true.
Proof.
  unfold Dict.mem. destruct (String.eqb_spec k k') as [->|N].
  - now rewrite DictFacts.get_set_same.
  - now rewrite DictFacts.get_set_other.
Qed.

#[export] Instance args_kept_invariant : DocInvariant args_kept any_plugin.
Proof.
  split.
  - intros t phase name p Lk. exists p. auto.
  - intros t1 t2 t3 H1 H2 phase name p Lk.
    destruct (H1 _ _ _ Lk) as (p2 & Lk2 & K2).
    destruct (H2 _ _ _ Lk2) as (p3 & Lk3 & K3).
    exists p3. auto.
  - intros phase name k v t p _ Lk A phase' name' q Lq.
    pose proof (lookup_plugin_name_is _ _ _ _ Lk) as N.
    destruct (String.eqb_spec phase' phase) as [->|Np];
      [destruct (String.eqb_spec name' name) as [->|Nn]|].
    + rewrite Lk in Lq. inversion Lq; subst q.
      exists (with_arg k v p). split.
      * apply lookup_update_entry with (p := p); [exact Lk|].
        now rewrite name_is_with_arg.
      * intros k' M. rewrite args_of_with_arg. now apply dict_mem_set.
    + exists q. split; [|auto]. rewrite <- Lq.
      apply lookup_update_entry_other with (p := p); auto.
      * now rewrite name_is_with_arg.
      * congruence.
    + exists q. split; [|auto]. rewrite <- Lq.
      apply lookup_update_entry_other with (p := p); auto.
      * now rewrite name_is_with_arg.
      * congruence.
Qed.

#[export] Instance others_untouched_invariant phase name :
  DocInvariant (others_untouched phase name) (the_plugin phase name).
Proof.
  split.
  - intros t phase' name' _. reflexivity.
  - intros t1 t2 t3 H1 H2 phase' name' N. now rewrite H2, H1.
  - intros phase0 name0 k v t p E Lk A phase' name' N.
    unfold the_plugin in E. inversion E; subst phase0 name0.
    apply lookup_update_entry_other with (p := p); auto.
    now rewrite name_is_with_arg, (lookup_plugin_name_is _ _ _ _ Lk).
Qed.

Lemma rule_table_keeps R T {Inv : DocInvariant R T} up phase name m :
  In (phase, name, m) (rule_table up) -> T phase name -> keeps R m.
Proof.
  pose proof (each_rule_keeps R T up) as H.
  unfold rule_table. simpl. intros I.
  repeat (destruct I as [I|I];
          [inversion I; subst; clear I; intros Ht; repeat destruct H as [? H];
           auto|]).
  contradiction.
Qed.

(** X12.  A rule changes nothing but arguments.  For each of the rules of
    both rule sets, whether it returns or raises: the document has the
    same phases and, in every phase, the same entries in the same order
    up to their [args]; every plugin keeps the arguments it had (their
    values may change); and every plugin other than the one the rule
    configures is found with the entry it had. *)
Theorem rules_change_only_the_args_of_their_plugin up phase name m :
  In (phase, name, m) (rule_table up) ->
  keeps same_entries m
  /\ keeps args_kept m
  /\ keeps (others_untouched phase name) m.
Proof.
  intros I. split; [|split].
  - exact (rule_table_keeps same_entries any_plugin up phase name m I Logic.I).
  - exact (rule_table_keeps args_kept any_plugin up phase name m I Logic.I).
  - exact (rule_table_keeps (others_untouched phase name)
             (the_plugin phase name) up phase name m I eq_refl).
Qed.

Lemma rules_change_only_the_args_of_their_plugin_witness :
  keeps same_entries (render_koji Sample.orchestrator_params)
  /\ keeps args_kept (render_koji Sample.orchestrator_params)
  /\ keeps (others_untouched "prebuild_plugins" "koji")
       (render_koji Sample.orchestrator_params).
Proof.
  apply (rules_change_only_the_args_of_their_plugin
           Sample.orchestrator_params "prebuild_plugins" "koji").
  unfold rule_table. do 6 right. left. reflexivity.
Defined.

(** ** The presence check *)

(** X13.  Every rule but [render_pull_base_image] does nothing when its
    plugin is not configured: it returns, and the state is the one the
    presence check left (the document is untouched and nothing more is
    logged). *)
Theorem guarded_rule_is_a_noop_on_an_absent_plugin up phase name m w w1 :
  In (phase, name, m) (rule_table up) ->
  name <> "pull_base_image" ->
  has_plugin_conf phase name w = (Ok false, w1) ->
  m w = (Ok tt, w1).
Proof.
  unfold rule_table. simpl. intros I N H.
  repeat (destruct I as [I|I];
          [inversion I; subst; clear I;
           try (exfalso; apply N; reflexivity);
           unfold_rules; rewrite bind_eq, H; reflexivity|]).
  contradiction.
Qed.

Lemma guarded_rule_is_a_noop_on_an_absent_plugin_witness :
  render_add_filesystem Sample.orchestrator_params Sample.world
  = (Ok tt, Sample.loaded_world).
Proof.
  apply (guarded_rule_is_a_noop_on_an_absent_plugin Sample.orchestrator_params
           "prebuild_plugins" "add_filesystem").
  - unfold rule_table. left. reflexivity.
  - discriminate.
  - reflexivity.
Defined.

(** ** What each rule writes *)

Lemma name_is_apply_writes name ws p :
  name_is name (apply_writes ws p) = name_is name p.
Proof.
  unfold apply_writes. revert p. induction ws as [|[[a k] v] r IH]; intros p.
  - reflexivity.
  - simpl. rewrite IH. destruct a; [apply name_is_with_arg|reflexivity].
Qed.

Lemma args_is_mapping_apply_writes ws p :
  args_is_mapping p = true -> args_is_mapping (apply_writes ws p) = true.
Proof.
  unfold apply_writes. revert p. induction ws as [|[[a k] v] r IH]; intros p A.
  - exact A.
  - simpl. apply IH. destruct a; [apply args_is_mapping_with_arg|exact A].
Qed.

Lemma performs_ret phase name : performs phase name [] (ret tt).
Proof.
  intros w t p D Lk A. exists w. split; [reflexivity|].
  cbn. now rewrite (update_entry_same _ _ _ _ Lk).
Qed.

Lemma performs_set phase name k v :
  performs phase name [always k v] (set_plugin_arg phase name k v).
Proof.
  intros w t p D Lk A. destruct (template_doc_is w t D) as (w1 & Ht & L & _).
  eexists. split.
  - rewrite set_plugin_arg_eq, Ht.
    now rewrite (set_arg_doc_update _ _ _ _ _ _ Lk A).
  - now left.
Qed.

Lemma performs_when_set phase name c k v :
  performs phase name [if_truthy c k v]
    (when (truthy c) (set_plugin_arg phase name k v)).
Proof.
  unfold if_truthy, when. destruct (truthy c).
  - apply performs_set.
  - intros w t p D Lk A. exists w. split; [reflexivity|].
    cbn. now rewrite (update_entry_same _ _ _ _ Lk).
Qed.

Lemma performs_valid phase name k v :
  performs phase name [if_set k v]
    (ignore (set_plugin_arg_valid phase name k v)).
Proof.
  unfold if_set, ignore, set_plugin_arg_valid. destruct (is_not_None v).
  - intros w t p D Lk A.
    destruct (performs_set phase name k v w t p D Lk A) as (w' & E & D').
    exists w'. split; [|exact D']. now rewrite !bind_eq, E.
  - intros w t p D Lk A. exists w. split; [reflexivity|].
    cbn. now rewrite (update_entry_same _ _ _ _ Lk).
Qed.

Lemma performs_seq phase name ws1 ws2 (m1 m2 : M unit) :
  performs phase name ws1 m1 -> performs phase name ws2 m2 ->
  performs phase name (ws1 ++ ws2) (m1 ;;; m2).
Proof.
  intros H1 H2 w t p D Lk A.
  destruct (H1 w t p D Lk A) as (w1 & E1 & D1).
  pose proof (lookup_plugin_name_is _ _ _ _ Lk) as N.
  assert (N1 : name_is name (apply_writes ws1 p) = true)
    by now rewrite name_is_apply_writes.
  pose proof (lookup_update_entry phase name p _ t Lk N1) as Lk1.
  destruct (H2 w1 _ _ D1 Lk1 (args_is_mapping_apply_writes ws1 p A))
    as (w2 & E2 & D2).
  exists w2. split; [now rewrite bind_eq, E1|].
  rewrite (update_entry_twice _ _ _ _ _ N1) in D2.
  unfold apply_writes in *. now rewrite fold_left_app.
Qed.

Lemma performs_guard_when phase name ws body :
  performs phase name ws body ->
  performs phase name ws
    (present <- has_plugin_conf phase name ;; when present body).
Proof.
  intros H w t p D Lk A.
  destruct (has_plugin_conf_doc_is phase name w t D) as (w1 & E & L).
  destruct (H w1 t p (or_introl L) Lk A) as (w' & E' & D').
  exists w'. split; [|exact D'].
  rewrite bind_eq, E. unfold present. now rewrite Lk.
Qed.

Lemma performs_guard_unless phase name ws body :
  performs phase name ws body ->
  performs phase name ws
    (present <- has_plugin_conf phase name ;;
     if negb present then ret tt else body).
Proof.
  intros H w t p D Lk A.
  destruct (has_plugin_conf_doc_is phase name w t D) as (w1 & E & L).
  destruct (H w1 t p (or_introl L) Lk A) as (w' & E' & D').
  exists w'. split; [|exact D'].
  rewrite bind_eq, E. unfold present. now rewrite Lk.
Qed.

Lemma performs_eq phase name ws ws' m :
  performs phase name ws m -> ws = ws' -> performs phase name ws' m.
Proof. now intros H <-. Qed.

Ltac performs_tac :=
  repeat first
    [ apply performs_guard_when
    | apply performs_guard_unless
    | apply performs_valid
    | apply performs_when_set
    | apply performs_set
    | apply performs_ret
    | apply performs_seq ].

(** The table of [rule_writes] is what the rules do. *)
Lemma rule_writes_performed up phase name m ws :
  In (phase, name, m, ws) (rule_writes up) -> performs phase name ws m.
Proof.
  unfold rule_writes. simpl. intros I.
  repeat (destruct I as [I|I];
          [inversion I; subst; clear I; unfold_rules;
           eapply performs_eq; [performs_tac|reflexivity]|]).
  contradiction.
Qed.



(** ** Running a rule twice *)

Lemma has_mapping_with_arg k v p : has_mapping (with_arg k v p).
Proof.
  unfold has_mapping. rewrite args_of_with_arg. unfold with_arg.
  apply DictFacts.get_set_same.
Qed.

Lemma with_arg_same k v p :
  has_mapping p -> Dict.get k (args_of p) = Some v -> with_arg k v p = p.
Proof.
  intros H G. unfold with_arg. rewrite (dict_set_same _ _ _ G).
  now apply dict_set_same.
Qed.

Lemma apply_writes_cons x ws p :
  apply_writes (x :: ws) p = apply_writes ws (apply_write p x).
Proof. reflexivity. Qed.

Lemma apply_writes_has_mapping ws p :
  has_mapping p -> has_mapping (apply_writes ws p).
Proof.
  revert p. induction ws as [|[[a k] v] r IH]; intros p H; [exact H|].
  rewrite apply_writes_cons. apply IH. simpl.
  destruct a; [apply has_mapping_with_arg|exact H].
Qed.

Lemma apply_writes_get_other ws p k :
  ~ In k (map write_key ws) ->
  Dict.get k (args_of (apply_writes ws p)) = Dict.get k (args_of p).
Proof.
  revert p. induction ws as [|[[a k0] v] r IH]; intros p N; [reflexivity|].
  rewrite apply_writes_cons. simpl in N. unfold write_key at 1 in N. simpl in N.
  rewrite IH by tauto. simpl. destruct a; [|reflexivity].
  apply get_args_with_arg_other. tauto.
Qed.

Lemma apply_writes_established ws p a k v :
  NoDup (map write_key ws) ->
  In (a, k, v) ws -> a = true ->
  has_mapping (apply_writes ws p)
  /\ Dict.get k (args_of (apply_writes ws p)) = Some v.
Proof.
  revert p. induction ws as [|x r IH]; intros p ND I A; [contradiction|].
  rewrite apply_writes_cons. inversion ND as [|? ? Nin ND']; subst.
  destruct I as [->|I].
  - simpl. split.
    + apply apply_writes_has_mapping, has_mapping_with_arg.
    + rewrite apply_writes_get_other by exact Nin.
      apply get_args_with_arg_same.
  - now apply IH.
Qed.

Lemma apply_writes_stable ws p :
  (forall a k v, In (a, k, v) ws -> a = true ->
     has_mapping p /\ Dict.get k (args_of p) = Some v) ->
  apply_writes ws p = p.
Proof.
  induction ws as [|[[a k] v] r IH]; intros H; [reflexivity|].
  rewrite apply_writes_cons.
  assert (E : apply_write p (a, k, v) = p).
  { simpl. destruct a; [|reflexivity].
    destruct (H true k v (or_introl eq_refl) eq_refl) as [M G].
    now apply with_arg_same. }
  rewrite E. apply IH. intros a' k' v' I A. apply (H a' k' v'); [now right|exact A].
Qed.

Lemma apply_writes_idempotent ws p :
  NoDup (map write_key ws) ->
  apply_writes ws (apply_writes ws p) = apply_writes ws p.
Proof.
  intros ND. apply apply_writes_stable. intros a k v I A.
  now apply apply_writes_established with (a := a).
Qed.

Lemma rule_writes_keys_distinct up phase name m ws :
  In (phase, name, m, ws) (rule_writes up) -> NoDup (map write_key ws).
Proof.
  unfold rule_writes. simpl. intros I.
  repeat (destruct I as [I|I];
          [inversion I; subst; clear I; cbn;
           repeat (constructor; [simpl; intuition discriminate|]);
           constructor|]).
  contradiction.
Qed.

(** X15.  The rules are idempotent.  When the plugin of a rule is
    configured and its [args] is absent or a mapping, running the rule a
    second time succeeds again and leaves the document exactly as the
    first run left it. *)
Theorem rules_are_idempotent up phase name m ws w t p :
  In (phase, name, m, ws) (rule_writes up) ->
  doc_is w t ->
  lookup_plugin phase name t = Ok p ->
  args_is_mapping p = true ->
  exists w1 w2 t1,
    m w = (Ok tt, w1) /\ doc_is w1 t1
    /\ m w1 = (Ok tt, w2) /\ doc_is w2 t1.
Proof.
  intros I D Lk A.
  pose proof (rule_writes_performed up phase name m ws I) as P.
  pose proof (rule_writes_keys_distinct up phase name m ws I) as ND.
  destruct (P w t p D Lk A) as (w1 & E1 & D1).
  assert (N1 : name_is name (apply_writes ws p) = true).
  { rewrite name_is_apply_writes. exact (lookup_plugin_name_is _ _ _ _ Lk). }
  pose proof (lookup_update_entry phase name p _ t Lk N1) as Lk1.
  destruct (P w1 _ _ D1 Lk1 (args_is_mapping_apply_writes ws p A))
    as (w2 & E2 & D2).
  exists w1, w2, (update_entry phase name (apply_writes ws p) t).
  split; [exact E1|]. split; [exact D1|]. split; [exact E2|].
  rewrite (apply_writes_idempotent ws p ND) in D2.
  now rewrite (update_entry_same _ _ _ _ Lk1) in D2.
Qed.

Lemma rules_are_idempotent_witness :
  exists w1 w2 t1,
    render_koji_upload Sample.orchestrator_params
      (with_pt
         (set__template
            [("postbuild_plugins", [[("name", JStr "koji_upload")]])])
         Sample.world) = (Ok tt, w1)
    /\ doc_is w1 t1
    /\ render_koji_upload Sample.orchestrator_params w1 = (Ok tt, w2)
    /\ doc_is w2 t1.
Proof.
  assert (I : In ("postbuild_plugins", "koji_upload",
                  render_koji_upload Sample.orchestrator_params,
                  [always "koji_upload_dir"
                     (UserParams.koji_upload_dir Sample.orchestrator_params);
                   always "platform"
                     (UserParams.platform Sample.orchestrator_params);
                   always "report_multiple_digests" (JBool true)])
                (rule_writes Sample.orchestrator_params)).
  { unfold rule_writes. do 11 right. left. reflexivity. }
  exact (rules_are_idempotent Sample.orchestrator_params
           "postbuild_plugins" "koji_upload" _ _
           (with_pt
              (set__template
                 [("postbuild_plugins", [[("name", JStr "koji_upload")]])])
              Sample.world)
           [("postbuild_plugins", [[("name", JStr "koji_upload")]])]
           [("name", JStr "koji_upload")] I
           (or_introl eq_refl) eq_refl eq_refl).
Defined.

(** ** The orchestrate_build rule *)

Lemma dict_get_remove_other {V} k k' (d : list (string * V)) :
  k <> k' -> Dict.get k' (Dict.remove k d) = Dict.get k' d.
Proof.
  intros N. induction d as [|[k0 v0] r IH]; simpl; [reflexivity|].
  destruct (String.eqb_spec k0 k) as [->|E]; simpl.
  - destruct (String.eqb_spec k k'); [contradiction|reflexivity].
  - destruct (String.eqb k0 k'); [reflexivity|exact IH].
Qed.

Lemma dict_get_not_in {V} k (d : list (string * V)) :
  ~ In k (map fst d) -> Dict.get k d = None.
Proof.
  induction d as [|[k0 v0] r IH]; simpl; [reflexivity|].
  intros N. destruct (String.eqb_spec k0 k) as [->|E]; [tauto|].
  apply IH. tauto.
Qed.

Lemma dict_get_remove_same {V} k (d : list (string * V)) :
  NoDup (map fst d) -> Dict.get k (Dict.remove k d) = None.
Proof.
  induction d as [|[k0 v0] r IH]; simpl; [reflexivity|].
  intros ND. inversion ND as [|? ? Nin ND']; subst.
  destruct (String.eqb_spec k0 k) as [->|E]; simpl.
  - now apply dict_get_not_in.
  - destruct (String.eqb_spec k0 k); [contradiction|]. now apply IH.
Qed.

(** X16.  The [build_kwargs] handed to the worker builds is what
    [to_dict] returned for the worker parameters, with [koji_target]
    renamed to [target] ([None] when [to_dict] had no [koji_target]) and
    with [flatpak] set to [True] for a flatpak build; [koji_target] itself
    is no longer a key, and every other key has the value [to_dict] gave
    it. *)
Theorem orchestrate_build_kwargs_renames_koji_target up :
  NoDup (map fst (UserParams.to_dict up worker_params)) ->
  Dict.get "koji_target" (orchestrate_build_kwargs up) = None
  /\ Dict.get "target" (orchestrate_build_kwargs up)
     = Some (match Dict.get "koji_target" (UserParams.to_dict up worker_params)
             with
             | Some v => v
             | None => JNull
             end)
  /\ Dict.get "flatpak" (orchestrate_build_kwargs up)
     = (if truthy (UserParams.flatpak up) then Some (JBool true)
        else Dict.get "flatpak" (UserParams.to_dict up worker_params))
  /\ (forall k, k <> "koji_target" -> k <> "target" -> k <> "flatpak" ->
        Dict.get k (orchestrate_build_kwargs up)
        = Dict.get k (UserParams.to_dict up worker_params)).
Proof.
  intros ND. unfold orchestrate_build_kwargs, pop_value.
  set (d := UserParams.to_dict up worker_params) in *.
  destruct (truthy (UserParams.flatpak up)).
  - split.
    { rewrite !DictFacts.get_set_other by discriminate.
      now apply dict_get_remove_same. }
    split.
    { rewrite DictFacts.get_set_other by discriminate.
      apply DictFacts.get_set_same. }
    split; [apply DictFacts.get_set_same|].
    intros k N1 N2 N3.
    rewrite !DictFacts.get_set_other by congruence.
    apply dict_get_remove_other. congruence.
  - split.
    { rewrite DictFacts.get_set_other by discriminate.
      now apply dict_get_remove_same. }
    split; [apply DictFacts.get_set_same|]. split.
    { rewrite DictFacts.get_set_other by discriminate.
      apply dict_get_remove_other. discriminate. }
    intros k N1 N2 N3.
    rewrite DictFacts.get_set_other by congruence.
    apply dict_get_remove_other. congruence.
Qed.

Lemma orchestrate_build_kwargs_renames_koji_target_witness :
  Dict.get "koji_target" (orchestrate_build_kwargs Sample.orchestrator_params)
  = None
  /\ Dict.get "target" (orchestrate_build_kwargs Sample.orchestrator_params)
     = Some (JStr "f30-candidate")
  /\ Dict.get "git_uri" (orchestrate_build_kwargs Sample.orchestrator_params)
     = Some (JStr "https://src.example.com/ns/pkg.git").
Proof.
  assert (ND : NoDup (map fst (UserParams.to_dict Sample.orchestrator_params
                                 worker_params))).
  { cbn. repeat (constructor; [simpl; intuition discriminate|]). constructor. }
  destruct (orchestrate_build_kwargs_renames_koji_target
              Sample.orchestrator_params ND) as (H1 & H2 & _ & H4).
  split; [exact H1|]. split; [exact H2|].
  rewrite (H4 "git_uri"); [reflexivity|discriminate|discriminate|discriminate].
Defined.

(** The outcomes of [render_orchestrate_build] on a configured plugin. *)
Lemma render_orchestrate_build_doc up w t p :
  doc_is w t ->
  lookup_plugin "buildstep_plugins" "orchestrate_build" t = Ok p ->
  args_is_mapping p = true ->
  exists r w',
    render_orchestrate_build up w = (r, w')
    /\ match orchestrate_config_kwargs up with
       | Some c =>
           r = Ok tt
           /\ doc_is w'
                (update_entry "buildstep_plugins" "orchestrate_build"
                   (apply_writes
                      [if_set "platforms" (UserParams.platforms up);
                       always "build_kwargs"
                         (JObj (orchestrate_build_kwargs up));
                       always "config_kwargs" (JObj c)] p) t)
       | None =>
           r = Err TypeError
           /\ doc_is w'
                (update_entry "buildstep_plugins" "orchestrate_build"
                   (apply_writes
                      [if_set "platforms" (UserParams.platforms up);
                       always "build_kwargs"
                         (JObj (orchestrate_build_kwargs up))] p) t)
       end.
Proof.
  intros D Lk A.
  set (phase := "buildstep_plugins") in *.
  set (name := "orchestrate_build") in *.
  set (ws := [if_set "platforms" (UserParams.platforms up);
              always "build_kwargs" (JObj (orchestrate_build_kwargs up))]).
  assert (P : performs phase name ws
                (ignore (set_plugin_arg_valid phase name "platforms"
                           (UserParams.platforms up)) ;;;
                 set_plugin_arg phase name "build_kwargs"
                   (JObj (orchestrate_build_kwargs up)))).
  { eapply performs_eq; [performs_tac|reflexivity]. }
  destruct (has_plugin_conf_doc_is phase name w t D) as (w0 & E0 & L0).
  destruct (P w0 t p (or_introl L0) Lk A) as (w1 & E1 & D1).
  rewrite bind_eq in E1.
  destruct (ignore (set_plugin_arg_valid phase name "platforms"
                      (UserParams.platforms up)) w0) as [[[]|e] wa] eqn:Ea;
    [|discriminate].
  assert (N1 : name_is name (apply_writes ws p) = true).
  { rewrite name_is_apply_writes. exact (lookup_plugin_name_is _ _ _ _ Lk). }
  pose proof (lookup_update_entry phase name p _ t Lk N1) as Lk1.
  pose proof (args_is_mapping_apply_writes ws p A) as A1.
  assert (Start :
            render_orchestrate_build up w
            = (config_kwargs <-
                 (if negb (truthy (UserParams.buildroot_is_imagestream up))
                  then
                    build_from <- image_prefixed (UserParams.build_image up) ;;
                    ret [("build_from", build_from)]
                  else ret []) ;;
               set_plugin_arg phase name "config_kwargs" (JObj config_kwargs))
                w1).
  { unfold render_orchestrate_build. fold phase name.
    set (rest := bind (if negb _ then _ else _) _).
    rewrite bind_eq, E0. unfold present. rewrite Lk. cbn [negb].
    rewrite bind_eq, Ea. now rewrite bind_eq, E1. }
  rewrite Start. clear Start.
  assert (Fin : forall c,
             exists w',
               set_plugin_arg phase name "config_kwargs" (JObj c) w1
               = (Ok tt, w')
               /\ doc_is w'
                    (update_entry phase name
                       (apply_writes (ws ++ [always "config_kwargs" (JObj c)]) p)
                       t)).
  { intros c.
    destruct (performs_set phase name "config_kwargs" (JObj c) w1 _ _
                D1 Lk1 A1) as (w' & E' & D').
    exists w'. split; [exact E'|].
    rewrite (update_entry_twice _ _ _ _ _ N1) in D'.
    unfold apply_writes in *. now rewrite fold_left_app. }
  unfold orchestrate_config_kwargs. rewrite bind_eq.
  destruct (truthy (UserParams.buildroot_is_imagestream up)); cbn [negb].
  - cbn [ret]. destruct (Fin []) as (w' & E' & D'). exists (Ok tt), w'. auto.
  - rewrite bind_eq. unfold image_prefixed.
    destruct (UserParams.build_image up) as [| | |s| |];
      try (exists (Err TypeError), w1; cbn [raise];
           split; [reflexivity|]; split; [reflexivity|exact D1]).
    cbn [ret].
    destruct (Fin [("build_from", JStr ("image:" ++ s))]) as (w' & E' & D').
    exists (Ok tt), w'. auto.
Qed.



(* ================================================================== *)
(** * Further properties of [render]                                    *)
(* ================================================================== *)

(** ** What can be raised *)

Lemma ro_weaken {A} (E E' : exn -> Prop) (m : M A) :
  raises_only E m -> (forall e, E e -> E' e) -> raises_only E' m.
Proof. intros H I w e w' R. exact (I e (H w e w' R)). Qed.

Lemma ro_ret {A} E (a : A) : raises_only E (ret a).
Proof. intros w e w' H. discriminate H. Qed.

Lemma ro_log E lv msg args : raises_only E (log lv msg args).
Proof. intros w e w' H. discriminate H. Qed.

Lemma ro_raise {A} (E : exn -> Prop) e : E e -> raises_only E (@raise A e).
Proof. intros He w e' w' H. inversion H; subst. exact He. Qed.

Lemma ro_bind {A B} E (m : M A) (f : A -> M B) :
  raises_only E m -> (forall a, raises_only E (f a)) ->
  raises_only E (bind m f).
Proof.
  intros Hm Hf w e w' H. rewrite bind_eq in H.
  destruct (m w) as [[a|e0] w1] eqn:R.
  - exact (Hf a w1 e w' H).
  - inversion H; subst. exact (Hm w e w' R).
Qed.

Lemma ro_try_except {A} (E0 E : exn -> Prop) (m : M A) h :
  raises_only E0 m ->
  (forall e, E0 e ->
     match h e with Some k => raises_only E k | None => E e end) ->
  raises_only E (try_except m h).
Proof.
  intros Hm Hh w e w' H. unfold try_except in H.
  destruct (m w) as [[a|e0] w1] eqn:R; [discriminate|].
  specialize (Hh e0 (Hm w e0 w1 R)).
  destruct (h e0) as [k|].
  - exact (Hh w1 e w' H).
  - inversion H; subst. exact Hh.
Qed.

Lemma ro_for_each {A} E (body : A -> M unit) l :
  (forall a, raises_only E (body a)) -> raises_only E (for_each body l).
Proof.
  intros Hb. induction l as [|a r IH]; simpl; [apply ro_ret|].
  apply ro_bind; [apply Hb|intros _; exact IH].
Qed.

Lemma ro_template : raises_only (fun e => is_load_error e = true) template.
Proof. intros w e w' H. exact (proj1 (template_Err w e w' H)). Qed.

Lemma ro_customize_conf : raises_only (fun e => e = ValueError) customize_conf.
Proof.
  intros w e w'. unfold customize_conf.
  destruct (_customize_conf (pt w)); [discriminate|].
  destruct (_customize_conf_path (pt w)); [|discriminate].
  cbn. destruct (customize_files w _); intros H; inversion H; reflexivity.
Qed.

Lemma ro_store_phase E phase l : raises_only E (store_phase phase l).
Proof.
  intros w e w'. unfold store_phase.
  destruct (_template (pt w)); discriminate.
Qed.

Lemma ro_getitem phase t : raises_only (fun e => e = KeyError) (getitem phase t).
Proof.
  unfold getitem. destruct (Dict.get phase t); [apply ro_ret|now apply ro_raise].
Qed.

Lemma ro_remove_plugin phase name reason :
  raises_only (fun e => e = KeyError \/ is_load_error e = true)
    (remove_plugin phase name reason).
Proof.
  unfold remove_plugin.
  apply ro_bind; [eapply ro_weaken; [apply ro_template|tauto]|intros t].
  apply ro_bind; [eapply ro_weaken; [apply ro_getitem|tauto]|intros l].
  destruct (remove_first name l); [|apply ro_ret].
  apply ro_bind; [apply ro_store_phase|intros _].
  destruct (reason_given reason); [apply ro_log|apply ro_ret].
Qed.

Lemma ro_add_plugin phase name args reason :
  raises_only (fun e => e = KeyError \/ is_load_error e = true)
    (add_plugin phase name args reason).
Proof.
  unfold add_plugin.
  apply ro_bind; [eapply ro_weaken; [apply ro_template|tauto]|intros t].
  apply ro_bind; [eapply ro_weaken; [apply ro_getitem|tauto]|intros l].
  destruct (add_plugin_scan name args l) as [[l' modified] raised].
  apply ro_bind; [apply ro_store_phase|intros _].
  destruct raised; [apply ro_raise; now left|].
  destruct (negb modified); [|apply ro_ret].
  apply ro_bind; [apply ro_store_phase|intros _].
  destruct (reason_given reason); [apply ro_log|apply ro_ret].
Qed.

Lemma ro_disable_one d :
  raises_only (fun e => is_load_error e = true) (disable_one d).
Proof.
  unfold disable_one.
  apply ro_try_except with (E0 := fun e => e = KeyError \/ is_load_error e = true).
  - destruct (plugin_type d), (plugin_name d);
      first [apply ro_remove_plugin | apply ro_raise; now left].
  - intros e [->|L]; [apply ro_log|].
    destruct e; try discriminate L; reflexivity.
Qed.

Lemma ro_enable_one d :
  raises_only (fun e => is_load_error e = true) (enable_one d).
Proof.
  unfold enable_one.
  apply ro_try_except with (E0 := fun e => e = KeyError \/ is_load_error e = true).
  - cbv zeta. destruct (plugin_type d), (plugin_name d), (plugin_args d);
      first [apply ro_add_plugin | apply ro_raise; now left].
  - intros e [->|L]; [apply ro_log|].
    destruct e; try discriminate L; reflexivity.
Qed.

(** The customization pass lets through nothing but the parser's
    [ValueError] and the exception of the [template] property: the
    [KeyError] of a malformed directive, of a missing phase and of an entry
    without a name are all taken for a malformed directive. *)
Lemma ro_render_customizations :
  raises_only (fun e => is_load_error e = true) render_customizations.
Proof.
  unfold render_customizations.
  apply ro_bind; [eapply ro_weaken; [apply ro_customize_conf|now intros e ->]|].
  intros conf. apply ro_bind.
  - destruct (or_empty (disable_plugins conf)); [apply ro_log|].
    apply ro_for_each, ro_disable_one.
  - intros _.
    apply ro_bind;
      [eapply ro_weaken; [apply ro_customize_conf|now intros e ->]|].
    intros conf'. destruct (or_empty (enable_plugins conf')); [apply ro_log|].
    apply ro_for_each, ro_enable_one.
Qed.

Lemma roo_ret {A} phase name E (a : A) : raises_only_on phase name E (ret a).
Proof. intros w t e w' _ _ H. discriminate H. Qed.

Lemma roo_bind {A B} phase name E (m : M A) (f : A -> M B) :
  keeps_presence m ->
  raises_only_on phase name E m ->
  (forall a, raises_only_on phase name E (f a)) ->
  raises_only_on phase name E (bind m f).
Proof.
  intros K Hm Hf w t e w' D P H. rewrite bind_eq in H.
  destruct (m w) as [[a|e0] w1] eqn:R.
  - destruct (K w t _ _ D R) as (t1 & D1 & S1).
    apply (Hf a w1 t1 e w' D1); [now rewrite S1|exact H].
  - inversion H; subst. exact (Hm w t e w' D P R).
Qed.

Lemma roo_set_plugin_arg phase name k v :
  raises_only_on phase name (fun e => e = TypeError)
    (set_plugin_arg phase name k v).
Proof.
  intros w t e w' D P H.
  destruct (template_doc_is w t D) as (w1 & Ht & _).
  rewrite set_plugin_arg_eq, Ht in H. unfold set_arg_doc, present in *.
  destruct (lookup_plugin phase name t) as [p|]; [|discriminate].
  destruct (args_is_mapping p); inversion H; reflexivity.
Qed.

Lemma roo_set_plugin_arg_valid phase name k v :
  raises_only_on phase name (fun e => e = TypeError)
    (set_plugin_arg_valid phase name k v).
Proof.
  unfold set_plugin_arg_valid. destruct (is_not_None v); [|apply roo_ret].
  apply roo_bind; [apply kp_set_plugin_arg|apply roo_set_plugin_arg|].
  intros _. apply roo_ret.
Qed.

Lemma roo_ignore {A} phase name E (m : M A) :
  keeps_presence m -> raises_only_on phase name E m ->
  raises_only_on phase name E (ignore m).
Proof.
  intros K H. unfold ignore. apply roo_bind; [exact K|exact H|].
  intros _. apply roo_ret.
Qed.

Lemma roo_when phase name E b (m : M unit) :
  raises_only_on phase name E m -> raises_only_on phase name E (when b m).
Proof. intros H. unfold when. destruct b; [exact H|apply roo_ret]. Qed.

Lemma roo_if {A} phase name E (b : bool) (m1 m2 : M A) :
  raises_only_on phase name E m1 -> raises_only_on phase name E m2 ->
  raises_only_on phase name E (if b then m1 else m2).
Proof. now destruct b. Qed.

Lemma roo_image_prefixed phase name v :
  raises_only_on phase name (fun e => e = TypeError) (image_prefixed v).
Proof.
  unfold image_prefixed. intros w t e w' _ _.
  destruct v; intros H; inversion H; reflexivity.
Qed.

Lemma ro_guard_when phase name body :
  raises_only_on phase name (fun e => e = TypeError) body ->
  raises_only rule_error
    (present <- has_plugin_conf phase name ;; when present body).
Proof.
  intros Hb w e w' H. rewrite bind_eq, has_plugin_conf_eq in H.
  destruct (template w) as [[t|e0] w1] eqn:Ht.
  - pose proof (template_Ok _ _ _ Ht) as L.
    destruct (present phase name t) eqn:P; [|discriminate].
    left. exact (Hb w1 t e w' (or_introl L) P H).
  - inversion H; subst. right. exact (proj1 (template_Err _ _ _ Ht)).
Qed.

Lemma ro_guard_unless phase name body :
  raises_only_on phase name (fun e => e = TypeError) body ->
  raises_only rule_error
    (present <- has_plugin_conf phase name ;;
     if negb present then ret tt else body).
Proof.
  intros Hb w e w' H. rewrite bind_eq, has_plugin_conf_eq in H.
  destruct (template w) as [[t|e0] w1] eqn:Ht.
  - pose proof (template_Ok _ _ _ Ht) as L.
    destruct (present phase name t) eqn:P; [|discriminate].
    left. exact (Hb w1 t e w' (or_introl L) P H).
  - inversion H; subst. right. exact (proj1 (template_Err _ _ _ Ht)).
Qed.

Ltac raises_only_on_tac :=
  repeat first
    [ apply roo_ret
    | apply roo_set_plugin_arg_valid
    | apply roo_set_plugin_arg
    | apply roo_image_prefixed
    | apply roo_when
    | apply roo_ignore; [keeps_presence_tac|]
    | apply roo_if
    | apply roo_bind; [keeps_presence_tac| |intros ?] ].

(** A rule that starts with the presence check raises nothing but
    [TypeError] and the exception of the [template] property. *)
Lemma guarded_rules_raise up phase name m :
  In (phase, name, m) (rule_table up) -> name <> "pull_base_image" ->
  raises_only rule_error m.
Proof.
  unfold rule_table. simpl. intros I N.
  repeat (destruct I as [I|I];
          [inversion I; subst; clear I;
           try (exfalso; apply N; reflexivity);
           unfold_rules;
           first [apply ro_guard_when | apply ro_guard_unless];
           raises_only_on_tac|]).
  contradiction.
Qed.

Lemma ro_render_pull_base_image up :
  raises_only (fun e => rule_error e \/ pull_base_image_error e)
    (render_pull_base_image up).
Proof.
  unfold render_pull_base_image, when. cbv zeta.
  destruct (truthy (UserParams.parent_images_digests up)); [|apply ro_ret].
  intros w e w' H. rewrite set_plugin_arg_eq in H.
  destruct (template w) as [[t|e0] w1] eqn:Ht.
  - unfold set_arg_doc, lookup_plugin in H.
    destruct (Dict.get "prebuild_plugins" t) as [l|].
    + destruct (find (name_is "pull_base_image") l) as [p|].
      * destruct (args_is_mapping p); inversion H. left. now left.
      * inversion H. right. now right.
    + inversion H. right. now left.
  - inversion H; subst. left. right. exact (proj1 (template_Err _ _ _ Ht)).
Qed.

Lemma ro_to_json : raises_only (fun e => is_load_error e = true) to_json.
Proof.
  unfold to_json. apply ro_bind; [apply ro_template|intros t; apply ro_ret].
Qed.

Lemma ro_validate_params up :
  raises_only (fun e => UserParams.validate up = Err e) (validate_params up).
Proof.
  unfold validate_params. destruct (UserParams.validate up) as [u|e0] eqn:V.
  - apply ro_ret.
  - now apply ro_raise.
Qed.

Ltac rule_raises up :=
  match goal with
  | |- raises_only _ (?r up) =>
      eapply ro_weaken;
      [eapply (guarded_rules_raise up _ _ (r up));
       [unfold rule_table; simpl; tauto|discriminate]|]
  end.

(** X18.  The exceptions of [render].  Whatever the state, the template
    and the customization, an exception that [PluginsConfiguration.render]
    raises is the one [validate] raised, the JSON parser's [ValueError], the
    [OsbsException] of the [template] property, a [TypeError] of an
    assignment, or one of the two [RuntimeError]s of
    [render_pull_base_image]; the render of source container builds has the
    same exceptions without the [RuntimeError]s.  In particular no
    [KeyError] or [IndexError] of a lookup escapes. *)
Theorem render_exceptions up w e w' :
  (PluginsConfiguration.render up w = (Err e, w') ->
   UserParams.validate up = Err e
   \/ e = ValueError
   \/ (exists msg, e = OsbsException msg)
   \/ e = TypeError
   \/ pull_base_image_error e)
  /\ (SourceContainerPluginsConfiguration.render up w = (Err e, w') ->
      UserParams.validate up = Err e
      \/ e = ValueError
      \/ (exists msg, e = OsbsException msg)
      \/ e = TypeError).
Proof.
  assert (LE : forall e0, is_load_error e0 = true ->
                 e0 = ValueError \/ exists msg, e0 = OsbsException msg).
  { intros e0 H. destruct e0; try discriminate H; eauto. }
  split; intros H.
  - set (E := fun e0 => UserParams.validate up = Err e0
                        \/ rule_error e0 \/ pull_base_image_error e0).
    assert (R : raises_only E (PluginsConfiguration.render up)).
    { unfold PluginsConfiguration.render.
      apply ro_bind;
        [eapply ro_weaken; [apply ro_validate_params|unfold E; tauto]|intros _].
      apply ro_bind;
        [eapply ro_weaken;
         [apply ro_render_customizations|unfold E, rule_error; tauto]|intros _].
      repeat (apply ro_bind;
              [first [rule_raises up; unfold E; tauto
                     | eapply ro_weaken;
                       [apply ro_render_pull_base_image|unfold E; tauto]]
              |intros _]).
      eapply ro_weaken; [apply ro_to_json|unfold E, rule_error; tauto]. }
    destruct (R w e w' H) as [V|[[T|L]|P]].
    + now left.
    + do 3 right. now left.
    + destruct (LE e L) as [V|M]; [right; now left|do 2 right; now left].
    + do 4 right. exact P.
  - set (E := fun e0 => UserParams.validate up = Err e0 \/ rule_error e0).
    assert (R : raises_only E (SourceContainerPluginsConfiguration.render up)).
    { unfold SourceContainerPluginsConfiguration.render.
      apply ro_bind;
        [eapply ro_weaken; [apply ro_validate_params|unfold E; tauto]|intros _].
      apply ro_bind;
        [eapply ro_weaken;
         [apply ro_render_customizations|unfold E, rule_error; tauto]|intros _].
      repeat (apply ro_bind; [rule_raises up; unfold E; tauto|intros _]).
      eapply ro_weaken; [apply ro_to_json|unfold E, rule_error; tauto]. }
    destruct (R w e w' H) as [V|[T|L]].
    + now left.
    + now do 3 right.
    + destruct (LE e L) as [V|M]; [right; now left|do 2 right; now left].
Qed.

(** ** What the whole render keeps *)

#[export] Instance phase_invariant_doc R T {Inv : PhaseInvariant R T} :
  DocInvariant R T.
Proof.
  split.
  - apply ph_refl.
  - apply ph_trans.
  - intros phase name k v t p Ht Lk A.
    destruct (lookup_plugin_Ok _ _ _ _ Lk) as (l & G & F & _ & N).
    unfold update_entry, phase_list. rewrite G.
    apply ph_store with (nm := name) (l := l); [exact Ht|exact G|].
    intros name' D.
    apply find_replace_first_other with (p := p); [exact F| |congruence].
    now rewrite name_is_with_arg.
Qed.

#[export] Instance same_phases_phase_invariant :
  PhaseInvariant same_phases any_plugin.
Proof.
  split.
  - reflexivity.
  - unfold same_phases. intros t1 t2 t3 H1 H2. congruence.
  - intros ty nm l l' t _ G _. unfold same_phases.
    now apply map_fst_dict_set with (l := l).
Qed.

#[export] Instance untouched_phase_invariant phase name :
  PhaseInvariant (untouched phase name) (another_plugin phase name).
Proof.
  split.
  - reflexivity.
  - unfold untouched. intros t1 t2 t3 H1 H2. congruence.
  - intros ty nm l l' t Ht G F. unfold untouched, lookup_plugin.
    destruct (String.eqb_spec ty phase) as [->|N].
    + rewrite DictFacts.get_set_same, G. rewrite F; [reflexivity|].
      intros ->. now apply Ht.
    + now rewrite DictFacts.get_set_other.
Qed.

Lemma find_add_plugin_scan_other name' nm args l l' modified raised :
  name' <> nm ->
  add_plugin_scan nm args l = (l', modified, raised) ->
  find (name_is name') l' = find (name_is name') l.
Proof.
  intros D. revert l' modified raised.
  induction l as [|p r IH]; simpl; intros l' modified raised H.
  - now inversion H.
  - destruct (Dict.get "name" p) as [v|] eqn:G; [|now inversion H].
    destruct (add_plugin_scan nm args r) as [[r' m'] rs'].
    specialize (IH r' m' rs' eq_refl).
    inversion H; subst; clear H. simpl.
    assert (N : forall q, Dict.get "name" q = Some v ->
                  name_is name' q
                  = match v with JStr s => String.eqb s name' | _ => false end).
    { intros q Hq. unfold name_is. now rewrite Hq. }
    destruct v as [|b|z|s|l0|o]; try (now rewrite IH).
    destruct (String.eqb_spec s nm) as [->|Ns].
    + rewrite (N p G), N.
      * destruct (String.eqb_spec nm name') as [E|_]; [congruence|exact IH].
      * now rewrite DictFacts.get_set_other.
    + now rewrite IH.
Qed.

Section Pass.

Context {R : template_t -> template_t -> Prop} {T : string -> string -> Prop}
  {Inv : PhaseInvariant R T}.

Lemma keeps_remove_plugin ty nm reason :
  T ty nm -> keeps R (remove_plugin ty nm reason).
Proof.
  intros Ht w t r w' D H.
  destruct (template_doc_is w t D) as (w1 & E & L & _).
  unfold remove_plugin in H. rewrite bind_eq, E, bind_eq in H.
  unfold getitem in H.
  destruct (Dict.get ty t) as [l|] eqn:G; cbn [ret raise] in H.
  - destruct (remove_first nm l) as [l'|] eqn:Rm.
    + rewrite bind_eq, (store_phase_loaded _ _ _ _ L) in H.
      exists (Dict.set ty l' t). split.
      * left. destruct (reason_given reason); inversion H; reflexivity.
      * apply ph_store with (nm := nm) (l := l); [exact Ht|exact G|].
        intros name' N. now apply find_remove_first_other with (name := nm).
    + inversion H; subst. exists t. split; [now left|apply ph_refl].
  - inversion H; subst. exists t. split; [now left|apply ph_refl].
Qed.

Lemma keeps_add_plugin ty nm args reason :
  T ty nm -> keeps R (add_plugin ty nm args reason).
Proof.
  intros Ht w t r w' D H.
  destruct (template_doc_is w t D) as (w1 & E & L & _).
  unfold add_plugin in H. rewrite bind_eq, E, bind_eq in H.
  unfold getitem in H.
  destruct (Dict.get ty t) as [l|] eqn:G; cbn [ret raise] in H.
  - destruct (add_plugin_scan nm args l) as [[l' modified] raised] eqn:S.
    rewrite bind_eq, (store_phase_loaded _ _ _ _ L) in H.
    assert (F : forall name', name' <> nm ->
                  find (name_is name') l' = find (name_is name') l).
    { intros name' N. exact (find_add_plugin_scan_other _ _ _ _ _ _ _ N S). }
    destruct raised.
    + inversion H; subst. exists (Dict.set ty l' t).
      split; [now left|]. now apply ph_store with (nm := nm) (l := l).
    + destruct modified; cbn [negb] in H.
      * inversion H; subst. exists (Dict.set ty l' t).
        split; [now left|]. now apply ph_store with (nm := nm) (l := l).
      * rewrite bind_eq in H.
        rewrite (store_phase_loaded _ _ _ _ (loaded_put_template _ w1)) in H.
        rewrite dict_set_set, put_template_twice in H.
        exists (Dict.set ty (l' ++ [new_plugin nm args])%list t). split.
        { left. destruct (reason_given reason); inversion H; reflexivity. }
        apply ph_store with (nm := nm) (l := l); [exact Ht|exact G|].
        intros name' N. rewrite find_app_miss; [now apply F|].
        unfold name_is, new_plugin. simpl. apply String.eqb_neq. congruence.
  - inversion H; subst. exists t. split; [now left|apply ph_refl].
Qed.

Lemma keeps_disable_one d :
  (forall ty nm, plugin_type d = Some ty -> plugin_name d = Some nm -> T ty nm) ->
  keeps R (disable_one d).
Proof.
  intros Ht. unfold disable_one. apply keeps_try_except.
  - destruct (plugin_type d) as [ty|]; [|apply keeps_raise].
    destruct (plugin_name d) as [nm|]; [|apply keeps_raise].
    apply keeps_remove_plugin. now apply Ht.
  - intros e k Hk. destruct e; inversion Hk. apply keeps_log.
Qed.

Lemma keeps_enable_one d :
  (forall ty nm, plugin_type d = Some ty -> plugin_name d = Some nm -> T ty nm) ->
  keeps R (enable_one d).
Proof.
  intros Ht. unfold enable_one. cbv zeta. apply keeps_try_except.
  - destruct (plugin_type d) as [ty|]; [|apply keeps_raise].
    destruct (plugin_name d) as [nm|]; [|apply keeps_raise].
    destruct (plugin_args d) as [a|]; [|apply keeps_raise].
    apply keeps_add_plugin. now apply Ht.
  - intros e k Hk. destruct e; inversion Hk. apply keeps_log.
Qed.

Lemma keeps_for_each_in {A} (body : A -> M unit) l :
  (forall a, In a l -> keeps R (body a)) -> keeps R (for_each body l).
Proof.
  induction l as [|a r IH]; intros Hb; simpl; [apply keeps_ret|].
  apply keeps_bind; [apply Hb; now left|intros _].
  apply IH. intros a' I. apply Hb. now right.
Qed.

End Pass.

Lemma pc_ret {A} (a : A) : preserves_conf (ret a).
Proof. intros w r w' H. now inversion H. Qed.

Lemma pc_raise {A} e : preserves_conf (@raise A e).
Proof. intros w r w' H. now inversion H. Qed.

Lemma pc_log lv msg args : preserves_conf (log lv msg args).
Proof. intros w r w' H. now inversion H. Qed.

Lemma pc_bind {A B} (m : M A) (f : A -> M B) :
  preserves_conf m -> (forall a, preserves_conf (f a)) ->
  preserves_conf (bind m f).
Proof.
  intros Hm Hf w r w' H. rewrite bind_eq in H.
  destruct (m w) as [[a|e] w1] eqn:E.
  - pose proof (Hm _ _ _ E). pose proof (Hf a _ _ _ H).
    unfold same_conf in *. congruence.
  - inversion H; subst. exact (Hm _ _ _ E).
Qed.

Lemma pc_try_except {A} (m : M A) h :
  preserves_conf m -> (forall e k, h e = Some k -> preserves_conf k) ->
  preserves_conf (try_except m h).
Proof.
  intros Hm Hh w r w' H. unfold try_except in H.
  destruct (m w) as [[a|e] w1] eqn:E.
  - inversion H; subst. exact (Hm _ _ _ E).
  - pose proof (Hm _ _ _ E) as C1. destruct (h e) as [k|] eqn:K.
    + pose proof (Hh e k K _ _ _ H). unfold same_conf in *. congruence.
    + now inversion H; subst.
Qed.

Lemma pc_template : preserves_conf template.
Proof.
  intros w r w'. unfold template, same_conf.
  destruct (_template (pt w)); [now intros H; inversion H|].
  cbn. destruct (template_files w _); intros H; now inversion H.
Qed.

Lemma pc_store_phase phase l : preserves_conf (store_phase phase l).
Proof.
  intros w r w'. unfold store_phase, same_conf.
  destruct (_template (pt w)); intros H; now inversion H.
Qed.

Lemma pc_getitem phase t : preserves_conf (getitem phase t).
Proof.
  unfold getitem. destruct (Dict.get phase t); [apply pc_ret|apply pc_raise].
Qed.

Lemma pc_remove_plugin phase name reason :
  preserves_conf (remove_plugin phase name reason).
Proof.
  unfold remove_plugin. apply pc_bind; [apply pc_template|intros t].
  apply pc_bind; [apply pc_getitem|intros l].
  destruct (remove_first name l); [|apply pc_ret].
  apply pc_bind; [apply pc_store_phase|intros _].
  destruct (reason_given reason); [apply pc_log|apply pc_ret].
Qed.

Lemma pc_add_plugin phase name args reason :
  preserves_conf (add_plugin phase name args reason).
Proof.
  unfold add_plugin. apply pc_bind; [apply pc_template|intros t].
  apply pc_bind; [apply pc_getitem|intros l].
  destruct (add_plugin_scan name args l) as [[l' modified] raised].
  apply pc_bind; [apply pc_store_phase|intros _].
  destruct raised; [apply pc_raise|].
  destruct (negb modified); [|apply pc_ret].
  apply pc_bind; [apply pc_store_phase|intros _].
  destruct (reason_given reason); [apply pc_log|apply pc_ret].
Qed.

Lemma pc_for_each {A} (body : A -> M unit) l :
  (forall a, preserves_conf (body a)) -> preserves_conf (for_each body l).
Proof.
  intros Hb. induction l as [|a r IH]; simpl; [apply pc_ret|].
  apply pc_bind; [apply Hb|intros _; exact IH].
Qed.

Lemma pc_disable_one d : preserves_conf (disable_one d).
Proof.
  unfold disable_one. apply pc_try_except.
  - destruct (plugin_type d), (plugin_name d);
      first [apply pc_remove_plugin|apply pc_raise].
  - intros e k Hk. destruct e; inversion Hk. apply pc_log.
Qed.

(** The customization pass, for a relation that its directives keep. *)
Lemma render_customizations_keeps R T {Inv : PhaseInvariant R T} w t r w' :
  doc_is w t ->
  (forall d ty nm, In d (directives (customization_of w)) ->
     plugin_type d = Some ty -> plugin_name d = Some nm -> T ty nm) ->
  render_customizations w = (r, w') ->
  exists t', doc_is w' t' /\ R t t'.
Proof.
  intros D Ht H. unfold render_customizations in H. rewrite bind_eq in H.
  unfold customization_of in Ht.
  destruct (customize_conf w) as [[conf|e] wc] eqn:C.
  - simpl in Ht. destruct (customize_conf_Ok _ _ _ C) as [Cc Dc].
    specialize (Dc t D). rewrite bind_eq in H.
    set (m1 := match or_empty (disable_plugins conf) with
               | [] => log DEBUG "No site-user specified plugins to disable" []
               | _ :: _ => for_each disable_one (or_empty (disable_plugins conf))
               end) in H.
    assert (K1 : keeps R m1 /\ preserves_conf m1).
    { unfold m1. destruct (or_empty (disable_plugins conf)) as [|d ds] eqn:Ed.
      - split; [apply keeps_log|apply pc_log].
      - split; [|apply pc_for_each, pc_disable_one].
        apply keeps_for_each_in. intros a I. apply keeps_disable_one.
        intros ty nm. apply Ht. unfold directives. rewrite Ed.
        apply in_or_app. now left. }
    destruct K1 as [K1 P1].
    destruct (m1 wc) as [[[]|e1] w1] eqn:E1.
    + destruct (K1 _ _ _ _ Dc E1) as (t1 & D1 & R1).
      pose proof (P1 _ _ _ E1) as S1.
      assert (C1 : _customize_conf (pt w1) = Some conf)
        by (unfold same_conf in S1; congruence).
      rewrite bind_eq, (customize_conf_cached _ _ C1) in H.
      assert (K2 : keeps R
                     (match or_empty (enable_plugins conf) with
                      | [] =>
                          log DEBUG "No site-user specified plugins to enable" []
                      | _ :: _ =>
                          for_each enable_one (or_empty (enable_plugins conf))
                      end)).
      { destruct (or_empty (enable_plugins conf)) as [|d ds] eqn:Ed.
        - apply keeps_log.
        - apply keeps_for_each_in. intros a I. apply keeps_enable_one.
          intros ty nm. apply Ht. unfold directives. rewrite Ed.
          apply in_or_app. now right. }
      destruct (K2 _ _ _ _ D1 H) as (t2 & D2 & R2).
      exists t2. split; [exact D2|]. exact (ph_trans _ _ _ R1 R2).
    + inversion H; subst. exact (K1 _ _ _ _ Dc E1).
  - inversion H; subst. exact (keeps_customize_conf w t _ _ D C).
Qed.

Lemma validate_params_state up w r w' :
  validate_params up w = (r, w') -> w' = w.
Proof.
  unfold validate_params. destruct (UserParams.validate up);
    intros H; now inversion H.
Qed.

Ltac rule_keeps HT :=
  match goal with
  | |- keeps _ (?r ?up) =>
      eapply (rule_table_keeps _ _ up _ _ (r up));
      [unfold rule_table; simpl; tauto
      |eapply (HT _ _ (r up)); unfold rule_table; simpl; tauto]
  end.

(** Both [render] methods, for a relation that the customization
    directives and the rules keep. *)
Lemma render_keeps R T {Inv : PhaseInvariant R T} up w t :
  doc_is w t ->
  (forall d ty nm, In d (directives (customization_of w)) ->
     plugin_type d = Some ty -> plugin_name d = Some nm -> T ty nm) ->
  (forall ph nm m, In (ph, nm, m) (rule_table up) -> T ph nm) ->
  (forall r w', PluginsConfiguration.render up w = (r, w') ->
     exists t', doc_is w' t' /\ R t t')
  /\ (forall r w', SourceContainerPluginsConfiguration.render up w = (r, w') ->
        exists t', doc_is w' t' /\ R t t').
Proof.
  intros D Hc Hr.
  assert (Start : forall (rest : M json), keeps R rest ->
            forall r w',
              (validate_params up ;;; render_customizations ;;; rest) w = (r, w') ->
              exists t', doc_is w' t' /\ R t t').
  { intros rest K r w' H. rewrite bind_eq in H.
    destruct (validate_params up w) as [[[]|e] w0] eqn:V;
      pose proof (validate_params_state _ _ _ _ V); subst w0.
    - rewrite bind_eq in H.
      destruct (render_customizations w) as [[[]|e] w1] eqn:C.
      + destruct (render_customizations_keeps R T w t _ _ D Hc C)
          as (t1 & D1 & R1).
        destruct (K _ _ _ _ D1 H) as (t2 & D2 & R2).
        exists t2. split; [exact D2|]. exact (ph_trans _ _ _ R1 R2).
      + inversion H; subst.
        exact (render_customizations_keeps R T w t _ _ D Hc C).
    - inversion H; subst. exists t. split; [exact D|apply ph_refl]. }
  split; intros r w' H.
  - unfold PluginsConfiguration.render in H.
    apply (fun K => Start _ K r w' H).
    repeat (apply keeps_bind; [rule_keeps Hr|intros _]). apply keeps_to_json.
  - unfold SourceContainerPluginsConfiguration.render in H.
    apply (fun K => Start _ K r w' H).
    repeat (apply keeps_bind; [rule_keeps Hr|intros _]). apply keeps_to_json.
Qed.

Lemma rd_bind {A} (m : M A) (f : A -> M json) :
  (forall a, returns_document (f a)) -> returns_document (bind m f).
Proof.
  intros Hf w j w' H. rewrite bind_eq in H.
  destruct (m w) as [[a|e] w1]; [|discriminate]. exact (Hf a w1 j w' H).
Qed.

Lemma rd_to_json : returns_document to_json.
Proof.
  intros w j w' H. unfold to_json in H. rewrite bind_eq in H.
  destruct (template w) as [[t|e] w1] eqn:E; [|discriminate].
  inversion H; subst. exists t. split; [exact (template_Ok _ _ _ E)|reflexivity].
Qed.

Lemma renders_return_the_document up :
  returns_document (PluginsConfiguration.render up)
  /\ returns_document (SourceContainerPluginsConfiguration.render up).
Proof.
  split; repeat (apply rd_bind; intros _); apply rd_to_json.
Qed.

Lemma doc_is_loaded w t t' : doc_is w t -> loaded w t' -> t = t'.
Proof.
  unfold loaded. intros [L|[N _]] L'; congruence.
Qed.

(** X19.  The rendered configuration has the phases of the template.
    Whatever the customization and the parameters, and whether [render]
    returns or raises, the document it leaves has the phases of the
    template file, in the same order: no directive and no rule adds,
    removes or renames a phase.  When [render] returns, what it returns is
    that document, as handed to [json.dumps]. *)
Theorem render_keeps_the_phases_of_the_template up w t :
  doc_is w t ->
  (forall r w', PluginsConfiguration.render up w = (r, w') ->
     exists t', doc_is w' t' /\ map fst t' = map fst t
                /\ forall j, r = Ok j -> j = template_to_json t')
  /\ (forall r w', SourceContainerPluginsConfiguration.render up w = (r, w') ->
        exists t', doc_is w' t' /\ map fst t' = map fst t
                   /\ forall j, r = Ok j -> j = template_to_json t').
Proof.
  intros D.
  destruct (render_keeps same_phases any_plugin up w t D)
    as [K1 K2]; [easy|easy|].
  destruct (renders_return_the_document up) as [J1 J2].
  split; intros r w' H.
  - destruct (K1 r w' H) as (t' & D' & S). exists t'.
    split; [exact D'|]. split; [exact S|]. intros j ->.
    destruct (J1 _ _ _ H) as (t2 & L2 & ->).
    now rewrite (doc_is_loaded _ _ _ D' L2).
  - destruct (K2 r w' H) as (t' & D' & S). exists t'.
    split; [exact D'|]. split; [exact S|]. intros j ->.
    destruct (J2 _ _ _ H) as (t2 & L2 & ->).
    now rewrite (doc_is_loaded _ _ _ D' L2).
Qed.

Lemma render_keeps_the_phases_of_the_template_witness :
  exists t',
    doc_is (snd (PluginsConfiguration.render
                   (Sample.params "orchestrator" (JBool false) (JBool false)
                      (JBool false) JNull (Some "customize.json"))
                   Sample.customized_world)) t'
    /\ map fst t' = ["prebuild_plugins"; "buildstep_plugins";
                     "postbuild_plugins"; "exit_plugins"]
    /\ fst (PluginsConfiguration.render
              (Sample.params "orchestrator" (JBool false) (JBool false)
                 (JBool false) JNull (Some "customize.json"))
              Sample.customized_world) = Ok (template_to_json t').
Proof.
  destruct (render_keeps_the_phases_of_the_template
              (Sample.params "orchestrator" (JBool false) (JBool false)
                 (JBool false) JNull (Some "customize.json"))
              Sample.customized_world Sample.orchestrator_inner
              (or_intror (conj eq_refl eq_refl))) as [H _].
  destruct (H _ _ (surjective_pairing _)) as (t' & D' & S & J).
  exists t'. split; [exact D'|]. split; [exact S|].
  rewrite <- (J _ eq_refl). reflexivity.
Defined.

Lemma existsb_false_In {A} (f : A -> bool) l a :
  existsb f l = false -> In a l -> f a = false.
Proof.
  intros E I. destruct (f a) eqn:F; [|reflexivity].
  rewrite <- E. symmetry. apply existsb_exists. now exists a.
Qed.

(** X20.  [render] leaves alone a plugin that nothing names.  For a plugin
    that no directive of the customization names and that no rule
    configures, a lookup in the document that [render] leaves (whether it
    returned or raised) gives what it gave in the template: the same entry
    with the same arguments, or the same failure. *)
Theorem render_leaves_other_plugins_alone up w t phase name :
  doc_is w t ->
  customized phase name w = false ->
  configured_by_rule up phase name = false ->
  (forall r w', PluginsConfiguration.render up w = (r, w') ->
     exists t', doc_is w' t'
                /\ lookup_plugin phase name t' = lookup_plugin phase name t)
  /\ (forall r w', SourceContainerPluginsConfiguration.render up w = (r, w') ->
        exists t', doc_is w' t'
                   /\ lookup_plugin phase name t' = lookup_plugin phase name t).
Proof.
  intros D Hc Hr.
  apply (render_keeps (untouched phase name) (another_plugin phase name)
           up w t D).
  - intros d ty nm I Ety Enm E. inversion E; subst.
    pose proof (existsb_false_In _ _ _ Hc I) as F.
    unfold names_plugin in F. rewrite Ety, Enm, !String.eqb_refl in F.
    discriminate F.
  - intros ph nm m I E. inversion E; subst.
    pose proof (existsb_false_In _ _ _ Hr I) as F. cbv beta iota in F.
    rewrite !String.eqb_refl in F. discriminate F.
Qed.

Lemma render_leaves_other_plugins_alone_witness :
  exists t',
    doc_is (snd (PluginsConfiguration.render
                   (Sample.params "orchestrator" (JBool false) (JBool false)
                      (JBool false) JNull (Some "customize.json"))
                   Sample.customized_world)) t'
    /\ lookup_plugin "exit_plugins" "store_metadata" t'
       = Ok (Sample.entry "store_metadata" []).
Proof.
  destruct (render_leaves_other_plugins_alone
              (Sample.params "orchestrator" (JBool false) (JBool false)
                 (JBool false) JNull (Some "customize.json"))
              Sample.customized_world Sample.orchestrator_inner
              "exit_plugins" "store_metadata"
              (or_intror (conj eq_refl eq_refl)) eq_refl eq_refl) as [H _].
  exact (H _ _ (surjective_pairing _)).
Defined.

(** ** When [render] returns *)

Lemma dict_get_In {V} k (d : list (string * V)) v :
  Dict.get k d = Some v -> In (k, v) d.
Proof.
  induction d as [|[k0 v0] r IH]; simpl; [discriminate|].
  destruct (String.eqb_spec k0 k) as [->|N].
  - intros H; inversion H; subst. now left.
  - intros H. right. now apply IH.
Qed.

Lemma args_are_mappings_lookup phase name t p :
  args_are_mappings t = true -> lookup_plugin phase name t = Ok p ->
  args_is_mapping p = true.
Proof.
  intros H Lk. destruct (lookup_plugin_Ok _ _ _ _ Lk) as (l & G & _ & I & _).
  unfold args_are_mappings in H. rewrite forallb_forall in H.
  specialize (H _ (dict_get_In _ _ _ G)). cbv beta iota in H.
  rewrite forallb_forall in H. now apply H.
Qed.

Lemma forallb_replace_first (f : plugin -> bool) name p' l :
  forallb f l = true -> f p' = true ->
  forallb f (replace_first name p' l) = true.
Proof.
  intros H Hp. induction l as [|q r IH]; simpl in *; [reflexivity|].
  apply andb_true_iff in H. destruct H as [Hq Hr].
  destruct (name_is name q); simpl; [now rewrite Hp, Hr|now rewrite Hq, IH].
Qed.

Lemma args_are_mappings_set phase l t :
  args_are_mappings t = true -> forallb args_is_mapping l = true ->
  args_are_mappings (Dict.set phase l t) = true.
Proof.
  unfold args_are_mappings. intros Ht Hl.
  induction t as [|[k v] r IH]; simpl.
  - now rewrite Hl.
  - simpl in Ht. apply andb_true_iff in Ht. destruct Ht as [Hv Hr].
    destruct (String.eqb k phase); simpl; [now rewrite Hl, Hr|now rewrite Hv, IH].
Qed.

Lemma args_are_mappings_update phase name p p' t :
  lookup_plugin phase name t = Ok p -> args_is_mapping p' = true ->
  args_are_mappings t = true ->
  args_are_mappings (update_entry phase name p' t) = true.
Proof.
  intros Lk A H. destruct (lookup_plugin_Ok _ _ _ _ Lk) as (l & G & _).
  unfold update_entry, phase_list. rewrite G.
  apply args_are_mappings_set; [exact H|].
  apply forallb_replace_first; [|exact A].
  unfold args_are_mappings in H. rewrite forallb_forall in H.
  exact (H _ (dict_get_In _ _ _ G)).
Qed.

Lemma present_update_entry phase name p p' t phase' name' :
  lookup_plugin phase name t = Ok p -> name_is name p' = true ->
  present phase' name' (update_entry phase name p' t) = present phase' name' t.
Proof.
  intros Lk N. unfold present.
  destruct (String.eqb_spec phase' phase) as [->|Np];
    [destruct (String.eqb_spec name' name) as [->|Nn]|].
  - now rewrite (lookup_update_entry _ _ _ _ _ Lk N), Lk.
  - rewrite (lookup_update_entry_other _ _ _ _ _ _ _ Lk N); [reflexivity|].
    congruence.
  - rewrite (lookup_update_entry_other _ _ _ _ _ _ _ Lk N); [reflexivity|].
    congruence.
Qed.

#[export] Instance args_are_mappings_invariant :
  DocInvariant (maintains args_are_mappings) any_plugin.
Proof.
  split.
  - intros t H. exact H.
  - intros t1 t2 t3 H1 H2 H. auto.
  - intros phase name k v t p _ Lk A H.
    apply args_are_mappings_update with (p := p); auto.
    apply args_is_mapping_with_arg.
Qed.

#[export] Instance renderable_invariant up :
  DocInvariant (maintains (renderable up)) any_plugin.
Proof.
  split.
  - intros t H. exact H.
  - intros t1 t2 t3 H1 H2 H. auto.
  - intros phase name k v t p _ Lk A. unfold maintains, renderable.
    assert (N : name_is name (with_arg k v p) = true).
    { rewrite name_is_with_arg. exact (lookup_plugin_name_is _ _ _ _ Lk). }
    rewrite !(present_update_entry _ _ _ _ _ _ _ Lk N).
    intros H. apply andb_true_iff in H. destruct H as [H H3].
    apply andb_true_iff in H. destruct H as [H1 H2].
    rewrite H2, H3, (args_are_mappings_update _ _ _ _ _ Lk
                       (args_is_mapping_with_arg k v p) H1).
    reflexivity.
Qed.

Lemma renderable_mappings up t :
  renderable up t = true -> args_are_mappings t = true.
Proof.
  unfold renderable. intros H. apply andb_true_iff in H. destruct H as [H _].
  apply andb_true_iff in H. tauto.
Qed.

Lemma rf_bind {A B} P (m : M A) (f : A -> M B) :
  returns_from P m -> keeps (maintains P) m ->
  (forall a, returns_from P (f a)) ->
  returns_from P (bind m f).
Proof.
  intros Hm K Hf w t D H. destruct (Hm w t D H) as (a & w1 & E).
  destruct (K w t _ _ D E) as (t1 & D1 & M1).
  destruct (Hf a w1 t1 D1 (M1 H)) as (b & w2 & E2).
  exists b, w2. now rewrite bind_eq, E.
Qed.

Lemma rule_writes_skip up phase name m ws :
  In (phase, name, m, ws) (rule_writes up) -> name <> "pull_base_image" ->
  skips_when_absent phase name m.
Proof.
  unfold rule_writes. simpl. intros I N.
  repeat (destruct I as [I|I];
          [inversion I; subst; clear I;
           try (exfalso; apply N; reflexivity);
           unfold_rules; first [apply guard_when|apply guard_unless]|]).
  contradiction.
Qed.

(** A rule with a presence check returns on every document whose
    arguments are mappings. *)
Lemma rule_writes_return P up phase name m ws :
  (forall t, P t = true -> args_are_mappings t = true) ->
  In (phase, name, m, ws) (rule_writes up) -> name <> "pull_base_image" ->
  returns_from P m.
Proof.
  intros HP I N w t D H.
  destruct (lookup_plugin phase name t) as [p|e] eqn:Lk.
  - destruct (rule_writes_performed up phase name m ws I w t p D Lk
                (args_are_mappings_lookup _ _ _ _ (HP t H) Lk))
      as (w' & E & _).
    now exists tt, w'.
  - destruct (rule_writes_skip up phase name m ws I N w t D) as (w' & E & _).
    + unfold present. now rewrite Lk.
    + now exists tt, w'.
Qed.

Lemma render_pull_base_image_returns up :
  returns_from (renderable up) (render_pull_base_image up).
Proof.
  intros w t D H.
  destruct (truthy (UserParams.parent_images_digests up)) eqn:Tr.
  - assert (P : present "prebuild_plugins" "pull_base_image" t = true).
    { unfold renderable in H. rewrite Tr in H.
      apply andb_true_iff in H. destruct H as [H _].
      apply andb_true_iff in H. destruct H as [_ H]. exact H. }
    unfold present in P.
    destruct (lookup_plugin "prebuild_plugins" "pull_base_image" t)
      as [p|] eqn:Lk; [|discriminate].
    assert (I : In ("prebuild_plugins", "pull_base_image",
                    render_pull_base_image up,
                    [if_truthy (UserParams.parent_images_digests up)
                       "parent_images_digests"
                       (UserParams.parent_images_digests up)])
                  (rule_writes up)).
    { unfold rule_writes. simpl. tauto. }
    destruct (rule_writes_performed up _ _ _ _ I w t p D Lk
                (args_are_mappings_lookup _ _ _ _ (renderable_mappings _ _ H) Lk))
      as (w' & E & _).
    now exists tt, w'.
  - exists tt, w. unfold render_pull_base_image, when. now rewrite Tr.
Qed.

Lemma render_orchestrate_build_returns up :
  returns_from (renderable up) (render_orchestrate_build up).
Proof.
  intros w t D H.
  destruct (lookup_plugin "buildstep_plugins" "orchestrate_build" t)
    as [p|e] eqn:Lk.
  - destruct (render_orchestrate_build_doc up w t p D Lk
                (args_are_mappings_lookup _ _ _ _ (renderable_mappings _ _ H) Lk))
      as (r & w' & E & O).
    unfold renderable, present in H. rewrite Lk in H.
    destruct (orchestrate_config_kwargs up) as [c|].
    + destruct O as [-> _]. now exists tt, w'.
    + rewrite andb_false_r in H. discriminate H.
  - destruct (guard_unless "buildstep_plugins" "orchestrate_build"
                (let build_kwargs := orchestrate_build_kwargs up in
                 ignore (set_plugin_arg_valid "buildstep_plugins"
                           "orchestrate_build" "platforms"
                           (UserParams.platforms up)) ;;;
                 set_plugin_arg "buildstep_plugins" "orchestrate_build"
                   "build_kwargs" (JObj build_kwargs) ;;;
                 config_kwargs <-
                   (if negb (truthy (UserParams.buildroot_is_imagestream up))
                    then
                      build_from <- image_prefixed (UserParams.build_image up) ;;
                      ret [("build_from", build_from)]
                    else ret []) ;;
                 set_plugin_arg "buildstep_plugins" "orchestrate_build"
                   "config_kwargs" (JObj config_kwargs))
                w t D) as (w' & E & _).
    + unfold present. now rewrite Lk.
    + exists tt, w'. exact E.
Qed.

Lemma to_json_returns P : returns_from P to_json.
Proof.
  intros w t D _. destruct (template_doc_is w t D) as (w1 & E & _).
  exists (template_to_json t), w1. unfold to_json. now rewrite bind_eq, E.
Qed.

Ltac rule_returns up HP :=
  match goal with
  | |- returns_from _ (render_pull_base_image up) =>
      apply render_pull_base_image_returns
  | |- returns_from _ (render_orchestrate_build up) =>
      apply render_orchestrate_build_returns
  | |- returns_from _ (?r up) =>
      eapply (rule_writes_return _ up _ _ (r up) _ HP);
      [unfold rule_writes; simpl; tauto|discriminate]
  end.

Ltac rule_maintains up :=
  match goal with
  | |- keeps _ (?r up) =>
      eapply (rule_table_keeps _ any_plugin up _ _ (r up));
      [unfold rule_table; simpl; tauto|exact Logic.I]
  end.

(** X21.  When [render] returns.  Once the parameters validate and the
    customization pass has returned, the render of an image build returns
    provided that, in the document the pass left, every [args] is absent
    or a mapping, [pull_base_image] is configured if parent image digests
    are passed, and [build_image] is a string (or the buildroot an
    imagestream) if [orchestrate_build] is configured; the render of a
    source container build returns as soon as every [args] is absent or a
    mapping.  What is returned is the document that is left, which has the
    entries the pass left, in the same order, up to their [args]. *)
Theorem render_returns up w w1 t1 :
  UserParams.validate up = Ok tt ->
  render_customizations w = (Ok tt, w1) ->
  doc_is w1 t1 ->
  (renderable up t1 = true ->
   exists w' t',
     PluginsConfiguration.render up w = (Ok (template_to_json t'), w')
     /\ loaded w' t' /\ same_entries t1 t')
  /\ (args_are_mappings t1 = true ->
      exists w' t',
        SourceContainerPluginsConfiguration.render up w
        = (Ok (template_to_json t'), w')
        /\ loaded w' t' /\ same_entries t1 t').
Proof.
  intros Hv Hc D.
  assert (Fin : forall P (rest : M json),
            returns_from P rest -> keeps same_entries rest ->
            returns_document rest -> P t1 = true ->
            exists w' t',
              (validate_params up ;;; render_customizations ;;; rest) w
              = (Ok (template_to_json t'), w')
              /\ loaded w' t' /\ same_entries t1 t').
  { intros P rest Hr Hk Hd H.
    destruct (Hr w1 t1 D H) as (j & w' & E).
    destruct (Hd _ _ _ E) as (t' & L & ->).
    destruct (Hk _ _ _ _ D E) as (t2 & D2 & S).
    rewrite (doc_is_loaded _ _ _ D2 L) in S.
    exists w', t'. split; [|split; [exact L|exact S]].
    unfold validate_params. rewrite Hv, bind_eq. cbn [ret].
    now rewrite bind_eq, Hc. }
  split; intros H.
  - apply (Fin (renderable up)); [| | |exact H].
    + repeat (apply rf_bind;
              [rule_returns up (renderable_mappings up)
              |rule_maintains up|intros _]).
      apply to_json_returns.
    + repeat (apply keeps_bind; [rule_maintains up|intros _]).
      apply keeps_to_json.
    + repeat (apply rd_bind; intros _). apply rd_to_json.
  - apply (Fin args_are_mappings); [| | |exact H].
    + repeat (apply rf_bind;
              [rule_returns up (fun t (H0 : args_are_mappings t = true) => H0)
              |rule_maintains up|intros _]).
      apply to_json_returns.
    + repeat (apply keeps_bind; [rule_maintains up|intros _]).
      apply keeps_to_json.
    + repeat (apply rd_bind; intros _). apply rd_to_json.
Qed.

Lemma render_returns_witness :
  exists w' t',
    PluginsConfiguration.render
      (Sample.params "orchestrator" (JBool false) (JBool false)
         (JBool false) JNull (Some "customize.json"))
      Sample.customized_world
    = (Ok (template_to_json t'), w')
    /\ loaded w' t'
    /\ same_entries
         [("prebuild_plugins",
           [Sample.entry "reactor_config" []; Sample.entry "bump_release" [];
            Sample.entry "koji" [("hub", JStr "https://koji.example.com/hub")]]);
          ("buildstep_plugins", [Sample.entry "orchestrate_build" []]);
          ("postbuild_plugins", [Sample.entry "tag_from_config" []]);
          ("exit_plugins",
           [Sample.entry "koji_tag_build" []; Sample.entry "store_metadata" []])]
         t'.
Proof.
  refine (proj1 (render_returns
                   (Sample.params "orchestrator" (JBool false) (JBool false)
                      (JBool false) JNull (Some "customize.json"))
                   Sample.customized_world
                   (snd (render_customizations Sample.customized_world))
                   _ eq_refl eq_refl (or_introl eq_refl)) eq_refl).
Defined.
